(** * Archived-website URL pipeline: classification engine and checkpoints

    A shallow embedding of the Python sources
    [llm_planning.py], [url_processing.py], [scenario_analyzer.py] and
    [main.py], with the properties of the pattern compiler, the URL
    classifier, the selection post-processing, link discovery and the
    resume logic stated against it.

    Conventions of the embedding.
    - A Python [str] is a [string]; the Unicode-aware operations the code
      uses ([lower], [strip], [\d], [re.IGNORECASE]) are modelled on the
      ASCII range.
    - A Python [dict] is an association list in insertion order ([pydict]).
    - An exception is a value [Raise e] of the type [result]; [try/except
      Exception] is a [match] on it.
    - Calls of [self.logger] are left out: logging set-up is outside the
      specified core and no logger call changes a value the code returns
      or writes. *)

From Stdlib Require Import String Ascii List Bool Arith ZArith Lia.
From Stdlib Require Import Permutation Sorted DecimalString.
From Stdlib Require OrderedTypeEx.
Import ListNotations.
Open Scope string_scope.
Open Scope nat_scope.
Open Scope list_scope.

Infix "+++" := String.append (at level 60, right associativity).

Set Implicit Arguments.
Set Warnings "-register-all,-abstract-large-number".

(** ** Exceptions *)

Inductive exn : Type :=
| ValueError (msg : string)
| KeyError (key : string)
| TypeError (msg : string)
| RuntimeError (msg : string)
| AttributeError (msg : string)
| OtherError (msg : string).

Inductive result (A : Type) : Type :=
| Ok (a : A)
| Raise (e : exn).

Arguments Ok {A} a.
Arguments Raise {A} e.

Definition rbind {A B : Type} (r : result A) (k : A -> result B) : result B :=
  match r with
  | Ok a => k a
  | Raise e => Raise e
  end.

Declare Scope result_scope.
Delimit Scope result_scope with result.
Notation "x <- r ;; k" := (rbind r (fun x => k))
  (at level 61, r at next level, right associativity) : result_scope.
Notation "' p <- r ;; k" := (rbind r (fun x => let p := x in k))
  (at level 61, p pattern, r at next level, right associativity) : result_scope.

(** [str(e)] of the exception, as the [except] blocks store it. *)
Definition exn_message (e : exn) : string :=
  match e with
  | ValueError m | TypeError m | RuntimeError m | AttributeError m
  | OtherError m => m
  | KeyError k => "'" +++ k +++ "'"
  end.

(** ** Python string operations *)

Definition is_upper (c : ascii) : bool :=
  let n := nat_of_ascii c in (65 <=? n) && (n <=? 90).

Definition is_lower (c : ascii) : bool :=
  let n := nat_of_ascii c in (97 <=? n) && (n <=? 122).

Definition is_digit (c : ascii) : bool :=
  let n := nat_of_ascii c in (48 <=? n) && (n <=? 57).

Definition is_alpha (c : ascii) : bool := is_upper c || is_lower c.

Definition is_alnum (c : ascii) : bool := is_alpha c || is_digit c.

(** [str.isspace] on one character: TAB, LF, VT, FF, CR, FS, GS, RS, US, SP. *)
Definition is_space (c : ascii) : bool :=
  let n := nat_of_ascii c in
  ((9 <=? n) && (n <=? 13)) || ((28 <=? n) && (n <=? 32)).

Definition lower_char (c : ascii) : ascii :=
  if is_upper c then ascii_of_nat (nat_of_ascii c + 32) else c.

(** [s.lower()] *)
Fixpoint lower (s : string) : string :=
  match s with
  | EmptyString => EmptyString
  | String c s' => String (lower_char c) (lower s')
  end.

(** [s.startswith(p)] *)
Definition startswith (s p : string) : bool := String.prefix p s.

(** [s[n:]] *)
Fixpoint drop (n : nat) (s : string) : string :=
  match n, s with
  | O, _ => s
  | S _, EmptyString => EmptyString
  | S k, String _ s' => drop k s'
  end.

(** [s[:n]] *)
Fixpoint take (n : nat) (s : string) : string :=
  match n, s with
  | O, _ => EmptyString
  | S _, EmptyString => EmptyString
  | S k, String c s' => String c (take k s')
  end.

(** [sub in s] *)
Fixpoint contains (s sub : string) : bool :=
  String.prefix sub s ||
  match s with
  | EmptyString => false
  | String _ s' => contains s' sub
  end.

(** [c in s] for a single character. *)
Fixpoint has_char (c : ascii) (s : string) : bool :=
  match s with
  | EmptyString => false
  | String d s' => Ascii.eqb c d || has_char c s'
  end.

(** [s.endswith(p)] *)
Fixpoint endswith (s p : string) : bool :=
  String.eqb s p ||
  match s with
  | EmptyString => false
  | String _ s' => endswith s' p
  end.

(** The text before the first [c] ([s.split(c)[0]], and the first
    component of [s.split(c, 1)]); all of [s] when [c] does not occur. *)
Fixpoint before_char (c : ascii) (s : string) : string :=
  match s with
  | EmptyString => EmptyString
  | String d s' => if Ascii.eqb c d then EmptyString else String d (before_char c s')
  end.

(** The text after the first [c] (second component of [s.split(c, 1)]);
    empty when [c] does not occur. *)
Fixpoint after_char (c : ascii) (s : string) : string :=
  match s with
  | EmptyString => EmptyString
  | String d s' => if Ascii.eqb c d then s' else after_char c s'
  end.

(** [s.replace(old, new, 1)] for a non-empty [old]. *)
Fixpoint replace_first (old new s : string) : string :=
  if String.prefix old s then new +++ drop (String.length old) s
  else match s with
       | EmptyString => EmptyString
       | String c s' => String c (replace_first old new s')
       end.

(** [s.replace(old, new)] for a non-empty [old]: the occurrences are taken
    left to right and do not overlap.  [skip] counts the characters of the
    occurrence just replaced that are still to be passed over. *)
Fixpoint replace_from (old new : string) (skip : nat) (s : string) : string :=
  match s with
  | EmptyString => EmptyString
  | String c s' =>
      match skip with
      | S k => replace_from old new k s'
      | O => if String.prefix old s
             then new +++ replace_from old new (String.length old - 1) s'
             else String c (replace_from old new 0 s')
      end
  end.

Definition replace_all (old new s : string) : string := replace_from old new 0 s.

Fixpoint lstrip_with (p : ascii -> bool) (s : string) : string :=
  match s with
  | EmptyString => EmptyString
  | String c s' => if p c then lstrip_with p s' else s
  end.

Fixpoint rstrip_with (p : ascii -> bool) (s : string) : string :=
  match s with
  | EmptyString => EmptyString
  | String c s' =>
      match rstrip_with p s' with
      | EmptyString => if p c then EmptyString else String c EmptyString
      | t => String c t
      end
  end.

(** [s.strip()] *)
Definition strip (s : string) : string := rstrip_with is_space (lstrip_with is_space s).

(** [[c for c in s if not p(c)]] joined: removal of single characters. *)
Fixpoint remove_chars (p : ascii -> bool) (s : string) : string :=
  match s with
  | EmptyString => EmptyString
  | String c s' => if p c then remove_chars p s' else String c (remove_chars p s')
  end.

Definition all_chars (p : ascii -> bool) (s : string) : bool :=
  forallb p (list_ascii_of_string s).

(** Python truthiness of a string. *)
Definition truthy (s : string) : bool := negb (String.eqb s "").

(** ** Python dictionaries *)

Definition pydict (V : Type) : Type := list (string * V).

(** [d.get(k)] *)
Fixpoint dict_get {V : Type} (k : string) (d : pydict V) : option V :=
  match d with
  | [] => None
  | (k', v) :: d' => if String.eqb k k' then Some v else dict_get k d'
  end.

(** [k in d] *)
Definition dict_mem {V : Type} (k : string) (d : pydict V) : bool :=
  match dict_get k d with Some _ => true | None => false end.

(** [d[k] = v]: an existing key keeps its position, a new one goes last. *)
Fixpoint dict_set {V : Type} (k : string) (v : V) (d : pydict V) : pydict V :=
  match d with
  | [] => [(k, v)]
  | (k', v') :: d' =>
      if String.eqb k k' then (k, v) :: d' else (k', v') :: dict_set k v d'
  end.

Definition dict_keys {V : Type} (d : pydict V) : list string := map fst d.

(** [u in l] for a list of strings. *)
Definition str_in (u : string) (l : list string) : bool :=
  existsb (String.eqb u) l.

(** [list(dict.fromkeys(l))]: duplicates removed, first occurrences kept in
    order.  [seen] holds the keys already in the dictionary. *)
Fixpoint fromkeys_from (seen : list string) (l : list string) : list string :=
  match l with
  | [] => []
  | u :: l' =>
      if str_in u seen then fromkeys_from seen l'
      else u :: fromkeys_from (u :: seen) l'
  end.

Definition dedup_keep_order (l : list string) : list string := fromkeys_from [] l.

(** ** Regular expressions

    The fragment of Python's [re] syntax that the program's patterns use:
    literal characters, backslash escapes of non-alphanumeric characters,
    [.], a [*] after a single-character atom, [^] and [$].  Every regex is
    compiled and used with [re.IGNORECASE] or on lower-cased text. *)

Inductive atom : Type :=
| AChar (c : ascii)
| AAny.

Inductive item : Type :=
| IAtom (a : atom)
| IStar (a : atom)
| IBol
| IEol.

Definition regex : Type := list item.

Definition newline : ascii := ascii_of_nat 10.

(** The characters [re.escape] puts a backslash before (Python 3.7 and
    later): [()[]{}?*+-|^$\.&~#], space, TAB, LF, CR, VT and FF. *)
Definition is_re_special (c : ascii) : bool :=
  has_char c "()[]{}?*+-|^$\.&~# " ||
  let n := nat_of_ascii c in (9 <=? n) && (n <=? 13).

(** [re.escape(s)] *)
Fixpoint re_escape (s : string) : string :=
  match s with
  | EmptyString => EmptyString
  | String c s' =>
      if is_re_special c then String "\" (String c (re_escape s'))
      else String c (re_escape s')
  end.

(** [re.compile(pattern)]: [None] stands for [re.error] (a lone trailing
    backslash, a [*] with nothing to repeat) and for syntax outside the
    fragment.  [acc] holds the items read so far, last one first. *)
Fixpoint re_parse (acc : list item) (s : string) : option regex :=
  match s with
  | EmptyString => Some (rev acc)
  | String "\" EmptyString => None
  | String "\" (String c s') =>
      if is_alnum c then None else re_parse (IAtom (AChar c) :: acc) s'
  | String "." s' => re_parse (IAtom AAny :: acc) s'
  | String "^" s' => re_parse (IBol :: acc) s'
  | String "$" s' => re_parse (IEol :: acc) s'
  | String "*" s' =>
      match acc with
      | IAtom a :: acc' => re_parse (IStar a :: acc') s'
      | _ => None
      end
  | String c s' =>
      if has_char c "()[]{}?+|" then None
      else re_parse (IAtom (AChar c) :: acc) s'
  end.

Definition re_compile (pattern : string) : option regex := re_parse [] pattern.

(** One character against one atom, ignoring case; [.] does not match a
    line feed. *)
Definition atom_matches (a : atom) (d : ascii) : bool :=
  match a with
  | AChar c => Ascii.eqb (lower_char c) (lower_char d)
  | AAny => negb (Ascii.eqb d newline)
  end.

Definition at_eol (s : string) : bool :=
  String.eqb s "" || String.eqb s (String newline "").

(** Does some prefix of [s] match the items?  [bos] tells whether [s]
    starts at the beginning of the subject string. *)
Fixpoint match_items (r : regex) : bool -> string -> bool :=
  match r with
  | [] => fun _ _ => true
  | IAtom a :: r' =>
      fun _ s =>
        match s with
        | String d s' => atom_matches a d && match_items r' false s'
        | EmptyString => false
        end
  | IStar a :: r' =>
      fix star (bos : bool) (s : string) {struct s} : bool :=
        match_items r' bos s ||
        match s with
        | String d s' => atom_matches a d && star false s'
        | EmptyString => false
        end
  | IBol :: r' => fun bos s => bos && match_items r' bos s
  | IEol :: r' => fun bos s => at_eol s && match_items r' bos s
  end.

(** [regex.match(s)] as a truth value: a match that starts at position 0. *)
Definition regex_match (r : regex) (s : string) : bool := match_items r true s.

Fixpoint search_from (r : regex) (bos : bool) (s : string) : bool :=
  match_items r bos s ||
  match s with
  | EmptyString => false
  | String _ s' => search_from r false s'
  end.

(** [re.search(pattern, s)] as a truth value: a match at any position. *)
Definition regex_search (r : regex) (s : string) : bool := search_from r true s.

(** ** The planner's taxonomy and compiled matchers ([llm_planning.py]) *)

(** A page-type object of the taxonomy; a key that is absent is [None]
    (the code reads both with [.get] and a default). *)
Record type_obj : Type := mk_type_obj {
  type_name : option string;
  typical_url_patterns : option (list string)
}.

(** An item of the flat list [core_page_types]. *)
Record flat_type : Type := mk_flat_type {
  related_journey_stage : option string;
  flat_obj : type_obj
}.

(** A tuple [(stage, type_name, regex, len(raw_pat))] of
    [_compiled_patterns]. *)
Record compiled_matcher : Type := mk_matcher {
  cm_stage : string;
  cm_type_name : string;
  cm_regex : regex;
  cm_pattern_len : nat
}.

(** The fields of [LLMPlanner] that classification reads or writes. *)
Record planner : Type := mk_planner {
  core_page_types : list flat_type;
  core_page_types_nested : pydict (list type_obj);
  compiled_patterns : option (list compiled_matcher)
}.

(** [nested.setdefault(stage, []).append(obj)] *)
Fixpoint setdefault_append {V : Type} (k : string) (v : V) (d : pydict (list V))
  : pydict (list V) :=
  match d with
  | [] => [(k, [v])]
  | (k', vs) :: d' =>
      if String.eqb k k' then (k', vs ++ [v]) :: d'
      else (k', vs) :: setdefault_append k v d'
  end.

(** The loop that rebuilds the nested mapping from the flat list. *)
Definition nest_flat_types (flat : list flat_type) : pydict (list type_obj) :=
  fold_left
    (fun nested it =>
       let stage := match related_journey_stage it with
                    | Some s => s
                    | None => "Unknown Stage"
                    end in
       setdefault_append stage (flat_obj it) nested)
    flat [].

(** The regex source text for one raw pattern (lines 256-260). *)
Definition pattern_regex_text (raw_pat : string) : string :=
  if String.eqb (strip raw_pat) "/" then "^/$"
  else replace_all "\\*" ".*" (re_escape raw_pat).

(** The body of the innermost loop: one raw pattern appended to
    [compiled], or skipped when [re.compile] fails. *)
Definition compile_pattern (stage tname raw_pat : string)
  (compiled : list compiled_matcher) : list compiled_matcher :=
  match re_compile (pattern_regex_text raw_pat) with
  | Some rx => compiled ++ [mk_matcher stage tname rx (String.length raw_pat)]
  | None => compiled
  end.

Definition compile_type (stage : string) (compiled : list compiled_matcher)
  (t : type_obj) : list compiled_matcher :=
  let tname := match type_name t with Some n => n | None => "Unknown" end in
  fold_left (fun acc raw_pat => compile_pattern stage tname raw_pat acc)
            (match typical_url_patterns t with Some ps => ps | None => [] end)
            compiled.

Definition compile_stage (compiled : list compiled_matcher)
  (entry : string * list type_obj) : list compiled_matcher :=
  fold_left (compile_type (fst entry)) (snd entry) compiled.

(** The three nested loops over [nested.items()]. *)
Definition compile_nested (nested : pydict (list type_obj)) : list compiled_matcher :=
  fold_left compile_stage nested [].

(** [compiled.sort(key=lambda x: -x[3])].  Python's sort is stable, and a
    stable sort is determined by its key: insertion from the right, each
    element going before the first one that is not strictly longer. *)
Fixpoint insert_matcher (x : compiled_matcher) (l : list compiled_matcher)
  : list compiled_matcher :=
  match l with
  | [] => [x]
  | y :: l' =>
      if cm_pattern_len x <? cm_pattern_len y then y :: insert_matcher x l'
      else x :: y :: l'
  end.

Definition sort_matchers (l : list compiled_matcher) : list compiled_matcher :=
  fold_right insert_matcher [] l.

Definition list_truthy {A : Type} (l : list A) : bool :=
  match l with [] => false | _ => true end.

(** [_compile_core_type_patterns]: returns the planner after the call. *)
Definition _compile_core_type_patterns (self : planner) : planner :=
  match compiled_patterns self with
  | Some (_ :: _) => self
  | _ =>
      let nested :=
        if list_truthy (core_page_types_nested self)
        then core_page_types_nested self
        else nest_flat_types (core_page_types self) in
      mk_planner (core_page_types self) nested
                 (Some (sort_matchers (compile_nested nested)))
  end.

(** ** [urllib.parse.urlparse]

    The standard-library parser as of CPython 3.11 and 3.12, on ASCII
    text.  A network location that holds both square brackets is handed to
    [_check_bracketed_netloc], which relies on the [ipaddress] module and
    raises [ValueError] for what is not an IP literal; here that check is
    the parameter [valid_bracketed_netloc]. *)

Record ParseResult : Type := mk_ParseResult {
  scheme : string;
  netloc : string;
  path : string;
  params : string;
  query : string;
  fragment : string
}.

Definition is_c0_or_space (c : ascii) : bool := nat_of_ascii c <=? 32.

Definition is_unsafe_url_byte (c : ascii) : bool :=
  let n := nat_of_ascii c in (n =? 9) || (n =? 10) || (n =? 13).

Definition is_scheme_char (c : ascii) : bool := is_alnum c || has_char c "+-.".

Definition is_netloc_delim (c : ascii) : bool := has_char c "/?#".

(** The longest prefix without a character satisfying [p]. *)
Fixpoint span_until (p : ascii -> bool) (s : string) : string :=
  match s with
  | EmptyString => EmptyString
  | String c s' => if p c then EmptyString else String c (span_until p s')
  end.

(** What is left after that prefix (it starts with the delimiter). *)
Fixpoint rest_from (p : ascii -> bool) (s : string) : string :=
  match s with
  | EmptyString => EmptyString
  | String c s' => if p c then s else rest_from p s'
  end.

Definition uses_params : list string :=
  [""; "ftp"; "hdl"; "prospero"; "http"; "imap"; "https"; "shttp"; "rtsp";
   "rtspu"; "sip"; "sips"; "mms"; "sftp"; "tel"].

(** [(url[:k], url[k:])] for [k = url.rfind('/')], when there is a [/]. *)
Fixpoint split_last_slash (s : string) : option (string * string) :=
  match s with
  | EmptyString => None
  | String c s' =>
      match split_last_slash s' with
      | Some (a, b) => Some (String c a, b)
      | None => if Ascii.eqb c "/" then Some (EmptyString, s) else None
      end
  end.

(** [_splitparams(url)] *)
Definition _splitparams (url : string) : string * string :=
  match split_last_slash url with
  | Some (a, b) =>
      if has_char ";" b then (a +++ before_char ";" b, after_char ";" b)
      else (url, "")
  | None => (before_char ";" url, after_char ";" url)
  end.

Section UrlLib.

Variable valid_bracketed_netloc : string -> bool.

(** [urlsplit(url)]: scheme, netloc, path, query, fragment. *)
Definition urlsplit (url0 : string)
  : result (string * string * string * string * string) :=
  let url1 := remove_chars is_unsafe_url_byte (lstrip_with is_c0_or_space url0) in
  let cand := before_char ":" url1 in
  let '(scheme, url2) :=
    match cand with
    | String c0 _ =>
        if has_char ":" url1 && is_alpha c0 && all_chars is_scheme_char cand
        then (lower cand, after_char ":" url1)
        else ("", url1)
    | EmptyString => ("", url1)
    end in
  let split_authority :=
    if startswith url2 "//" then
      let body := drop 2 url2 in
      let netloc := span_until is_netloc_delim body in
      let rest := rest_from is_netloc_delim body in
      if (has_char "[" netloc && negb (has_char "]" netloc)) ||
         (has_char "]" netloc && negb (has_char "[" netloc))
      then Raise (ValueError "Invalid IPv6 URL")
      else if has_char "[" netloc && has_char "]" netloc &&
              negb (valid_bracketed_netloc netloc)
      then Raise (ValueError "Invalid IPv6 URL")
      else Ok (netloc, rest)
    else Ok ("", url2) in
  match split_authority with
  | Raise e => Raise e
  | Ok (netloc, url3) =>
      let '(url4, fragment) :=
        if has_char "#" url3 then (before_char "#" url3, after_char "#" url3)
        else (url3, "") in
      let '(url5, query) :=
        if has_char "?" url4 then (before_char "?" url4, after_char "?" url4)
        else (url4, "") in
      Ok (scheme, netloc, url5, query, fragment)
  end.

(** [urlparse(url)] *)
Definition urlparse (url : string) : result ParseResult :=
  match urlsplit url with
  | Raise e => Raise e
  | Ok (scheme, netloc, url', query, fragment) =>
      let '(path, params) :=
        if str_in scheme uses_params && has_char ";" url'
        then _splitparams url'
        else (url', "") in
      Ok (mk_ParseResult scheme netloc path params query fragment)
  end.

(** ** Unwrapping an archived URL ([llm_planning.py], lines 285-324) *)

(** The text up to the end of the line: what [.*] takes. *)
Definition to_eol (s : string) : string := span_until (Ascii.eqb newline) s.

(** [https?://] at the head of [s]: the text after it. *)
Definition after_http_scheme (s : string) : option string :=
  if startswith s "https://" then Some (drop 8 s)
  else if startswith s "http://" then Some (drop 7 s)
  else None.

(** [/web/\d+/] at the head of [s]: the text after it. *)
Definition after_web_stamp (s : string) : option string :=
  if startswith s "/web/" then
    let t := drop 5 s in
    match span_until (fun c => negb (is_digit c)) t with
    | EmptyString => None
    | _ =>
        match rest_from (fun c => negb (is_digit c)) t with
        | String "/" u => Some u
        | _ => None
        end
    end
  else None.

(** [re.search] for the pattern [/web/\d+/] followed by the group
    [https?://] and the rest of the line: [group(1)] of the leftmost match. *)
Fixpoint search_wayback_url (url : string) : option string :=
  match
    match after_web_stamp url with
    | Some u => match after_http_scheme u with
                | Some _ => Some (to_eol u)
                | None => None
                end
    | None => None
    end
  with
  | Some g => Some g
  | None => match url with
            | EmptyString => None
            | String _ url' => search_wayback_url url'
            end
  end.

(** [re.search] for the pattern [/web/\d+/] followed by the group
    [https?://] and one or more characters other than a slash: [group(1)]
    of the leftmost match. *)
Fixpoint search_wayback_origin (url : string) : option string :=
  match
    match after_web_stamp url with
    | Some u =>
        match after_http_scheme u with
        | Some h =>
            match span_until (Ascii.eqb "/") h with
            | EmptyString => None
            | host => Some (take (String.length u - String.length h) u +++ host)
            end
        | None => None
        end
    | None => None
    end
  with
  | Some g => Some g
  | None => match url with
            | EmptyString => None
            | String _ url' => search_wayback_origin url'
            end
  end.

(** The two repairs of a scheme separator with one slash. *)
Definition repair_scheme_slashes (underlying : string) : string :=
  let u1 :=
    if startswith underlying "http:/" && negb (startswith underlying "http://")
    then replace_first "http:/" "http://" underlying else underlying in
  if startswith u1 "https:/" && negb (startswith u1 "https://")
  then replace_first "https:/" "https://" u1 else u1.

(** Port and leading [www.] removed from a host. *)
Definition strip_port_www (host : string) : string :=
  let h := if has_char ":" host then before_char ":" host else host in
  if startswith h "www." then drop 4 h else h.

(** [path] or ["/"], followed by [?query] when there is a query. *)
Definition path_and_query (p : ParseResult) : string :=
  let real_part := if String.eqb (path p) "" then "/" else path p in
  if truthy (query p) then real_part +++ "?" +++ query p else real_part.

(** The first part of the loop body of [_classify_candidate_urls]:
    [(candidate_host, real_part)] of one link. *)
Definition link_location (url : string) : result (string * string) :=
  if contains url "web.archive.org" then
    match search_wayback_url url with
    | Some underlying0 =>
        let underlying := repair_scheme_slashes underlying0 in
        match urlparse underlying with
        | Raise e => Raise e
        | Ok parsed_under =>
            Ok (strip_port_www (lower (netloc parsed_under)),
                path_and_query parsed_under)
        end
    | None => Ok ("", url)
    end
  else
    match urlparse url with
    | Raise e => Raise e
    | Ok parsed => Ok (lower (netloc parsed), path_and_query parsed)
    end.

(** [_get_home_host] of the planner and [_extract_home_host] of the URL
    processor: the same code in both classes. *)
Definition _get_home_host (homepage_url : string) : result string :=
  match urlparse homepage_url with
  | Raise e => Raise e
  | Ok parsed =>
      let host := lower (netloc parsed) in
      let host' :=
        if contains host "web.archive.org" then
          match search_wayback_origin homepage_url with
          | Some underlying0 =>
              match urlparse (repair_scheme_slashes underlying0) with
              | Raise e => Raise e
              | Ok p => Ok (lower (netloc p))
              end
          | None => Ok host
          end
        else Ok host in
      match host' with
      | Raise e => Raise e
      | Ok h => Ok (strip_port_www h)
      end
  end.

Definition _extract_home_host : string -> result string := _get_home_host.

(** ** The classifier ([_classify_candidate_urls]) *)

(** A dictionary [{'url', 'customer_journey_stage', 'type_name'}]. *)
Record classified_url : Type := mk_classified {
  cu_url : string;
  cu_stage : string;
  cu_type_name : string
}.

(** The domain filter of line 327: [true] when the link is skipped. *)
Definition cross_domain (home_host candidate_host : string) : bool :=
  truthy home_host && truthy candidate_host &&
  negb (String.eqb candidate_host home_host) &&
  negb (String.eqb candidate_host ("www." +++ home_host)).

(** The inner loop over [self._compiled_patterns], with its [break]. *)
Fixpoint scan_patterns (url real_part : string) (patterns : list compiled_matcher)
  (results : list classified_url) : list classified_url :=
  match patterns with
  | [] => results
  | m :: rest =>
      if regex_match (cm_regex m) real_part
      then results ++ [mk_classified url (cm_stage m) (cm_type_name m)]
      else scan_patterns url real_part rest results
  end.

(** One iteration of the loop over [valid_links].  Iterating over
    [self._compiled_patterns] while it is still [None] raises. *)
Definition classify_link (patterns : option (list compiled_matcher))
  (home_host url : string) (results : list classified_url)
  : result (list classified_url) :=
  match link_location url with
  | Raise e => Raise e
  | Ok (candidate_host, real_part) =>
      if cross_domain home_host candidate_host then Ok results
      else match patterns with
           | None => Raise (TypeError "'NoneType' object is not iterable")
           | Some ps => Ok (scan_patterns url real_part ps results)
           end
  end.

Fixpoint classify_loop (patterns : option (list compiled_matcher))
  (home_host : string) (valid_links : list string)
  (results : list classified_url) : result (list classified_url) :=
  match valid_links with
  | [] => Ok results
  | url :: rest =>
      match classify_link patterns home_host url results with
      | Raise e => Raise e
      | Ok results' => classify_loop patterns home_host rest results'
      end
  end.

(** Lines 279-281: the home host, empty unless a home URL is given. *)
Definition derived_home_host (homepage_url : string) : result string :=
  if truthy homepage_url then _get_home_host homepage_url else Ok "".

(** [_classify_candidate_urls(self, year, valid_links, homepage_url)]:
    the value returned or the exception raised, and the planner after the
    call. *)
Definition _classify_candidate_urls (self : planner) (year : string)
  (valid_links : list string) (homepage_url : string)
  : result (list classified_url) * planner :=
  match derived_home_host homepage_url with
  | Raise e => (Raise e, self)
  | Ok home_host =>
      (classify_loop (compiled_patterns self) home_host valid_links [], self)
  end.

End UrlLib.


(** ** JSON values

    What [json.loads] returns and [json.dump] writes; numbers are
    integers. *)

Inductive json : Type :=
| JNull
| JBool (b : bool)
| JNum (n : Z)
| JStr (s : string)
| JArr (l : list json)
| JObj (o : list (string * json)).

(** Python truthiness ([if v], [not v]). *)
Definition json_truthy (v : json) : bool :=
  match v with
  | JNull => false
  | JBool b => b
  | JNum n => negb (Z.eqb n 0)
  | JStr s => truthy s
  | JArr l => list_truthy l
  | JObj o => list_truthy o
  end.

(** Lists and dictionaries cannot be dictionary keys. *)
Definition hashable (v : json) : bool :=
  match v with
  | JArr _ | JObj _ => false
  | _ => true
  end.

(** Equality of two hashable values as dictionary keys: [True == 1] and
    [False == 0] in Python. *)
Definition key_eqb (u v : json) : bool :=
  match u, v with
  | JNull, JNull => true
  | JBool a, JBool b => Bool.eqb a b
  | JNum a, JNum b => Z.eqb a b
  | JBool a, JNum b | JNum b, JBool a => Z.eqb (if a then 1 else 0)%Z b
  | JStr a, JStr b => String.eqb a b
  | _, _ => false
  end.

(** [u in valid_content_urls] for a list of strings. *)
Definition json_in_strs (u : json) (l : list string) : bool :=
  match u with
  | JStr s => str_in s l
  | _ => false
  end.

Fixpoint json_fromkeys_from (seen l : list json) : result (list json) :=
  match l with
  | [] => Ok []
  | u :: l' =>
      if negb (hashable u) then Raise (TypeError "unhashable type")
      else if existsb (key_eqb u) seen then json_fromkeys_from seen l'
      else match json_fromkeys_from (u :: seen) l' with
           | Ok r => Ok (u :: r)
           | Raise e => Raise e
           end
  end.

(** [list(dict.fromkeys(l))] *)
Definition json_fromkeys (l : list json) : result (list json) :=
  json_fromkeys_from [] l.

(** The values a [for] loop over [v] visits. *)
Definition json_iter (v : json) : result (list json) :=
  match v with
  | JArr l => Ok l
  | JStr s => Ok (map (fun c => JStr (String c "")) (list_ascii_of_string s))
  | JObj o => Ok (map (fun kv => JStr (fst kv)) o)
  | JNum _ => Raise (TypeError "'int' object is not iterable")
  | JBool _ => Raise (TypeError "'bool' object is not iterable")
  | JNull => Raise (TypeError "'NoneType' object is not iterable")
  end.

(** ** Selection post-processing ([_optimize_crawl_strategy]) *)

(** [url_info["url"] if isinstance(url_info, dict) else url_info] *)
Definition url_of_info (url_info : json) : result json :=
  match url_info with
  | JObj o => match dict_get "url" o with
              | Some u => Ok u
              | None => Raise (KeyError "url")
              end
  | _ => Ok url_info
  end.

(** The loop over [recommended_url_list]. *)
Fixpoint collect_loop (enforce : bool) (valid_content_urls : list string)
  (infos : list json) (recommended_urls : list json) : result (list json) :=
  match infos with
  | [] => Ok recommended_urls
  | url_info :: rest =>
      match url_of_info url_info with
      | Raise e => Raise e
      | Ok url_str =>
          collect_loop enforce valid_content_urls rest
            (if enforce
             then if json_in_strs url_str valid_content_urls
                  then recommended_urls ++ [url_str] else recommended_urls
             else recommended_urls ++ [url_str])
      end
  end.

(** [recommended_urls] as it stands before the de-duplication
    (lines 402-415). *)
Definition collect_recommended (core_url_data : json) (enforce : bool)
  (valid_content_urls : list string) : result (list json) :=
  if negb (json_truthy core_url_data) then Ok []
  else
    match core_url_data with
    | JObj o =>
        match dict_get "recommended_url_list" o with
        | None => Ok []
        | Some lst =>
            match json_iter lst with
            | Raise e => Raise e
            | Ok infos => collect_loop enforce valid_content_urls infos []
            end
        end
    | JStr s =>
        if contains s "recommended_url_list"
        then Raise (TypeError "string indices must be integers")
        else Ok []
    | JArr l =>
        if existsb (key_eqb (JStr "recommended_url_list")) l
        then Raise (TypeError "list indices must be integers or slices")
        else Ok []
    | JNum _ => Raise (TypeError "argument of type 'int' is not iterable")
    | JBool _ => Raise (TypeError "argument of type 'bool' is not iterable")
    | JNull => Ok []
    end.

Definition medium_model : string := "openai/gpt-4o-mini".

Definition jlen {A : Type} (l : list A) : json := JNum (Z.of_nat (List.length l)).

(** [llm_analysis.get("core_url_recommendations", {})] *)
Definition core_url_data_of (llm_analysis : pydict json) : json :=
  match dict_get "core_url_recommendations" llm_analysis with
  | Some v => v
  | None => JObj []
  end.

(** [True if enforce_in_valid is None else enforce_in_valid] *)
Definition effective_enforce (enforce_in_valid : option bool) : bool :=
  match enforce_in_valid with
  | None => true
  | Some b => b
  end.

(** [recommended_urls] after line 418: collected, filtered when membership
    is enforced, and de-duplicated. *)
Definition deduped_recommendations (llm_analysis : pydict json) (enforce : bool)
  (valid_content_urls : list string) : result (list json) :=
  match collect_recommended (core_url_data_of llm_analysis) enforce valid_content_urls with
  | Raise e => Raise e
  | Ok collected => json_fromkeys collected
  end.

(** [_optimize_crawl_strategy(llm_analysis, valid_content_urls, year,
    enforce_in_valid=...)]; [now] is the text [datetime.now()] formats. *)
Definition _optimize_crawl_strategy (now : string) (llm_analysis : json)
  (valid_content_urls : list string) (year : string)
  (enforce_in_valid : option bool) : result (pydict json) :=
  match llm_analysis with
  | JObj la =>
      let core_url_data := core_url_data_of la in
      let enforce := effective_enforce enforce_in_valid in
      match deduped_recommendations la enforce valid_content_urls with
      | Raise e => Raise e
      | Ok deduped =>
          let overlap_count :=
            List.length
              (filter (fun u => json_in_strs u valid_content_urls) deduped) in
          let recommended_urls :=
            if negb (list_truthy deduped)
            then map JStr (firstn 10 valid_content_urls)
            else deduped in
          Ok [ ("analysis_time", JStr now);
               ("using_real_llm", JBool true);
               ("llm_model", JStr medium_model);
               ("year", JStr year);
               ("discovered_links_count", jlen valid_content_urls);
               ("valid_content_urls_count", jlen valid_content_urls);
               ("recommended_crawl_pages", JArr recommended_urls);
               ("recommended_pages_count", jlen recommended_urls);
               ("recommended_in_valid_overlap", JNum (Z.of_nat overlap_count));
               ("enforce_recommended_in_valid_list", JBool enforce);
               ("core_url_details", core_url_data) ]
      end
  | _ => Raise (AttributeError "object has no attribute 'get'")
  end.

(** The entries of a result whose value is a truth value. *)
Definition bool_entries (d : pydict json) : list (string * bool) :=
  flat_map (fun kv => match snd kv with
                      | JBool b => [(fst kv, b)]
                      | _ => []
                      end) d.


(** [json.dump] of the classified list kept in the planning document. *)
Definition json_of_classified (c : classified_url) : json :=
  JObj [ ("url", JStr (cu_url c));
         ("customer_journey_stage", JStr (cu_stage c));
         ("type_name", JStr (cu_type_name c)) ].

(** ** The persisted documents and the outside world

    The four JSON documents under [outputs/<company_url>/].  The field
    [company_url] of each document repeats the directory name and is not
    kept.  Writing a document is taken to succeed.  The text dumps under
    [websites/] are never read back and are left out. *)

Record links_doc : Type := mk_links_doc {
  ld_generation_time : string;
  ld_total_years : nat;
  ld_year_links_map : pydict (list string)
}.

Record types_doc : Type := mk_types_doc {
  td_generation_time : string;
  td_core_page_types : pydict (list type_obj);
  td_total_types : nat
}.

Record planning_doc : Type := mk_planning_doc {
  pd_export_time : string;
  pd_yearly_analysis_results : pydict (pydict json)
}.

(** One year of [yearly_detailed_results]: the dictionary written after a
    successful analysis, or the one the [except] block writes. *)
Inductive scenario_record : Type :=
| YearScenarios (identified_scenarios : list string)
                (total_scenario_count : nat)
                (analysis_time : string)
                (llm_recommended_pages_count : nat)
                (page_success_rate : nat * nat)
                (stage_distribution : pydict nat)
| YearError (error : string).

Record scenarios_doc : Type := mk_scenarios_doc {
  sd_generation_time : string;
  sd_analyzed_years_count : nat;
  sd_total_identified_scenarios : nat;
  sd_average_scenarios_per_year : string;
  sd_yearly_detailed_results : pydict scenario_record
}.

(** A call of an external collaborator. *)
Inductive call : Type :=
| CallDiscover (homepage_url : string)
| CallTaxonomy
| CallSelect (year : string)
| CallFetchPage (url : json).

(** The output directory, a counter of interactions with the outside, and
    the collaborator calls made so far (latest first). *)
Record world : Type := mk_world {
  links_file : option links_doc;
  types_file : option types_doc;
  planning_file : option planning_doc;
  scenarios_file : option scenarios_doc;
  tick : nat;
  calls : list call
}.

Definition M (A : Type) : Type := world -> A * world.

Definition ret {A : Type} (a : A) : M A := fun w => (a, w).

Definition bind {A B : Type} (m : M A) (k : A -> M B) : M B :=
  fun w => let (a, w') := m w in k a w'.

Declare Scope world_scope.
Delimit Scope world_scope with world.
Notation "x <- m ;; k" := (bind m (fun x => k))
  (at level 61, m at next level, right associativity) : world_scope.
Notation "m ;;; k" := (bind m (fun _ => k))
  (at level 61, right associativity) : world_scope.

(** The next interaction: its index, the counter advanced. *)
Definition next_tick : M nat :=
  fun w => (tick w,
            mk_world (links_file w) (types_file w) (planning_file w)
                     (scenarios_file w) (S (tick w)) (calls w)).

Definition record_call (c : call) : M unit :=
  fun w => (tt,
            mk_world (links_file w) (types_file w) (planning_file w)
                     (scenarios_file w) (tick w) (c :: calls w)).

Definition write_links (d : links_doc) : M unit :=
  fun w => (tt, mk_world (Some d) (types_file w) (planning_file w)
                         (scenarios_file w) (tick w) (calls w)).

Definition write_types (d : types_doc) : M unit :=
  fun w => (tt, mk_world (links_file w) (Some d) (planning_file w)
                         (scenarios_file w) (tick w) (calls w)).

Definition write_planning (d : planning_doc) : M unit :=
  fun w => (tt, mk_world (links_file w) (types_file w) (Some d)
                         (scenarios_file w) (tick w) (calls w)).

Definition write_scenarios (d : scenarios_doc) : M unit :=
  fun w => (tt, mk_world (links_file w) (types_file w) (planning_file w)
                         (Some d) (tick w) (calls w)).

Definition read_world : M world := fun w => (w, w).

(** A Python [set] of strings: its elements, without repetition. *)
Definition set_add (x : string) (s : list string) : list string :=
  if str_in x s then s else s ++ [x].

Definition set_update (s xs : list string) : list string :=
  fold_left (fun acc x => set_add x acc) xs s.

(** ** URL discovery and filtering ([url_processing.py]) *)

Definition exclude_patterns : list string :=
  [ "\.pdf$"; "\.jpg$"; "\.png$"; "\.gif$"; "\.css$"; "\.js$";
    "/legal/"; "/privacy/"; "/terms/"; "/cookie";
    "/sitemap"; "/robots"; "/favicon"; "mailto:"; "tel:";
    "#"; "javascript:" ].

(** The loop of [_should_include_url] over the patterns. *)
Fixpoint should_include_loop (patterns : list string) (url_lower : string)
  : result bool :=
  match patterns with
  | [] => Ok true
  | pattern :: rest =>
      match re_compile pattern with
      | None => Raise (OtherError "re.error")
      | Some rx =>
          if regex_search rx url_lower then Ok false
          else should_include_loop rest url_lower
      end
  end.

Definition _should_include_url (url : string) : result bool :=
  should_include_loop exclude_patterns (lower url).

Definition excluded_extensions : list string :=
  [ ".css"; ".js"; ".png"; ".jpg"; ".jpeg"; ".gif"; ".svg"; ".ico";
    ".pdf"; ".xml"; ".json"; ".txt"; ".zip"; ".woff"; ".ttf" ].

Definition excluded_paths : list string :=
  [ "/static/"; "/assets/"; "/css/"; "/js/"; "/images/"; "/img/";
    "/fonts/"; "/media/"; "/resources/"; "/ajax/"; "/api/" ].

Definition _is_meaningful_url (url : string) : bool :=
  let url_lower := lower url in
  if existsb (endswith url_lower) excluded_extensions then false
  else if existsb (contains url_lower) excluded_paths then false
  else true.

Definition _filter_valid_links (links : list string) : list string :=
  filter _is_meaningful_url links.

(** The two repairs applied to the result of [urljoin]. *)
Definition repair_joined (full_url : string) : string :=
  let u1 :=
    if contains full_url "/web/" && contains full_url "http:/" &&
       negb (contains full_url "http://")
    then replace_all "http:/" "http://" full_url else full_url in
  if contains u1 "/web/" && contains u1 "https:/" &&
     negb (contains u1 "https://")
  then replace_all "https:/" "https://" u1 else u1.

Section Pipeline.

(** The library and the collaborators.  A collaborator's answer may depend
    on when it is asked: each takes the index of the interaction. *)

(** The check of a bracketed network location inside [urlsplit]. *)
Variable valid_bracketed_netloc : string -> bool.
(** [urllib.parse.urljoin(base, href)]. *)
Variable urljoin : string -> string -> result string.
(** The order in which [list(s)] enumerates a set. *)
Variable set_to_list : list string -> list string.
(** [datetime.now().strftime(...)]. *)
Variable clock : nat -> string.
(** [session.get], [raise_for_status], [BeautifulSoup] and [find_all]:
    the [href] values of the [a] and [area] tags of the page. *)
Variable fetch_hrefs : nat -> string -> result (list string).
(** The taxonomy request: [_call_llm], [_parse_llm_response] and
    [_process_core_page_types_response], for the merged unique links. *)
Variable generate_taxonomy : nat -> list string -> result (pydict (list type_obj)).
(** The selection request: [_call_llm] and [_parse_llm_response] inside
    [_select_core_urls_from_classification]. *)
Variable select_core : nat -> string -> list classified_url -> nat -> result json.
(** [URLProcessor.get_page_content(url, max_length=None)]; it catches every
    exception and then returns [None]. *)
Variable get_page_content : nat -> json -> option string.
(** The scenario definitions loaded when the analyzer is created: stage,
    then scenario id, then name and keywords. *)
Variable micro_scenarios : pydict (pydict (string * list string)).
(** [round(total / count, 1)], a float, as [json.dump] prints it. *)
Variable round_average : nat -> nat -> string.

Local Open Scope world_scope.

Definition now : M string := n <- next_tick ;; ret (clock n).

(** *** [URLProcessor.discover_internal_links] *)

(** The loop over the tags; [discovered_links] is the set so far. *)
Fixpoint discover_loop (homepage_url home_host : string) (max_links : nat)
  (hrefs : list string) (discovered_links : list string)
  : result (list string) :=
  match hrefs with
  | [] => Ok discovered_links
  | href :: rest =>
      if negb (truthy href)
      then discover_loop homepage_url home_host max_links rest discovered_links
      else
        match urljoin homepage_url href with
        | Raise e => Raise e
        | Ok joined =>
            let full_url := repair_joined joined in
            match _extract_home_host valid_bracketed_netloc full_url with
            | Raise e => Raise e
            | Ok candidate_host =>
                if String.eqb candidate_host "" || String.eqb candidate_host home_host
                then
                  let clean_url := before_char "#" full_url in
                  match _should_include_url clean_url with
                  | Raise e => Raise e
                  | Ok false =>
                      discover_loop homepage_url home_host max_links rest
                                    discovered_links
                  | Ok true =>
                      let discovered_links' := set_add clean_url discovered_links in
                      if max_links <=? List.length discovered_links'
                      then Ok discovered_links'
                      else discover_loop homepage_url home_host max_links rest
                                         discovered_links'
                  end
                else discover_loop homepage_url home_host max_links rest
                                   discovered_links
            end
        end
  end.

(** The body of the [try]. *)
Definition discover_try (n : nat) (homepage_url : string) (max_links : nat)
  : result (list string) :=
  match fetch_hrefs n homepage_url with
  | Raise e => Raise e
  | Ok hrefs =>
      match _extract_home_host valid_bracketed_netloc homepage_url with
      | Raise e => Raise e
      | Ok home_host =>
          match discover_loop homepage_url home_host max_links hrefs [homepage_url] with
          | Raise e => Raise e
          | Ok discovered_links => Ok (set_to_list discovered_links)
          end
      end
  end.

Definition discover_internal_links (homepage_url : string) (max_links : nat)
  : M (list string) :=
  n <- next_tick ;;
  record_call (CallDiscover homepage_url) ;;;
  match discover_try n homepage_url max_links with
  | Ok links => ret links
  | Raise _ => ret [homepage_url]
  end.

(** *** [URLProcessor.process_urls_for_company] *)

Definition has_links (year : string) (year_links_map : pydict (list string)) : bool :=
  match dict_get year year_links_map with
  | Some (_ :: _) => true
  | _ => false
  end.

(** The loop over [historical_urls].  Neither call inside the [try] can
    raise, so its [except] branch has no counterpart here. *)
Fixpoint process_years (historical_urls : list (string * string))
  (year_links_map : pydict (list string)) : M (pydict (list string)) :=
  match historical_urls with
  | [] => ret year_links_map
  | (year, homepage_url) :: rest =>
      if has_links year year_links_map then process_years rest year_links_map
      else
        internal_links <- discover_internal_links homepage_url 10000 ;;
        process_years rest
          (dict_set year (_filter_valid_links internal_links) year_links_map)
  end.

Definition process_urls_for_company (historical_urls : list (string * string))
  : M unit :=
  w <- read_world ;;
  let year_links_map0 :=
    match links_file w with
    | Some d => ld_year_links_map d
    | None => []
    end in
  year_links_map <- process_years historical_urls year_links_map0 ;;
  t <- now ;;
  write_links (mk_links_doc t (List.length year_links_map) year_links_map).

Definition load_filtered_links : M (pydict (list string)) :=
  w <- read_world ;;
  ret match links_file w with
      | Some d => ld_year_links_map d
      | None => []
      end.

(** *** [LLMPlanner.generate_core_page_types] *)

(** The flat list that goes with a nested taxonomy. *)
Definition flatten_nested (nested : pydict (list type_obj)) : list flat_type :=
  flat_map (fun entry => map (mk_flat_type (Some (fst entry))) (snd entry)) nested.

(** [_load_core_page_types] on a document that is present. *)
Definition _load_core_page_types (self : planner) (d : types_doc) : planner :=
  mk_planner (flatten_nested (td_core_page_types d)) (td_core_page_types d)
             (compiled_patterns self).

Definition generate_core_page_types (self : planner)
  (year_links_map : pydict (list string)) : M (result planner) :=
  w <- read_world ;;
  match types_file w with
  | Some d => ret (Ok (_load_core_page_types self d))
  | None =>
      let merged := flat_map snd year_links_map in
      let unique_links := dedup_keep_order merged in
      n <- next_tick ;;
      record_call CallTaxonomy ;;;
      match generate_taxonomy n unique_links with
      | Raise e => ret (Raise e)
      | Ok nested =>
          let self' := mk_planner (flatten_nested nested) nested
                                  (compiled_patterns self) in
          t <- now ;;
          write_types (mk_types_doc t nested
                                    (List.length (core_page_types self'))) ;;;
          ret (Ok self')
      end
  end.

(** *** [LLMPlanner.generate_llm_planning] *)

Definition _write_planning_file (yearly_analysis : pydict (pydict json)) : M unit :=
  t <- now ;;
  write_planning (mk_planning_doc t yearly_analysis).

(** The body of the [try] for one year: the dictionary to store under
    the year, or the exception.  Line 203 passes no [homepage_url], so the
    parameter takes its default, the empty string; line 206 passes
    [crawl_num]; line 209 passes [enforce_in_valid=False]. *)
Definition plan_year (self : planner) (crawl_num : nat) (year : string)
  (valid_links : list string) : M (result (pydict json)) :=
  match fst (_classify_candidate_urls valid_bracketed_netloc self year valid_links "") with
  | Raise e => ret (Raise e)
  | Ok classified_urls =>
      n <- next_tick ;;
      record_call (CallSelect year) ;;;
      match select_core n year classified_urls crawl_num with
      | Raise e => ret (Raise e)
      | Ok llm_analysis =>
          t <- now ;;
          match _optimize_crawl_strategy t llm_analysis valid_links year (Some false) with
          | Raise e => ret (Raise e)
          | Ok final_analysis =>
              ret (Ok (dict_set "classified_urls"
                         (JArr (map json_of_classified classified_urls))
                         (dict_set "classified_urls_count" (jlen classified_urls)
                                   final_analysis)))
          end
      end
  end.

(** The loop over [year_links_map.items()]. *)
Fixpoint plan_years (self : planner) (crawl_num : nat)
  (year_links : pydict (list string)) (yearly_analysis : pydict (pydict json))
  : M (pydict (pydict json)) :=
  match year_links with
  | [] => ret yearly_analysis
  | (year, valid_links) :: rest =>
      if dict_mem year yearly_analysis
      then plan_years self crawl_num rest yearly_analysis
      else
        r <- plan_year self crawl_num year valid_links ;;
        match r with
        | Ok final_analysis =>
            let yearly_analysis' := dict_set year final_analysis yearly_analysis in
            _write_planning_file yearly_analysis' ;;;
            plan_years self crawl_num rest yearly_analysis'
        | Raise _ => plan_years self crawl_num rest yearly_analysis
        end
  end.

Definition generate_llm_planning (self : planner)
  (year_links_map : pydict (list string)) (crawl_num : nat)
  : M (result planner) :=
  w <- read_world ;;
  let existing_results :=
    match planning_file w with
    | Some d => pd_yearly_analysis_results d
    | None => []
    end in
  let loaded :=
    if list_truthy (core_page_types self) then Ok self
    else match types_file w with
         | Some d => Ok (_load_core_page_types self d)
         | None => Raise (RuntimeError "core page types not generated")
         end in
  match loaded with
  | Raise e => ret (Raise e)
  | Ok self1 =>
      let self2 := _compile_core_type_patterns self1 in
      yearly_analysis <- plan_years self2 crawl_num year_links_map existing_results ;;
      _write_planning_file yearly_analysis ;;;
      ret (Ok self2)
  end.

Definition load_llm_planning : M (pydict (pydict json)) :=
  w <- read_world ;;
  ret match planning_file w with
      | Some d => pd_yearly_analysis_results d
      | None => []
      end.

(** *** [ScenarioAnalyzer] *)

(** The keyword scan of one scenario: its label when a keyword occurs. *)
Definition scenario_hit (content_lower : string)
  (scenario : string * (string * list string)) : list string :=
  let '(scenario_id, (scenario_name, keywords)) := scenario in
  if existsb (fun keyword => contains content_lower (lower keyword)) keywords
  then [scenario_id +++ "_" +++ scenario_name] else [].

(** [_identify_scenarios_in_page]: the set of labels found in the page. *)
Definition _identify_scenarios_in_page (url : json) : M (list string) :=
  n <- next_tick ;;
  record_call (CallFetchPage url) ;;;
  match get_page_content n url with
  | None => ret []
  | Some content =>
      if negb (truthy content) then ret []
      else
        let content_lower := lower content in
        ret (set_update []
               (flat_map (fun stage => flat_map (scenario_hit content_lower) (snd stage))
                         micro_scenarios))
  end.

(** The loop of [_analyze_scenarios_for_year]. *)
Fixpoint analyze_pages (crawl_urls : list json) (year_scenarios : list string)
  (successful_pages : nat) : M (list string * nat) :=
  match crawl_urls with
  | [] => ret (year_scenarios, successful_pages)
  | url :: rest =>
      page_scenarios <- _identify_scenarios_in_page url ;;
      analyze_pages rest (set_update year_scenarios page_scenarios)
                    (S successful_pages)
  end.

(** [_analyze_scenarios_for_year(year, crawl_urls, websites_dir)]: the
    [for] loop raises when [crawl_urls] cannot be iterated. *)
Definition _analyze_scenarios_for_year (crawl_urls : json)
  : M (result (list string * nat)) :=
  match json_iter crawl_urls with
  | Raise e => ret (Raise e)
  | Ok urls => r <- analyze_pages urls [] 0 ;; ret (Ok r)
  end.

Definition stage_prefixes : list (string * string) :=
  [ ("Awareness Stage", "1."); ("Interest Stage", "2.");
    ("Consideration Stage", "3."); ("Decision Stage", "4.");
    ("Fulfillment Stage", "5."); ("Retention Stage", "6.") ].

Definition _categorize_scenarios_by_stage (scenarios : list string) : pydict nat :=
  map (fun sp =>
         (fst sp,
          List.length
            (filter (fun scenario => startswith (before_char "_" scenario) (snd sp))
                    scenarios)))
      stage_prefixes.

Definition record_count (r : scenario_record) : nat :=
  match r with
  | YearScenarios _ n _ _ _ _ => n
  | YearError _ => 0
  end.

(** [_generate_analysis_summary]: nothing is written for an empty mapping. *)
Definition _generate_analysis_summary
  (yearly_scenario_data : pydict scenario_record) : M unit :=
  match yearly_scenario_data with
  | [] => ret tt
  | _ =>
      let total_scenarios := list_sum (map (fun kv => record_count (snd kv))
                                           yearly_scenario_data) in
      t <- now ;;
      write_scenarios
        (mk_scenarios_doc t (List.length yearly_scenario_data) total_scenarios
           (round_average total_scenarios (List.length yearly_scenario_data))
           yearly_scenario_data)
  end.

Definition json_len (v : json) : nat :=
  match v with
  | JArr l => List.length l
  | JStr s => String.length s
  | JObj o => List.length o
  | _ => 0
  end.

(** The loop over [llm_planning_results.items()]. *)
Fixpoint analyze_years (llm_planning_results : pydict (pydict json))
  (yearly_scenario_data : pydict scenario_record) : M (pydict scenario_record) :=
  match llm_planning_results with
  | [] => ret yearly_scenario_data
  | (year, planning_data) :: rest =>
      if dict_mem year yearly_scenario_data
      then analyze_years rest yearly_scenario_data
      else
        let crawl_urls :=
          match dict_get "recommended_crawl_pages" planning_data with
          | Some v => v
          | None => JArr []
          end in
        if negb (json_truthy crawl_urls)
        then analyze_years rest yearly_scenario_data
        else
          r <- _analyze_scenarios_for_year crawl_urls ;;
          match r with
          | Ok (year_scenarios, successful_pages) =>
              t <- now ;;
              let listed := set_to_list year_scenarios in
              let data :=
                dict_set year
                  (YearScenarios listed (List.length year_scenarios) t
                     (json_len crawl_urls)
                     (successful_pages, json_len crawl_urls)
                     (_categorize_scenarios_by_stage year_scenarios))
                  yearly_scenario_data in
              _generate_analysis_summary data ;;;
              analyze_years rest data
          | Raise e =>
              analyze_years rest
                (dict_set year (YearError (exn_message e)) yearly_scenario_data)
          end
  end.

Definition analyze_scenarios_for_company
  (llm_planning_results : pydict (pydict json)) : M unit :=
  w <- read_world ;;
  let existing_results :=
    match scenarios_file w with
    | Some d => sd_yearly_detailed_results d
    | None => []
    end in
  yearly_scenario_data <- analyze_years llm_planning_results existing_results ;;
  _generate_analysis_summary yearly_scenario_data.

(** *** [main], from the loaded list of historical URLs on *)

Inductive run_outcome : Type :=
| Completed
| ExitedEarly (reason : string)
| Crashed (e : exn).

Definition fresh_planner : planner := mk_planner [] [] None.

Definition main (historical_urls : list (string * string)) : M run_outcome :=
  match historical_urls with
  | [] => ret (ExitedEarly "no historical URLs")
  | _ =>
      process_urls_for_company historical_urls ;;;
      year_links_map <- load_filtered_links ;;
      if negb (list_truthy year_links_map)
      then ret (ExitedEarly "URL processing failed")
      else
        r1 <- generate_core_page_types fresh_planner year_links_map ;;
        match r1 with
        | Raise e => ret (Crashed e)
        | Ok planner1 =>
            r2 <- generate_llm_planning planner1 year_links_map 15 ;;
            match r2 with
            | Raise e => ret (Crashed e)
            | Ok _ =>
                llm_planning_results <- load_llm_planning ;;
                if negb (list_truthy llm_planning_results)
                then ret (ExitedEarly "LLM planning failed")
                else
                  analyze_scenarios_for_company llm_planning_results ;;;
                  ret Completed
            end
        end
  end.

End Pipeline.


(** ** Notions used to state the properties *)

(** The order the compiled list is kept in: longer patterns first. *)
Definition longer_first (a b : compiled_matcher) : Prop :=
  cm_pattern_len b <= cm_pattern_len a.

Definition has_len (k : nat) (m : compiled_matcher) : bool :=
  cm_pattern_len m =? k.

(** What one link adds to the classified list: nothing when the domain
    filter skips it or no pattern matches its path, and otherwise one entry
    for the first matcher, in list order, whose regex matches. *)
Inductive link_contribution (valid_bracketed_netloc : string -> bool)
  (patterns : list compiled_matcher) (home_host url : string)
  : list classified_url -> Prop :=
| contrib_filtered (host real_part : string) :
    link_location valid_bracketed_netloc url = Ok (host, real_part) ->
    cross_domain home_host host = true ->
    link_contribution valid_bracketed_netloc patterns home_host url []
| contrib_unmatched (host real_part : string) :
    link_location valid_bracketed_netloc url = Ok (host, real_part) ->
    cross_domain home_host host = false ->
    (forall m, In m patterns -> regex_match (cm_regex m) real_part = false) ->
    link_contribution valid_bracketed_netloc patterns home_host url []
| contrib_first_match (host real_part : string)
    (before : list compiled_matcher) (m : compiled_matcher)
    (after : list compiled_matcher) :
    link_location valid_bracketed_netloc url = Ok (host, real_part) ->
    cross_domain home_host host = false ->
    patterns = before ++ m :: after ->
    (forall m', In m' before -> regex_match (cm_regex m') real_part = false) ->
    regex_match (cm_regex m) real_part = true ->
    link_contribution valid_bracketed_netloc patterns home_host url
      [mk_classified url (cm_stage m) (cm_type_name m)].


(** Every document is present and holds every period: each historical
    year has links, each year with links has a planning record, each year
    with a planning record has a scenario record. *)
Definition docs_complete (historical_urls : list (string * string)) (w : world) : bool :=
  match links_file w, types_file w, planning_file w, scenarios_file w with
  | Some ld, Some _, Some pd, Some sd =>
      list_truthy historical_urls &&
      forallb (fun yu => has_links (fst yu) (ld_year_links_map ld)) historical_urls &&
      forallb (fun kv => dict_mem (fst kv) (pd_yearly_analysis_results pd))
              (ld_year_links_map ld) &&
      forallb (fun kv => dict_mem (fst kv) (sd_yearly_detailed_results sd))
              (pd_yearly_analysis_results pd)
  | _, _, _, _ => false
  end.

(** The documents as a re-run over complete documents rewrites them: the
    year-keyed content kept, the counts derived from it again, the time
    stamps taken from the clock. *)
Definition refreshed_links (t : string) (d : links_doc) : links_doc :=
  mk_links_doc t (List.length (ld_year_links_map d)) (ld_year_links_map d).

Definition refreshed_planning (t : string) (d : planning_doc) : planning_doc :=
  mk_planning_doc t (pd_yearly_analysis_results d).

Definition refreshed_scenarios (round_average : nat -> nat -> string) (t : string)
  (d : scenarios_doc) : scenarios_doc :=
  let r := sd_yearly_detailed_results d in
  let total := list_sum (map (fun kv => record_count (snd kv)) r) in
  mk_scenarios_doc t (List.length r) total (round_average total (List.length r)) r.

(** * Example data *)

(** A check that accepts every bracketed network location. *)
Definition accept_bracketed (_ : string) : bool := true.

(** A taxonomy with a wildcard pattern and a longer literal one, the
    wildcard's type first. *)
Definition product_taxonomy : pydict (list type_obj) :=
  [ ("Consideration Stage",
     [ mk_type_obj (Some "Product Listing") (Some ["/product/*"]);
       mk_type_obj (Some "Featured Product") (Some ["/product/featured"]) ]) ].

Definition product_planner : planner :=
  _compile_core_type_patterns (mk_planner [] product_taxonomy None).

Definition archive_example_url : string :=
  "https://archive.example/web/20210615000000/http:/shop.example/sale?x=1".

Definition wayback_example_url : string :=
  "https://web.archive.org/web/20210615000000/http:/shop.example/sale?x=1".

(** Two literal patterns that both match [/product/featured], the shorter
    one's type first in the taxonomy. *)
Definition prefix_taxonomy : pydict (list type_obj) :=
  [ ("Consideration Stage",
     [ mk_type_obj (Some "Product Listing") (Some ["/product"]);
       mk_type_obj (Some "Featured Product") (Some ["/product/featured"]) ]) ].

Definition prefix_planner : planner :=
  _compile_core_type_patterns (mk_planner [] prefix_taxonomy None).

(** The answer of the selection service with the given list under
    [core_url_recommendations.recommended_url_list]. *)
Definition llm_with_urls (urls : list json) : pydict json :=
  [("core_url_recommendations", JObj [("recommended_url_list", JArr urls)])].

(** Twenty valid URLs [u01] ... [u20]. *)
Definition twenty_urls : list string :=
  [ "u01"; "u02"; "u03"; "u04"; "u05"; "u06"; "u07"; "u08"; "u09"; "u10";
    "u11"; "u12"; "u13"; "u14"; "u15"; "u16"; "u17"; "u18"; "u19"; "u20" ].

(** The keys of the dictionary [_optimize_crawl_strategy] builds. *)
Definition analysis_keys : list string :=
  [ "analysis_time"; "using_real_llm"; "llm_model"; "year";
    "discovered_links_count"; "valid_content_urls_count";
    "recommended_crawl_pages"; "recommended_pages_count";
    "recommended_in_valid_overlap"; "enforce_recommended_in_valid_list";
    "core_url_details" ].

(** What the post-processing returns for no candidate, twenty valid URLs
    and enforced membership. *)
Definition fallback_example : pydict json :=
  match _optimize_crawl_strategy "2021-06-15 00:00:00" (JObj (llm_with_urls []))
                                 twenty_urls "2021" (Some true) with
  | Ok d => d
  | Raise _ => []
  end.

(** A world with an empty output directory. *)
Definition empty_world : world := mk_world None None None None 0 [].

(** Collaborators for the examples: sets are listed in insertion order,
    [urljoin] resolves a root-relative reference against the archive host
    and returns any other reference as it is. *)
Definition insertion_order (s : list string) : list string := s.

Definition simple_urljoin (base href : string) : result string :=
  Ok (if startswith href "/" then "https://web.archive.org" +++ href else href).

Definition shop_home_2015 : string :=
  "https://web.archive.org/web/20150101000000/http://shop.example/".

(** A homepage with three links; the second one leads to another site. *)
Definition shop_hrefs (_ : nat) (_ : string) : result (list string) :=
  Ok [ "/web/20150101000000/http://shop.example/product/featured";
       "/web/20150101000000/http://other.example/about";
       "/web/20150101000000/http://shop.example/cart" ].

(** A clock that shows the index of the interaction. *)
Definition tick_clock (n : nat) : string :=
  "tick " +++ NilEmpty.string_of_uint (Nat.to_uint n).

Definition fixed_taxonomy (_ : nat) (_ : list string)
  : result (pydict (list type_obj)) :=
  Ok prefix_taxonomy.

Definition cart_page (_ : nat) (_ : json) : option string :=
  Some "Add to Cart now - free shipping".

Definition two_scenarios : pydict (pydict (string * list string)) :=
  [ ("Decision Stage", [("4.1", ("Add to cart", ["add to cart"; "basket"]))]);
    ("Fulfillment Stage", [("5.2", ("Shipping", ["shipping"]))]) ].

Definition constant_average (_ _ : nat) : string := "2.0".

Definition one_year : list (string * string) := [("2015", shop_home_2015)].

(** A homepage that cannot be fetched. *)
Definition failing_hrefs (_ : nat) (_ : string) : result (list string) :=
  Raise (OtherError "connection timed out").

Definition featured_link : string := "https://shop.example/product/featured".

Definition about_link : string := "https://other.example/about".

(** A link of another host whose path matches a pattern. *)
Definition foreign_featured_link : string := "https://other.example/product/featured".

(** A clock that shows the index of the interaction, for indices 0 to 9. *)
Definition digit_clock (n : nat) : string :=
  "2021-06-15 00:00:0" +++ String (ascii_of_nat (48 + n)) "".

(** A selection service that recommends the URL of every classified entry. *)
Definition select_all (_ : nat) (_ : string) (classified : list classified_url)
  (_ : nat) : result json :=
  Ok (JObj (llm_with_urls (map (fun c => JStr (cu_url c)) classified))).

(** The dictionary the planning step builds for two links of different
    hosts, with the planner of [prefix_taxonomy]. *)
Definition two_hosts_plan : pydict json :=
  match fst (plan_year accept_bracketed digit_clock select_all prefix_planner 15
                       "2021" [featured_link; foreign_featured_link] empty_world) with
  | Ok d => d
  | Raise _ => []
  end.


(** A first run of the whole pipeline on an empty output directory, and a
    second run on what the first one left. *)
Definition first_run : run_outcome * world :=
  main accept_bracketed simple_urljoin insertion_order tick_clock shop_hrefs
       fixed_taxonomy select_all cart_page two_scenarios constant_average
       one_year empty_world.

Definition second_run : run_outcome * world :=
  main accept_bracketed simple_urljoin insertion_order tick_clock shop_hrefs
       fixed_taxonomy select_all cart_page two_scenarios constant_average
       one_year (snd first_run).

(** Planning results whose recommended pages are the number 5, which
    cannot be iterated, and the same year with a proper list. *)
Definition broken_plan : pydict (pydict json) :=
  [("2015", [("recommended_crawl_pages", JNum 5)])].

Definition repaired_plan : pydict (pydict json) :=
  [("2015", [("recommended_crawl_pages", JArr [JStr shop_home_2015])])].

Definition analyze_example (plan : pydict (pydict json)) (w : world) : world :=
  snd (analyze_scenarios_for_company insertion_order tick_clock cart_page
         two_scenarios constant_average plan w).

(** A selection service that is down. *)
Definition failing_select (_ : nat) (_ : string) (_ : list classified_url)
  (_ : nat) : result json :=
  Raise (OtherError "LLM API call failed").

(** An output directory that holds the taxonomy document only. *)
Definition taxonomy_only_world : world :=
  mk_world None (Some (mk_types_doc "tick 0" prefix_taxonomy 2)) None None 0 [].

Definition plan_example
  (select_core : nat -> string -> list classified_url -> nat -> result json)
  (w : world) : world :=
  snd (generate_llm_planning accept_bracketed tick_clock select_core fresh_planner
         [("2015", [shop_home_2015])] 15 w).

(** * Further notions and example data *)

(** ** Notions used to state the further properties *)

(** The regex a raw pattern other than the root pattern stands for, read
    off the pattern directly: a backslash followed by a star gives "any
    number of dots", every other character is a literal. *)
Fixpoint pattern_items (raw_pat : string) : regex :=
  match raw_pat with
  | EmptyString => []
  | String "\" (String "*" s) => IStar (AChar ".") :: pattern_items s
  | String c s => IAtom (AChar c) :: pattern_items s
  end.

(** All raw patterns of a taxonomy, in encounter order. *)
Definition taxonomy_patterns (nested : pydict (list type_obj)) : list string :=
  flat_map
    (fun entry =>
       flat_map (fun t => match typical_url_patterns t with
                          | Some ps => ps
                          | None => []
                          end)
                (snd entry))
    nested.

(** The regex compiled for a raw pattern: the root regex for a pattern
    that is [/] once trimmed, [pattern_items] otherwise. *)
Definition pattern_regex (raw_pat : string) : regex :=
  if String.eqb (strip raw_pat) "/" then [IBol; IAtom (AChar "/"); IEol]
  else pattern_items raw_pat.

(** One matcher for every pattern of the taxonomy, in encounter order. *)
Definition expected_matchers (nested : pydict (list type_obj)) : list compiled_matcher :=
  flat_map
    (fun entry =>
       flat_map
         (fun t =>
            map (fun raw_pat =>
                   mk_matcher (fst entry)
                              (match type_name t with Some n => n | None => "Unknown" end)
                              (pattern_regex raw_pat) (String.length raw_pat))
                (match typical_url_patterns t with Some ps => ps | None => [] end))
         (snd entry))
    nested.

(** The two domain tests of [version/real_llm_planning_agent_v0_4_4.py]
    (lines 329-335), one after the other: [true] when the link is skipped.
    Neither test asks whether the home host is empty. *)
Definition cross_domain_v0_4_4 (home_host candidate_host : string) : bool :=
  if truthy candidate_host && negb (endswith candidate_host home_host) then true
  else if truthy candidate_host &&
          negb (String.eqb candidate_host home_host) &&
          negb (String.eqb candidate_host ("www." +++ home_host))
  then true
  else false.

(** A model answer that names the same page twice, once outside the valid
    list. *)
Definition repeated_answer : json :=
  JObj [("core_url_recommendations",
         JObj [("recommended_url_list",
                JArr [JStr "a"; JObj [("url", JStr "c")]; JStr "a"])])].

(** A scenario label: the id and the name of a scenario of the
    definitions, joined by an underscore. *)
Definition is_scenario_label (micro_scenarios : pydict (pydict (string * list string)))
  (label : string) : Prop :=
  exists stage scenarios scenario_id scenario_name keywords,
    In (stage, scenarios) micro_scenarios /\
    In (scenario_id, (scenario_name, keywords)) scenarios /\
    label = scenario_id +++ "_" +++ scenario_name.

(** Does the id of a scenario label start with the prefix of a stage? *)
Definition in_some_stage (scenario : string) : bool :=
  existsb (fun sp => startswith (before_char "_" scenario) (snd sp)) stage_prefixes.

(** The exclusion test of [_should_include_url] in closed form, on the
    lower-cased URL: a listed extension at the end of the text or before a
    final line feed, or a listed text anywhere. *)
Definition excluded_by_extension (url_lower : string) : bool :=
  existsb (fun ext => endswith url_lower ext ||
                      endswith url_lower (ext +++ String newline ""))
          [".pdf"; ".jpg"; ".png"; ".gif"; ".css"; ".js"].

Definition excluded_by_text (url_lower : string) : bool :=
  existsb (contains url_lower)
          [ "/legal/"; "/privacy/"; "/terms/"; "/cookie"; "/sitemap"; "/robots";
            "/favicon"; "mailto:"; "tel:"; "#"; "javascript:" ].

(** ** Loading the historical URLs ([main.py])

    [re.search] of the pattern slash, [web], slash, four digits (the
    group), ten digits, slash: the group of the leftmost match. *)
Definition capture_year_at (s : string) : option string :=
  if startswith s "/web/" then
    let stamp := take 14 (drop 5 s) in
    if (String.length stamp =? 14) && all_chars is_digit stamp &&
       startswith (drop 14 (drop 5 s)) "/"
    then Some (take 4 stamp) else None
  else None.

Fixpoint search_capture_year (s : string) : option string :=
  match capture_year_at s with
  | Some year => Some year
  | None => match s with
            | EmptyString => None
            | String _ s' => search_capture_year s'
            end
  end.

(** The loop over the lines of the file (lines 31-39). *)
Definition collect_historical (lines : list string) : list (string * string) :=
  flat_map
    (fun raw =>
       let line := strip raw in
       if negb (truthy line) || negb (startswith line "https://web.archive.org/")
       then []
       else match search_capture_year line with
            | Some year => [(year, line)]
            | None => []
            end)
    lines.

(** [historical_urls_raw.sort(key=lambda x: x[0])]: a stable sort on the
    year text; an element goes behind those whose year is strictly
    smaller. *)
Fixpoint insert_by_year (x : string * string) (l : list (string * string))
  : list (string * string) :=
  match l with
  | [] => [x]
  | y :: l' =>
      if String.ltb (fst y) (fst x) then y :: insert_by_year x l'
      else x :: y :: l'
  end.

Definition sort_by_year (l : list (string * string)) : list (string * string) :=
  fold_right insert_by_year [] l.

(** The loop that keeps the first entry of every URL (lines 45-51). *)
Fixpoint dedup_urls (seen : list string) (l : list (string * string))
  : list (string * string) :=
  match l with
  | [] => []
  | (year, url) :: l' =>
      if str_in url seen then dedup_urls seen l'
      else (year, url) :: dedup_urls (url :: seen) l'
  end.

(** [load_historical_urls_from_file]; the argument is what [readlines]
    gives, or [None] when the file cannot be opened or read.  In that case
    the handler logs the error, and the [return] after the [try] reads a
    local variable that was never bound. *)
Definition load_historical_urls_from_file (file : option (list string))
  : result (list (string * string)) :=
  match file with
  | Some lines => Ok (dedup_urls [] (sort_by_year (collect_historical lines)))
  | None =>
      Raise (OtherError "UnboundLocalError: cannot access local variable 'historical_urls'")
  end.

(** A line of the input file that yields an entry for [year]. *)
Definition archive_line (year url : string) : Prop :=
  truthy url = true /\ startswith url "https://web.archive.org/" = true /\
  search_capture_year url = Some year.

Definition year_ordered (a b : string * string) : Prop :=
  String.leb (fst a) (fst b) = true.

(** ** Reading the model's answer ([_parse_llm_response])

    [s.find(sub)]: the index of the first occurrence, if any. *)
Fixpoint find (s sub : string) : option nat :=
  if String.prefix sub s then Some 0
  else match s with
       | EmptyString => None
       | String _ s' => option_map S (find s' sub)
       end.

(** [s.rfind(c)] for a single character. *)
Fixpoint rfind_char (c : ascii) (s : string) : option nat :=
  match s with
  | EmptyString => None
  | String d s' =>
      match rfind_char c s' with
      | Some i => Some (S i)
      | None => if Ascii.eqb c d then Some 0 else None
      end
  end.

(** A slice bound as Python normalises it: a negative bound counts from
    the end, and the result is clamped to the string. *)
Definition slice_bound (len i : Z) : Z :=
  Z.max 0 (Z.min len (if (i <? 0)%Z then (i + len)%Z else i)).

(** [s[a:b]] *)
Definition slice (s : string) (a b : Z) : string :=
  let len := Z.of_nat (String.length s) in
  let lo := slice_bound len a in
  let hi := slice_bound len b in
  take (Z.to_nat (hi - lo)) (drop (Z.to_nat lo) s).

(** [s.find(sub, start)] for a non-empty [sub]; -1 when there is no
    occurrence. *)
Definition find_from (s sub : string) (start : Z) : Z :=
  let lo := slice_bound (Z.of_nat (String.length s)) start in
  match find (drop (Z.to_nat lo) s) sub with
  | Some i => (lo + Z.of_nat i)%Z
  | None => (-1)%Z
  end.

Definition rfind_from_end (c : ascii) (s : string) : Z :=
  match rfind_char c s with
  | Some i => Z.of_nat i
  | None => (-1)%Z
  end.

(** Lines 478-498: the text handed to [json.loads], or the [ValueError]
    of line 488. *)
Definition extract_json_text (response : string) : result string :=
  if contains response "```json" then
    let json_start := (find_from response "```json" 0 + 7)%Z in
    let json_end := find_from response "```" json_start in
    Ok (strip (slice response json_start json_end))
  else
    let obj_start := find_from response "{" 0 in
    let arr_start := find_from response "[" 0 in
    if (obj_start =? -1)%Z && (arr_start =? -1)%Z
    then Raise (ValueError "no JSON found in the response")
    else if negb (obj_start =? -1)%Z &&
            ((arr_start =? -1)%Z || (obj_start <? arr_start)%Z)
    then Ok (slice response obj_start (rfind_from_end "}" response + 1)%Z)
    else Ok (slice response arr_start (rfind_from_end "]" response + 1)%Z).

(** [_parse_llm_response]; [json_loads] is [json.loads], [None] standing
    for its [JSONDecodeError].  Both errors are caught and raised again
    as a plain [Exception]. *)
Definition _parse_llm_response (json_loads : string -> option json)
  (response : string) : result json :=
  match extract_json_text response with
  | Raise e => Raise (OtherError ("LLM response format error: " +++ exn_message e))
  | Ok json_str =>
      match json_loads json_str with
      | Some parsed => Ok parsed
      | None => Raise (OtherError "LLM response format error: JSONDecodeError")
      end
  end.

(** * Properties *)

(** ** The pattern compiler *)

Lemma prefix_cons (c d : ascii) (p s : string) :
  String.prefix (String c p) (String d s) = Ascii.eqb c d && String.prefix p s.
Proof.
  simpl. destruct (ascii_dec c d) as [->|Hne].
  - now rewrite Ascii.eqb_refl.
  - apply Ascii.eqb_neq in Hne. now rewrite Hne.
Qed.

Lemma has_char_false_head (c d : ascii) (s : string) :
  has_char c (String d s) = false -> Ascii.eqb c d = false /\ has_char c s = false.
Proof. simpl. now intros H%orb_false_elim. Qed.

(** The replacement looks for two backslashes before the star; in the
    escaped text of a pattern that holds no backslash they never occur, so
    the text stays as [re.escape] made it and a star stays a literal. *)
Lemma replace_noop_without_backslash (raw_pat : string) :
  has_char "\" raw_pat = false ->
  replace_all "\\*" ".*" (re_escape raw_pat) = re_escape raw_pat.
Proof.
  unfold replace_all. induction raw_pat as [|c s IH]; intros H; [reflexivity|].
  apply has_char_false_head in H as [Hc Hs]. specialize (IH Hs).
  cbn [re_escape]. destruct (is_re_special c).
  - cbn [replace_from]. rewrite !prefix_cons, Ascii.eqb_refl, Hc. cbn [andb].
    now rewrite IH.
  - cbn [replace_from]. rewrite prefix_cons, Hc. cbn [andb]. now rewrite IH.
Qed.

(** C1, evaluated on the code: the pattern [/product/*] is compiled to the
    regex text [/product/\*]; the star is a literal, so the path
    [/product/featured], which starts with the literal prefix [/product/],
    is not matched, while a path with a star at that place is. *)
Theorem C1_wildcard_stays_literal :
  pattern_regex_text "/product/*" = "/product/\*" /\
  (exists rx,
      re_compile (pattern_regex_text "/product/*") = Some rx /\
      regex_match rx "/product/featured" = false /\
      regex_match rx "/product/" = false /\
      regex_match rx "/product/*featured" = true).
Proof.
  split; [reflexivity|]. eexists. split; [reflexivity|]. now repeat split.
Qed.

(** ** Unwrapping archived URLs *)

Lemma prefix_split (p s : string) :
  String.prefix p s = true -> s = p +++ drop (String.length p) s.
Proof.
  revert s. induction p as [|c p IH]; intros s H; [reflexivity|].
  destruct s as [|d s]; [discriminate|].
  rewrite prefix_cons in H. apply andb_prop in H as [Hc Hp].
  apply Ascii.eqb_eq in Hc. subst d. cbn. f_equal. now apply IH.
Qed.

Lemma after_http_scheme_cases (u h : string) :
  after_http_scheme u = Some h ->
  u = "https://" +++ h \/ u = "http://" +++ h.
Proof.
  unfold after_http_scheme, startswith. intros H.
  destruct (String.prefix "https://" u) eqn:E1.
  - injection H as <-. left. exact (prefix_split _ _ E1).
  - destruct (String.prefix "http://" u) eqn:E2; [|discriminate].
    injection H as <-. right. exact (prefix_split _ _ E2).
Qed.

Lemma search_wayback_url_unfold (url : string) :
  search_wayback_url url =
  match
    match after_web_stamp url with
    | Some u => match after_http_scheme u with
                | Some _ => Some (to_eol u)
                | None => None
                end
    | None => None
    end
  with
  | Some g => Some g
  | None => match url with
            | EmptyString => None
            | String _ url' => search_wayback_url url'
            end
  end.
Proof. destruct url; reflexivity. Qed.

(** What the search extracts always starts with a scheme and two slashes. *)
Lemma search_wayback_url_scheme (url g : string) :
  search_wayback_url url = Some g ->
  exists t, g = "https://" +++ t \/ g = "http://" +++ t.
Proof.
  induction url as [|c url IH]; rewrite search_wayback_url_unfold.
  all: destruct (after_web_stamp _) as [u|];
    [destruct (after_http_scheme u) as [h|] eqn:Eh|].
  all: try discriminate; try exact IH.
  all: intros H; injection H as <-.
  all: destruct (after_http_scheme_cases _ Eh) as [-> | ->];
    exists (to_eol h); [now left | now right].
Qed.

(** So neither repair of [repair_scheme_slashes] ever applies to it: the
    repair lines of the classifier change nothing. *)
Lemma repair_never_applies (url g : string) :
  search_wayback_url url = Some g -> repair_scheme_slashes g = g.
Proof.
  intros H. destruct (search_wayback_url_scheme _ H) as [t [-> | ->]];
    destruct t; reflexivity.
Qed.

(** *** Characters that a URL does not hold stay out of its parts *)

Section Lacks.

Variable c : ascii.

Lemma has_char_append (s t : string) :
  has_char c (s +++ t) = has_char c s || has_char c t.
Proof. induction s as [|d s IH]; simpl; [reflexivity|]. now rewrite IH, orb_assoc. Qed.

Lemma lacks_tail (d : ascii) (s : string) :
  has_char c (String d s) = false -> has_char c s = false.
Proof. simpl. now intros H%orb_false_elim. Qed.

Lemma lacks_drop (n : nat) (s : string) :
  has_char c s = false -> has_char c (drop n s) = false.
Proof.
  revert s. induction n as [|n IH]; intros s H; [exact H|].
  destruct s as [|d s]; [reflexivity|]. apply IH. now apply lacks_tail with d.
Qed.

Lemma lacks_take (n : nat) (s : string) :
  has_char c s = false -> has_char c (take n s) = false.
Proof.
  revert s. induction n as [|n IH]; intros s H; [reflexivity|].
  destruct s as [|d s]; [reflexivity|]. simpl in *.
  apply orb_false_elim in H as [-> H]. now apply IH.
Qed.

Lemma lacks_span_until (p : ascii -> bool) (s : string) :
  has_char c s = false -> has_char c (span_until p s) = false.
Proof.
  induction s as [|d s IH]; intros H; [reflexivity|]. simpl in *.
  apply orb_false_elim in H as [Hd H]. destruct (p d); [reflexivity|].
  simpl. now rewrite Hd, IH.
Qed.

Lemma lacks_rest_from (p : ascii -> bool) (s : string) :
  has_char c s = false -> has_char c (rest_from p s) = false.
Proof.
  induction s as [|d s IH]; intros H; [reflexivity|]. simpl.
  destruct (p d); [exact H|]. apply IH. now apply lacks_tail with d.
Qed.

Lemma lacks_before_char (d : ascii) (s : string) :
  has_char c s = false -> has_char c (before_char d s) = false.
Proof.
  induction s as [|e s IH]; intros H; [reflexivity|]. simpl in *.
  apply orb_false_elim in H as [He H]. destruct (Ascii.eqb d e); [reflexivity|].
  simpl. now rewrite He, IH.
Qed.

Lemma lacks_after_char (d : ascii) (s : string) :
  has_char c s = false -> has_char c (after_char d s) = false.
Proof.
  induction s as [|e s IH]; intros H; [reflexivity|]. simpl in *.
  apply orb_false_elim in H as [He H]. destruct (Ascii.eqb d e); [exact H | now apply IH].
Qed.

Lemma lacks_lstrip (p : ascii -> bool) (s : string) :
  has_char c s = false -> has_char c (lstrip_with p s) = false.
Proof.
  induction s as [|d s IH]; intros H; [reflexivity|]. simpl.
  destruct (p d); [|exact H]. apply IH. now apply lacks_tail with d.
Qed.

Lemma lacks_remove_chars (p : ascii -> bool) (s : string) :
  has_char c s = false -> has_char c (remove_chars p s) = false.
Proof.
  induction s as [|d s IH]; intros H; [reflexivity|]. simpl in *.
  apply orb_false_elim in H as [Hd H]. destruct (p d); [now apply IH|].
  simpl. now rewrite Hd, IH.
Qed.

Lemma lacks_after_web_stamp (s u : string) :
  after_web_stamp s = Some u -> has_char c s = false -> has_char c u = false.
Proof.
  unfold after_web_stamp. intros H Hs.
  destruct (startswith s "/web/"); [|discriminate].
  destruct (span_until _ _); [discriminate|].
  destruct (rest_from _ _) as [|d u'] eqn:E; [discriminate|].
  assert (Hr : has_char c (String d u') = false).
  { rewrite <- E. now apply lacks_rest_from, lacks_drop. }
  destruct d as [[] [] [] [] [] [] [] []]; cbn in H; try discriminate.
  assert (u' = u) by congruence. subst u'. now apply lacks_tail in Hr.
Qed.

Lemma lacks_search_wayback_url (url g : string) :
  search_wayback_url url = Some g -> has_char c url = false -> has_char c g = false.
Proof.
  induction url as [|d url IH]; rewrite search_wayback_url_unfold.
  all: destruct (after_web_stamp _) as [u|] eqn:Eu;
    [destruct (after_http_scheme u) as [h|]|].
  all: try discriminate.
  1: intros H Hs; injection H as <-;
    now apply lacks_span_until, (lacks_after_web_stamp _ Eu).
  all: intros H Hs; apply (IH H); now apply lacks_tail with d.
Qed.

Lemma lacks_replace_first (old new s : string) :
  has_char c new = false -> has_char c s = false ->
  has_char c (replace_first old new s) = false.
Proof.
  intros Hn. induction s as [|d s IH]; intros Hs.
  - cbn [replace_first]. destruct (String.prefix old ""); [|reflexivity].
    rewrite has_char_append, Hn. now rewrite lacks_drop.
  - cbn [replace_first]. destruct (String.prefix old (String d s)).
    + rewrite has_char_append, Hn. now rewrite lacks_drop.
    + simpl in *. apply orb_false_elim in Hs as [-> Hs]. now apply IH.
Qed.

Lemma lacks_repair (underlying : string) :
  has_char c "https://" = false ->
  has_char c underlying = false ->
  has_char c (repair_scheme_slashes underlying) = false.
Proof.
  intros Hs Hu. unfold repair_scheme_slashes.
  assert (Hh : has_char c "http://" = false).
  { simpl in *. repeat (apply orb_false_elim in Hs as [? Hs]).
    repeat (apply orb_false_intro; try assumption). }
  repeat match goal with
         | |- context [if ?b then _ else _] => destruct b
         end; repeat apply lacks_replace_first; assumption.
Qed.

Lemma lacks_after_http_scheme (u h : string) :
  after_http_scheme u = Some h -> has_char c u = false -> has_char c h = false.
Proof.
  intros H Hu. destruct (after_http_scheme_cases _ H) as [-> | ->];
    rewrite has_char_append in Hu; now apply orb_false_elim in Hu.
Qed.

Lemma lacks_search_wayback_origin (url g : string) :
  search_wayback_origin url = Some g -> has_char c url = false -> has_char c g = false.
Proof.
  induction url as [|d url IH].
  - cbn. discriminate.
  - intros H Hs. cbn [search_wayback_origin] in H.
    destruct (after_web_stamp (String d url)) as [u|] eqn:Eu.
    + pose proof (lacks_after_web_stamp _ Eu Hs) as Hu.
      destruct (after_http_scheme u) as [h|] eqn:Eh.
      * destruct (span_until (Ascii.eqb "/") h) as [|e host] eqn:Ehost.
        -- apply (IH H). now apply lacks_tail with d.
        -- injection H as <-. rewrite has_char_append, lacks_take by exact Hu.
           rewrite <- Ehost. now apply lacks_span_until, (lacks_after_http_scheme _ Eh).
      * apply (IH H). now apply lacks_tail with d.
    + apply (IH H). now apply lacks_tail with d.
Qed.

End Lacks.

Section Unwrap.

Variable valid_bracketed_netloc : string -> bool.

(** A URL without square brackets is parsed without an exception. *)
Lemma urlparse_returns (url : string) :
  has_char "[" url = false -> has_char "]" url = false ->
  exists p, urlparse valid_bracketed_netloc url = Ok p.
Proof.
  intros Ho Hc. unfold urlparse, urlsplit.
  set (url1 := remove_chars is_unsafe_url_byte (lstrip_with is_c0_or_space url)).
  assert (Ho1 : has_char "[" url1 = false) by now apply lacks_remove_chars, lacks_lstrip.
  assert (Hc1 : has_char "]" url1 = false) by now apply lacks_remove_chars, lacks_lstrip.
  match goal with
  | |- context [let '(scheme, url2) := ?e in _] => set (pair := e)
  end.
  assert (Hpair : has_char "[" (snd pair) = false /\ has_char "]" (snd pair) = false).
  { subst pair. destruct (before_char ":" url1) as [|c0 cand]; [now split|].
    destruct (_ && _); [|now split]. cbn [snd]. split; now apply lacks_after_char. }
  destruct pair as [scheme url2]. cbn [snd] in Hpair. destruct Hpair as [Ho2 Hc2].
  destruct (startswith url2 "//").
  - rewrite (lacks_span_until _ _ _ (lacks_drop _ 2 _ Ho2)).
    rewrite (lacks_span_until _ _ _ (lacks_drop _ 2 _ Hc2)). cbn [andb orb].
    repeat match goal with
           | |- context [if ?b then _ else _] => destruct b
           | |- context [let '(_, _) := ?e in _] => destruct e
           end; eauto.
  - repeat match goal with
           | |- context [if ?b then _ else _] => destruct b
           | |- context [let '(_, _) := ?e in _] => destruct e
           end; eauto.
Qed.

(** So the location of a link without square brackets is always found. *)
Lemma link_location_returns (url : string) :
  has_char "[" url = false -> has_char "]" url = false ->
  exists loc, link_location valid_bracketed_netloc url = Ok loc.
Proof.
  intros Ho Hc. unfold link_location. destruct (contains url "web.archive.org").
  - destruct (search_wayback_url url) as [g|] eqn:Eg; [|eauto].
    rewrite (repair_never_applies _ Eg).
    destruct (urlparse_returns g) as [p ->]; eauto using lacks_search_wayback_url.
  - destruct (urlparse_returns url Ho Hc) as [p ->]. eauto.
Qed.

(** And so is the home host of a home URL without square brackets. *)
Lemma derived_home_host_returns (homepage_url : string) :
  has_char "[" homepage_url = false -> has_char "]" homepage_url = false ->
  exists home_host, derived_home_host valid_bracketed_netloc homepage_url = Ok home_host.
Proof.
  intros Ho Hc. unfold derived_home_host. destruct (truthy homepage_url); [|eauto].
  unfold _get_home_host. destruct (urlparse_returns homepage_url Ho Hc) as [p ->].
  destruct (contains _ _); [|eauto].
  destruct (search_wayback_origin homepage_url) as [g|] eqn:Eg; [|eauto].
  destruct (urlparse_returns (repair_scheme_slashes g)) as [p' ->];
    eauto using lacks_repair, lacks_search_wayback_origin.
Qed.

(** C3, evaluated on the code: the URL of the claim does not hold the
    marker [web.archive.org], so it is parsed as it stands; with the
    marker, the search for [/web/<digits>/https?://] finds nothing in a
    URL whose embedded scheme has one slash, and the link keeps an empty
    host and its whole text as path. *)
Theorem C3_single_slash_not_unwrapped :
  link_location valid_bracketed_netloc archive_example_url
    = Ok ("archive.example", "/web/20210615000000/http:/shop.example/sale?x=1") /\
  link_location valid_bracketed_netloc wayback_example_url
    = Ok ("", wayback_example_url) /\
  _extract_home_host valid_bracketed_netloc wayback_example_url
    = Ok "web.archive.org" /\
  link_location valid_bracketed_netloc
    "https://web.archive.org/web/20210615000000/http://shop.example/sale?x=1"
    = Ok ("shop.example", "/sale?x=1").
Proof. repeat split. Qed.

End Unwrap.

(** ** The order of the compiled matchers *)

Lemma insert_matcher_perm (x : compiled_matcher) (l : list compiled_matcher) :
  Permutation (x :: l) (insert_matcher x l).
Proof.
  induction l as [|y l IH]; simpl; [reflexivity|].
  destruct (cm_pattern_len x <? cm_pattern_len y); [|reflexivity].
  rewrite perm_swap. now constructor.
Qed.

Lemma sort_matchers_perm (l : list compiled_matcher) :
  Permutation l (sort_matchers l).
Proof.
  induction l as [|x l IH]; simpl; [constructor|].
  rewrite <- insert_matcher_perm. now constructor.
Qed.

Lemma insert_matcher_sorted (x : compiled_matcher) (l : list compiled_matcher) :
  StronglySorted longer_first l -> StronglySorted longer_first (insert_matcher x l).
Proof.
  induction 1 as [|y l Hs IH Hall]; simpl.
  - repeat constructor.
  - destruct (cm_pattern_len x <? cm_pattern_len y) eqn:E.
    + apply Nat.ltb_lt in E. constructor; [exact IH|].
      rewrite <- insert_matcher_perm. constructor; [unfold longer_first; lia | exact Hall].
    + apply Nat.ltb_ge in E. constructor; [now constructor|].
      constructor; [exact E|].
      eapply Forall_impl; [|exact Hall]. unfold longer_first. intros; lia.
Qed.

Lemma sort_matchers_sorted (l : list compiled_matcher) :
  StronglySorted longer_first (sort_matchers l).
Proof.
  induction l as [|x l IH]; simpl; [constructor | now apply insert_matcher_sorted].
Qed.

(** Insertion never moves an element past one of the same length. *)
Lemma insert_matcher_filter (k : nat) (x : compiled_matcher) (l : list compiled_matcher) :
  filter (has_len k) (insert_matcher x l) = filter (has_len k) (x :: l).
Proof.
  induction l as [|y l IH]; [reflexivity|].
  cbn [insert_matcher]. destruct (cm_pattern_len x <? cm_pattern_len y) eqn:E; [|reflexivity].
  apply Nat.ltb_lt in E. cbn [filter] in *. rewrite IH. unfold has_len.
  destruct (cm_pattern_len x =? k) eqn:Ex, (cm_pattern_len y =? k) eqn:Ey; try reflexivity.
  apply Nat.eqb_eq in Ex, Ey. lia.
Qed.

Lemma sort_matchers_stable (k : nat) (l : list compiled_matcher) :
  filter (has_len k) (sort_matchers l) = filter (has_len k) l.
Proof.
  induction l as [|x l IH]; [reflexivity|].
  cbn [sort_matchers fold_right]. rewrite insert_matcher_filter.
  cbn [filter]. fold (sort_matchers l). now rewrite IH.
Qed.

Lemma filter_has_len_cons (k : nat) (x : compiled_matcher) (l : list compiled_matcher) :
  filter (has_len k) (x :: l)
  = if cm_pattern_len x =? k then x :: filter (has_len k) l else filter (has_len k) l.
Proof. reflexivity. Qed.

Lemma head_in_own_filter (x : compiled_matcher) (l : list compiled_matcher) :
  In x (filter (has_len (cm_pattern_len x)) (x :: l)).
Proof. rewrite filter_has_len_cons, Nat.eqb_refl. now left. Qed.

(** Two lists in the order [longer_first] that agree, length by length, on
    the elements of that length and their order are equal: the result of a
    stable sort by length does not depend on the sorting algorithm. *)
Lemma stable_sorted_unique (l1 : list compiled_matcher) :
  forall l2,
    StronglySorted longer_first l1 ->
    StronglySorted longer_first l2 ->
    (forall k, filter (has_len k) l1 = filter (has_len k) l2) ->
    l1 = l2.
Proof.
  induction l1 as [|x l1 IH]; intros l2 H1 H2 Hf.
  - destruct l2 as [|y l2]; [reflexivity|].
    pose proof (head_in_own_filter y l2) as Hin. rewrite <- Hf in Hin. destruct Hin.
  - destruct l2 as [|y l2].
    + pose proof (head_in_own_filter x l1) as Hin. rewrite Hf in Hin. destruct Hin.
    + inversion H1 as [|? ? Hs1 Hall1]; subst. inversion H2 as [|? ? Hs2 Hall2]; subst.
      rewrite Forall_forall in Hall1, Hall2. unfold longer_first in Hall1, Hall2.
      assert (Hxy : cm_pattern_len x = cm_pattern_len y).
      { apply Nat.le_antisymm.
        - pose proof (head_in_own_filter x l1) as Hin. rewrite Hf in Hin.
          apply filter_In in Hin as [[<- | Hin] _]; [lia | exact (Hall2 _ Hin)].
        - pose proof (head_in_own_filter y l2) as Hin. rewrite <- Hf in Hin.
          apply filter_In in Hin as [[<- | Hin] _]; [lia | exact (Hall1 _ Hin)]. }
      assert (Hhead : x = y).
      { specialize (Hf (cm_pattern_len x)). rewrite !filter_has_len_cons in Hf.
        rewrite <- Hxy, Nat.eqb_refl in Hf. now injection Hf. }
      subst y. f_equal. apply IH; try assumption.
      intros k. specialize (Hf k). rewrite !filter_has_len_cons in Hf.
      destruct (cm_pattern_len x =? k); [now injection Hf | exact Hf].
Qed.

Lemma scan_patterns_app (url real_part : string) (patterns : list compiled_matcher)
  (results : list classified_url) :
  scan_patterns url real_part patterns results
  = results ++ scan_patterns url real_part patterns [].
Proof.
  induction patterns as [|m ps IH]; simpl; [now rewrite app_nil_r|].
  destruct (regex_match (cm_regex m) real_part); [reflexivity | exact IH].
Qed.

(** The walk stops at the first matcher that matches. *)
Lemma scan_patterns_first (url real_part : string) (patterns : list compiled_matcher) :
  (scan_patterns url real_part patterns [] = [] /\
   forall m, In m patterns -> regex_match (cm_regex m) real_part = false) \/
  (exists before m after,
      patterns = before ++ m :: after /\
      (forall m', In m' before -> regex_match (cm_regex m') real_part = false) /\
      regex_match (cm_regex m) real_part = true /\
      scan_patterns url real_part patterns []
      = [mk_classified url (cm_stage m) (cm_type_name m)]).
Proof.
  induction patterns as [|m ps IH]; simpl.
  - left. split; [reflexivity | intros ? []].
  - destruct (regex_match (cm_regex m) real_part) eqn:E.
    + right. exists [], m, ps. repeat split; try assumption. intros ? [].
    + destruct IH as [[Hnil Hno] | (b & m0 & a & -> & Hb & Hm & Hs)].
      * left. split; [exact Hnil|]. intros m' [<-|Hin]; [exact E | now apply Hno].
      * right. exists (m :: b), m0, a. repeat split; try assumption.
        intros m' [<-|Hin]; [exact E | now apply Hb].
Qed.

(** In a list kept longest first, the matcher the walk stops at is at
    least as long as every other matcher that matches the path. *)
Lemma scan_prefers_longest (url real_part : string) (patterns : list compiled_matcher)
  (m' : compiled_matcher) :
  StronglySorted longer_first patterns ->
  In m' patterns ->
  regex_match (cm_regex m') real_part = true ->
  exists m,
    In m patterns /\
    regex_match (cm_regex m) real_part = true /\
    cm_pattern_len m' <= cm_pattern_len m /\
    scan_patterns url real_part patterns []
    = [mk_classified url (cm_stage m) (cm_type_name m)].
Proof.
  intros Hs Hin Hm.
  destruct (scan_patterns_first url real_part patterns)
    as [[_ Hno] | (b & m & a & -> & Hb & Hmm & Hscan)].
  - rewrite (Hno _ Hin) in Hm. discriminate.
  - exists m. repeat split; try assumption; [apply in_elt|].
    apply in_app_or in Hin as [Hin | [<- | Hin]].
    + rewrite (Hb _ Hin) in Hm. discriminate.
    + lia.
    + clear - Hs Hin. induction b as [|y b IH]; simpl in Hs.
      * inversion Hs as [|? ? _ Hall]; subst.
        rewrite Forall_forall in Hall. exact (Hall _ Hin).
      * inversion Hs; subst. now apply IH.
Qed.

(** C6, the length the claim gives for the wildcard pattern: the matcher
    compiled from [/product/*] carries the length 10, not 9. *)
Lemma C6_wildcard_length_is_ten :
  map cm_pattern_len (compile_pattern "Consideration Stage" "Product Listing"
                                      "/product/*" []) = [10] /\
  map cm_pattern_len (compile_pattern "Consideration Stage" "Product Listing"
                                      "/product/*" []) <> [9].
Proof. split; [reflexivity | discriminate]. Qed.

(** C6, as amended: the compiled list of a fresh planner is the stable
    sort, longest pattern first, of the matchers in taxonomy order; for the
    patterns [/product/*] (length 10) and [/product/featured] (length 17)
    the path [/product/featured] is given the type of the longer one, and
    so it is when the shorter pattern matches the path too. *)
Theorem C6_sorted_by_length_stable :
  (forall (flat : list flat_type) (nested : pydict (list type_obj)),
      let source := if list_truthy nested then nested else nest_flat_types flat in
      let compiled := compile_nested source in
      exists sorted,
        compiled_patterns (_compile_core_type_patterns (mk_planner flat nested None))
        = Some sorted /\
        StronglySorted longer_first sorted /\
        Permutation compiled sorted /\
        (forall k, filter (has_len k) sorted = filter (has_len k) compiled)) /\
  map (fun m => (cm_type_name m, cm_pattern_len m)) (compile_nested product_taxonomy)
  = [("Product Listing", 10); ("Featured Product", 17)] /\
  (forall valid_bracketed_netloc year,
      fst (_classify_candidate_urls valid_bracketed_netloc product_planner year
                                    [featured_link] "")
      = Ok [mk_classified featured_link "Consideration Stage" "Featured Product"]) /\
  (forall valid_bracketed_netloc year,
      map (fun m => regex_match (cm_regex m) "/product/featured")
          (compile_nested prefix_taxonomy) = [true; true] /\
      fst (_classify_candidate_urls valid_bracketed_netloc prefix_planner year
                                    [featured_link] "")
      = Ok [mk_classified featured_link "Consideration Stage" "Featured Product"]).
Proof.
  split; [|split; [reflexivity | split; intros; [reflexivity | split; reflexivity]]].
  intros flat nested source compiled. exists (sort_matchers compiled).
  split; [reflexivity|]. split; [apply sort_matchers_sorted|].
  split; [apply sort_matchers_perm | intros k; apply sort_matchers_stable].
Qed.

(** ** The classifier *)

Section Classifier.

Variable valid_bracketed_netloc : string -> bool.

Lemma classify_loop_contrib (patterns : list compiled_matcher) (home_host : string)
  (links : list string) :
  forall results out,
    classify_loop valid_bracketed_netloc (Some patterns) home_host links results = Ok out ->
    exists contrib,
      out = results ++ concat contrib /\
      Forall2 (link_contribution valid_bracketed_netloc patterns home_host) links contrib.
Proof.
  induction links as [|url rest IH]; intros results out H; simpl in H.
  - injection H as <-. exists []. split; [now rewrite app_nil_r | constructor].
  - unfold classify_link in H.
    destruct (link_location valid_bracketed_netloc url) as [[host rp]|e] eqn:Hloc;
      [|discriminate].
    destruct (cross_domain home_host host) eqn:Hcd.
    + apply IH in H as (contrib & -> & Hall). exists ([] :: contrib).
      split; [reflexivity|]. constructor; [|exact Hall].
      now apply contrib_filtered with host rp.
    + apply IH in H as (contrib & -> & Hall). rewrite scan_patterns_app.
      destruct (scan_patterns_first url rp patterns)
        as [[Hnil Hno] | (b & m & a & Hpat & Hb & Hm & Hscan)].
      * rewrite Hnil. exists ([] :: contrib). split; [now rewrite app_nil_r|].
        constructor; [|exact Hall]. now apply contrib_unmatched with host rp.
      * rewrite Hscan. exists ([mk_classified url (cm_stage m) (cm_type_name m)] :: contrib).
        split; [now rewrite <- app_assoc|]. constructor; [|exact Hall].
        now apply contrib_first_match with host rp b a.
Qed.

Lemma contribution_length (patterns : list compiled_matcher) (home_host : string)
  (links : list string) (contrib : list (list classified_url)) :
  Forall2 (link_contribution valid_bracketed_netloc patterns home_host) links contrib ->
  List.length (concat contrib) <= List.length links.
Proof.
  induction 1 as [|url c links contrib Hc _ IH]; simpl; [lia|].
  rewrite length_app. destruct Hc; simpl; lia.
Qed.

(** With a compiled list in place, only the parsing of a URL can raise. *)
Lemma classify_loop_returns (patterns : list compiled_matcher) (home_host : string)
  (links : list string) :
  (forall url, In url links -> exists loc, link_location valid_bracketed_netloc url = Ok loc) ->
  forall results,
    exists out,
      classify_loop valid_bracketed_netloc (Some patterns) home_host links results = Ok out.
Proof.
  induction links as [|url rest IH]; intros Hloc results; simpl.
  - now exists results.
  - unfold classify_link. destruct (Hloc url (or_introl eq_refl)) as [[host rp] ->].
    destruct (cross_domain home_host host); apply IH; intros; apply Hloc; now right.
Qed.

(** The output of a call that returns, link by link. *)
Lemma classify_contributions (self : planner) (year : string) (links : list string)
  (homepage_url : string) (patterns : list compiled_matcher)
  (out : list classified_url) :
  compiled_patterns self = Some patterns ->
  fst (_classify_candidate_urls valid_bracketed_netloc self year links homepage_url) = Ok out ->
  exists home_host contrib,
    derived_home_host valid_bracketed_netloc homepage_url = Ok home_host /\
    out = concat contrib /\
    Forall2 (link_contribution valid_bracketed_netloc patterns home_host) links contrib.
Proof.
  intros Hpat H. unfold _classify_candidate_urls in H. rewrite Hpat in H.
  destruct (derived_home_host valid_bracketed_netloc homepage_url) as [h|e] eqn:Hh;
    [|discriminate].
  cbn [fst] in H. apply classify_loop_contrib in H as (contrib & -> & Hall).
  exists h, contrib. now repeat split.
Qed.

(** The classifier returns whenever the home URL and every link parse. *)
Lemma classify_returns (self : planner) (year : string) (links : list string)
  (homepage_url : string) (patterns : list compiled_matcher) (home_host : string) :
  compiled_patterns self = Some patterns ->
  derived_home_host valid_bracketed_netloc homepage_url = Ok home_host ->
  (forall url, In url links -> exists loc, link_location valid_bracketed_netloc url = Ok loc) ->
  exists out,
    fst (_classify_candidate_urls valid_bracketed_netloc self year links homepage_url) = Ok out.
Proof.
  intros Hpat Hh Hloc. unfold _classify_candidate_urls. rewrite Hpat, Hh.
  cbn [fst]. now apply classify_loop_returns.
Qed.



End Classifier.


(** ** Selection post-processing *)

(** C4, the part of the claim that fails: the dictionary returned after a
    fallback has the eleven keys of every result and none that tells the
    fallback; its truth-valued entries are those of a call that did not
    fall back. *)
Lemma C4_no_fallback_flag :
  exists fallback plain,
    _optimize_crawl_strategy "2021-06-15 00:00:00" (JObj (llm_with_urls []))
                             twenty_urls "2021" (Some true) = Ok fallback /\
    _optimize_crawl_strategy "2021-06-15 00:00:00" (JObj (llm_with_urls [JStr "u03"]))
                             twenty_urls "2021" (Some true) = Ok plain /\
    dict_get "recommended_crawl_pages" fallback
    = Some (JArr (map JStr (firstn 10 twenty_urls))) /\
    dict_get "recommended_crawl_pages" plain = Some (JArr [JStr "u03"]) /\
    dict_keys fallback = analysis_keys /\
    dict_get "fallback_used" fallback = None /\
    bool_entries fallback = bool_entries plain /\
    bool_entries fallback
    = [("using_real_llm", true); ("enforce_recommended_in_valid_list", true)].
Proof. do 2 eexists. repeat split. Qed.

(** C4, as amended: when the de-duplicated (and, under enforcement,
    filtered) list is empty, the call returns a dictionary whose final list
    is the first ten valid URLs in their order, with overlap count 0 and
    the enforcement flag; every returned dictionary has exactly the eleven
    keys of [analysis_keys], among them the final list, the overlap count
    and the enforcement flag, and no key for the fallback. *)
Theorem C4_fallback_first_ten (now : string) (llm_analysis : pydict json)
  (valid_content_urls : list string) (year : string) (enforce_in_valid : option bool) :
  (deduped_recommendations llm_analysis (effective_enforce enforce_in_valid)
                           valid_content_urls = Ok [] ->
   exists d,
     _optimize_crawl_strategy now (JObj llm_analysis) valid_content_urls year
                              enforce_in_valid = Ok d /\
     dict_get "recommended_crawl_pages" d
     = Some (JArr (map JStr (firstn 10 valid_content_urls))) /\
     dict_get "recommended_in_valid_overlap" d = Some (JNum 0) /\
     dict_get "enforce_recommended_in_valid_list" d
     = Some (JBool (effective_enforce enforce_in_valid))) /\
  (forall d,
      _optimize_crawl_strategy now (JObj llm_analysis) valid_content_urls year
                               enforce_in_valid = Ok d ->
      dict_keys d = analysis_keys /\
      dict_get "enforce_recommended_in_valid_list" d
      = Some (JBool (effective_enforce enforce_in_valid)) /\
      exists final overlap,
        dict_get "recommended_crawl_pages" d = Some (JArr final) /\
        dict_get "recommended_in_valid_overlap" d = Some (JNum (Z.of_nat overlap)) /\
        overlap <= List.length final).
Proof.
  split.
  - intros H. unfold _optimize_crawl_strategy. rewrite H. eexists. now repeat split.
  - intros d H. unfold _optimize_crawl_strategy in H.
    destruct (deduped_recommendations _ _ _) as [deduped|e]; [|discriminate].
    injection H as <-. split; [reflexivity|]. split; [reflexivity|].
    do 2 eexists. split; [reflexivity|]. split; [reflexivity|].
    destruct deduped as [|u l]; [simpl; lia|]. cbn [list_truthy negb].
    apply filter_length_le.
Qed.

(** C4 at the input of the specification: no candidate, twenty valid URLs,
    membership enforced. *)
Lemma C4_fallback_first_ten_witness :
  (exists d,
      _optimize_crawl_strategy "2021-06-15 00:00:00" (JObj (llm_with_urls []))
                               twenty_urls "2021" (Some true) = Ok d /\
      dict_get "recommended_crawl_pages" d
      = Some (JArr (map JStr
                      [ "u01"; "u02"; "u03"; "u04"; "u05";
                        "u06"; "u07"; "u08"; "u09"; "u10" ])) /\
      dict_get "recommended_in_valid_overlap" d = Some (JNum 0) /\
      dict_get "enforce_recommended_in_valid_list" d = Some (JBool true)) /\
  (dict_keys fallback_example = analysis_keys /\
   dict_get "enforce_recommended_in_valid_list" fallback_example = Some (JBool true) /\
   exists final overlap,
     dict_get "recommended_crawl_pages" fallback_example = Some (JArr final) /\
     dict_get "recommended_in_valid_overlap" fallback_example
     = Some (JNum (Z.of_nat overlap)) /\
     overlap <= List.length final).
Proof.
  destruct (C4_fallback_first_ten "2021-06-15 00:00:00" (llm_with_urls [])
              twenty_urls "2021" (Some true)) as [Hfallback Hkeys].
  split.
  - apply Hfallback. reflexivity.
  - apply (Hkeys fallback_example). reflexivity.
Defined.

(** ** Link discovery *)

Lemma str_in_In (x : string) (l : list string) : str_in x l = true <-> In x l.
Proof.
  unfold str_in. rewrite existsb_exists. split.
  - intros (y & Hin & Heq). apply String.eqb_eq in Heq. now subst.
  - intros Hin. exists x. split; [exact Hin | apply String.eqb_refl].
Qed.

Lemma set_add_keeps (x y : string) (s : list string) : In y s -> In y (set_add x s).
Proof.
  intros H. unfold set_add. destruct (str_in x s); [exact H|].
  apply in_or_app. now left.
Qed.

Section Discovery.

Variable valid_bracketed_netloc : string -> bool.
Variable urljoin : string -> string -> result string.
Variable set_to_list : list string -> list string.
Variable fetch_hrefs : nat -> string -> result (list string).

(** The loop only ever adds to the set. *)
Lemma discover_loop_keeps (homepage_url home_host : string) (max_links : nat)
  (hrefs : list string) :
  forall discovered found x,
    discover_loop valid_bracketed_netloc urljoin homepage_url home_host max_links
                  hrefs discovered = Ok found ->
    In x discovered -> In x found.
Proof.
  induction hrefs as [|href rest IH]; intros discovered found x H Hin; simpl in H.
  - now injection H as <-.
  - destruct (negb (truthy href)); [now apply IH with discovered|].
    destruct (urljoin homepage_url href) as [joined|e]; [|discriminate].
    destruct (_extract_home_host valid_bracketed_netloc (repair_joined joined))
      as [candidate_host|e]; [|discriminate].
    destruct (String.eqb candidate_host "" || String.eqb candidate_host home_host);
      [|now apply IH with discovered].
    destruct (_should_include_url _) as [[|]|e]; [| now apply IH with discovered | discriminate].
    destruct (max_links <=? _).
    + injection H as <-. now apply set_add_keeps.
    + eapply IH; [exact H|]. now apply set_add_keeps.
Qed.

(** C10: link discovery returns a list, whatever the collaborators do; the
    list holds the homepage URL and so is not empty; and when a step inside
    the [try] raises, the list is the homepage URL alone.  The membership
    relies on [list(s)] enumerating the elements of the set [s]. *)
Theorem C10_discovery_returns_homepage (homepage_url : string) (max_links : nat)
  (w : world) :
  (forall s x, In x s -> In x (set_to_list s)) ->
  let links :=
    fst (discover_internal_links valid_bracketed_netloc urljoin set_to_list
                                 fetch_hrefs homepage_url max_links w) in
  In homepage_url links /\
  links <> [] /\
  match discover_try valid_bracketed_netloc urljoin set_to_list fetch_hrefs
                     (tick w) homepage_url max_links with
  | Raise _ => links = [homepage_url]
  | Ok found => links = found
  end /\
  (forall e, fetch_hrefs (tick w) homepage_url = Raise e -> links = [homepage_url]).
Proof.
  intros Horder links.
  assert (Hlinks : links = match discover_try valid_bracketed_netloc urljoin set_to_list
                                   fetch_hrefs (tick w) homepage_url max_links with
                           | Ok found => found
                           | Raise _ => [homepage_url]
                           end).
  { subst links. unfold discover_internal_links, bind, next_tick, record_call, ret.
    cbn. now destruct (discover_try _ _ _ _ _ _ _). }
  assert (Hin : In homepage_url links).
  { rewrite Hlinks. unfold discover_try.
    destruct (fetch_hrefs (tick w) homepage_url) as [hrefs|e]; [|now left].
    destruct (_extract_home_host valid_bracketed_netloc homepage_url) as [home_host|e];
      [|now left].
    destruct (discover_loop _ _ _ _ _ _ _) as [found|e] eqn:Hloop; [|now left].
    apply Horder. eapply discover_loop_keeps; [exact Hloop | now left]. }
  split; [exact Hin|]. split; [intros Hnil; now rewrite Hnil in Hin|]. split.
  - rewrite Hlinks. now destruct (discover_try _ _ _ _ _ _ _).
  - intros e He. rewrite Hlinks. unfold discover_try. now rewrite He.
Qed.

End Discovery.

(** C10 at a concrete page: the homepage comes back first, with the two
    links of its own site; and at a page that cannot be fetched. *)
Lemma C10_discovery_returns_homepage_witness :
  (let links :=
     fst (discover_internal_links accept_bracketed simple_urljoin insertion_order
                                  shop_hrefs shop_home_2015 10000 empty_world) in
   In shop_home_2015 links /\
   links <> [] /\
   links = [ shop_home_2015;
             "https://web.archive.org/web/20150101000000/http://shop.example/product/featured";
             "https://web.archive.org/web/20150101000000/http://shop.example/cart" ] /\
   (forall e, shop_hrefs 0 shop_home_2015 = Raise e -> links = [shop_home_2015])) /\
  fst (discover_internal_links accept_bracketed simple_urljoin insertion_order
                               failing_hrefs shop_home_2015 10000 empty_world)
  = [shop_home_2015].
Proof.
  split.
  - apply (@C10_discovery_returns_homepage accept_bracketed simple_urljoin
             insertion_order shop_hrefs shop_home_2015 10000 empty_world).
    intros s x H. exact H.
  - apply (@C10_discovery_returns_homepage accept_bracketed simple_urljoin
             insertion_order failing_hrefs shop_home_2015 10000 empty_world
             (fun s x H => H)) with (OtherError "connection timed out").
    reflexivity.
Defined.

(** ** The classification call of the planning step *)

Lemma dict_get_set_same {V : Type} (k : string) (v : V) (d : pydict V) :
  dict_get k (dict_set k v d) = Some v.
Proof.
  induction d as [|[k' v'] d IH]; simpl.
  - now rewrite String.eqb_refl.
  - destruct (String.eqb k k') eqn:E; simpl.
    + now rewrite String.eqb_refl.
    + now rewrite E.
Qed.

Lemma compile_sets_patterns (self : planner) :
  exists patterns, compiled_patterns (_compile_core_type_patterns self) = Some patterns.
Proof.
  unfold _compile_core_type_patterns.
  destruct (compiled_patterns self) as [[|m l]|] eqn:E; cbn; eauto.
Qed.

Lemma cross_domain_no_home (host : string) : cross_domain "" host = false.
Proof. reflexivity. Qed.

Lemma Forall2_In_l {A B : Type} (R : A -> B -> Prop) (l : list A) (l' : list B) (a : A) :
  Forall2 R l l' -> In a l -> exists b, In b l' /\ R a b.
Proof.
  induction 1 as [|x y l l' Hxy _ IH]; intros Hin; [destruct Hin|].
  destruct Hin as [<-|Hin].
  - exists y. split; [now left | exact Hxy].
  - destruct (IH Hin) as (b & Hb & Hab). exists b. split; [now right | exact Hab].
Qed.

Section Planning.

Variable valid_bracketed_netloc : string -> bool.
Variable clock : nat -> string.
Variable select_core : nat -> string -> list classified_url -> nat -> result json.

(** C9: the planning step calls the classifier with the default, empty
    home URL; the home host derived from it is empty and the domain filter
    then skips no host.  So when that call returns, its list holds an entry
    for every link of the year whose path and query some compiled pattern
    matches, whatever the link's host is; and this list is what a
    successful planning step stores for the year. *)
Theorem C9_shipped_call_filters_no_host (self0 : planner) (crawl_num : nat)
  (year : string) (valid_links : list string) :
  let self := _compile_core_type_patterns self0 in
  derived_home_host valid_bracketed_netloc "" = Ok "" /\
  (forall host, cross_domain "" host = false) /\
  exists patterns,
    compiled_patterns self = Some patterns /\
    forall classified,
      fst (_classify_candidate_urls valid_bracketed_netloc self year valid_links "")
      = Ok classified ->
      (forall url host real_part m,
          In url valid_links ->
          link_location valid_bracketed_netloc url = Ok (host, real_part) ->
          In m patterns ->
          regex_match (cm_regex m) real_part = true ->
          exists entry, In entry classified /\ cu_url entry = url) /\
      (forall w final,
          fst (plan_year valid_bracketed_netloc clock select_core self crawl_num year
                         valid_links w) = Ok final ->
          dict_get "classified_urls" final
          = Some (JArr (map json_of_classified classified))).
Proof.
  intros self. split; [reflexivity|]. split; [exact cross_domain_no_home|].
  destruct (compile_sets_patterns self0) as [patterns Hpat]. fold self in Hpat.
  exists patterns. split; [exact Hpat|]. intros classified Hcl. split.
  - intros url host real_part m Hin Hloc Hm Hmatch.
    destruct (classify_contributions valid_bracketed_netloc self year valid_links ""
                Hpat Hcl) as (home & contrib & Hhome & -> & Hall).
    cbn in Hhome. injection Hhome as <-.
    destruct (Forall2_In_l url Hall Hin) as (c & Hc & Hcontrib).
    destruct Hcontrib as [h rp Hl Hcd | h rp Hl _ Hno | h rp b m1 a Hl _ _ _ _].
    + discriminate.
    + rewrite Hloc in Hl. injection Hl as <- <-.
      rewrite (Hno _ Hm) in Hmatch. discriminate.
    + exists (mk_classified url (cm_stage m1) (cm_type_name m1)).
      split; [|reflexivity]. apply in_concat. eexists. split; [exact Hc | now left].
  - intros w final H. unfold plan_year in H. rewrite Hcl in H.
    unfold bind, next_tick, record_call, now, ret in H. cbn in H.
    destruct (select_core _ _ _ _) as [llm|e]; [|discriminate]. cbn in H.
    destruct (_optimize_crawl_strategy _ _ _ _ _) as [fa|e]; [|discriminate].
    cbn in H. injection H as <-. apply dict_get_set_same.
Qed.

End Planning.

(** C9 at a concrete year: two links of different hosts with the same
    path, both classified, and the list stored by the planning step. *)
Lemma C9_shipped_call_filters_no_host_witness :
  exists patterns,
    compiled_patterns (_compile_core_type_patterns prefix_planner) = Some patterns /\
    (forall url host real_part m,
        In url [featured_link; foreign_featured_link] ->
        link_location accept_bracketed url = Ok (host, real_part) ->
        In m patterns ->
        regex_match (cm_regex m) real_part = true ->
        exists entry,
          In entry
             [ mk_classified featured_link "Consideration Stage" "Featured Product";
               mk_classified foreign_featured_link "Consideration Stage"
                             "Featured Product" ] /\
          cu_url entry = url) /\
    dict_get "classified_urls" two_hosts_plan
    = Some (JArr (map json_of_classified
                    [ mk_classified featured_link "Consideration Stage"
                                    "Featured Product";
                      mk_classified foreign_featured_link "Consideration Stage"
                                    "Featured Product" ])).
Proof.
  destruct (@C9_shipped_call_filters_no_host accept_bracketed digit_clock select_all
              prefix_planner 15 "2021" [featured_link; foreign_featured_link])
    as (_ & _ & patterns & Hpat & Hclassified).
  exists patterns. split; [exact Hpat|].
  destruct (Hclassified
              [ mk_classified featured_link "Consideration Stage" "Featured Product";
                mk_classified foreign_featured_link "Consideration Stage"
                              "Featured Product" ] eq_refl) as [Hall Hstored].
  split; [exact Hall|].
  apply (Hstored empty_world two_hosts_plan). reflexivity.
Defined.

(** ** Resuming over complete documents *)

Section Resume.

Variable valid_bracketed_netloc : string -> bool.
Variable urljoin : string -> string -> result string.
Variable set_to_list : list string -> list string.
Variable clock : nat -> string.
Variable fetch_hrefs : nat -> string -> result (list string).
Variable generate_taxonomy : nat -> list string -> result (pydict (list type_obj)).
Variable select_core : nat -> string -> list classified_url -> nat -> result json.
Variable get_page_content : nat -> json -> option string.
Variable micro_scenarios : pydict (pydict (string * list string)).
Variable round_average : nat -> nat -> string.

(** A year that has links is skipped: no discovery call. *)
Lemma process_years_skip (historical_urls : list (string * string))
  (year_links_map : pydict (list string)) (w : world) :
  forallb (fun yu => has_links (fst yu) year_links_map) historical_urls = true ->
  process_years valid_bracketed_netloc urljoin set_to_list fetch_hrefs
                historical_urls year_links_map w
  = (year_links_map, w).
Proof.
  induction historical_urls as [|[year url] rest IH]; intros H; [reflexivity|].
  cbn [forallb fst] in H. apply andb_prop in H as [Hy Hrest].
  cbn [process_years]. rewrite Hy. exact (IH Hrest).
Qed.

(** A year that has a planning record is skipped: no selection call. *)
Lemma plan_years_skip (self : planner) (crawl_num : nat)
  (year_links : pydict (list string)) (yearly_analysis : pydict (pydict json))
  (w : world) :
  forallb (fun kv => dict_mem (fst kv) yearly_analysis) year_links = true ->
  plan_years valid_bracketed_netloc clock select_core self crawl_num year_links
             yearly_analysis w
  = (yearly_analysis, w).
Proof.
  induction year_links as [|[year links] rest IH]; intros H; [reflexivity|].
  cbn [forallb fst] in H. apply andb_prop in H as [Hy Hrest].
  cbn [plan_years]. rewrite Hy. exact (IH Hrest).
Qed.

(** A year that has a scenario record, of either kind, is skipped: no
    page is fetched for it. *)
Lemma analyze_years_skip (llm_planning_results : pydict (pydict json))
  (yearly_scenario_data : pydict scenario_record) (w : world) :
  forallb (fun kv => dict_mem (fst kv) yearly_scenario_data) llm_planning_results = true ->
  analyze_years set_to_list clock get_page_content micro_scenarios round_average
                llm_planning_results yearly_scenario_data w
  = (yearly_scenario_data, w).
Proof.
  induction llm_planning_results as [|[year data] rest IH]; intros H; [reflexivity|].
  cbn [forallb fst] in H. apply andb_prop in H as [Hy Hrest].
  cbn [analyze_years]. rewrite Hy. exact (IH Hrest).
Qed.

Lemma has_links_truthy (year : string) (m : pydict (list string)) :
  has_links year m = true -> list_truthy m = true.
Proof. destruct m; [discriminate | reflexivity]. Qed.

Lemma dict_mem_truthy {V : Type} (k : string) (d : pydict V) :
  dict_mem k d = true -> list_truthy d = true.
Proof. destruct d; [discriminate | reflexivity]. Qed.


End Resume.



(** ** Failed units of work *)

Section Failures.

Variable valid_bracketed_netloc : string -> bool.
Variable set_to_list : list string -> list string.
Variable clock : nat -> string.
Variable select_core : nat -> string -> list classified_url -> nat -> result json.
Variable get_page_content : nat -> json -> option string.
Variable micro_scenarios : pydict (pydict (string * list string)).
Variable round_average : nat -> nat -> string.

(** Planning: a year whose [try] body raises gets no record, and the loop
    goes on with the mapping it had. *)
Lemma planning_failure_leaves_no_record (self : planner) (crawl_num : nat)
  (year : string) (valid_links : list string) (rest : pydict (list string))
  (yearly_analysis : pydict (pydict json)) (w : world) (e : exn) :
  dict_mem year yearly_analysis = false ->
  fst (plan_year valid_bracketed_netloc clock select_core self crawl_num year
                 valid_links w) = Raise e ->
  plan_years valid_bracketed_netloc clock select_core self crawl_num
             ((year, valid_links) :: rest) yearly_analysis w
  = plan_years valid_bracketed_netloc clock select_core self crawl_num rest
               yearly_analysis
               (snd (plan_year valid_bracketed_netloc clock select_core self
                               crawl_num year valid_links w)).
Proof.
  intros Hnew Hraise. cbn [plan_years]. rewrite Hnew. unfold bind at 1.
  destruct (plan_year _ _ _ _ _ _ _ _) as [r w']. cbn [fst snd] in *.
  now rewrite Hraise.
Qed.

(** Scenario analysis: a year whose [try] body raises gets the error
    record of the [except] block, under the key the resume check tests. *)
Lemma tagging_failure_is_recorded (year : string) (planning_data : pydict json)
  (crawl_urls : json) (rest : pydict (pydict json))
  (yearly_scenario_data : pydict scenario_record) (w : world) (e : exn) :
  dict_mem year yearly_scenario_data = false ->
  dict_get "recommended_crawl_pages" planning_data = Some crawl_urls ->
  json_truthy crawl_urls = true ->
  json_iter crawl_urls = Raise e ->
  analyze_years set_to_list clock get_page_content micro_scenarios round_average
                ((year, planning_data) :: rest) yearly_scenario_data w
  = analyze_years set_to_list clock get_page_content micro_scenarios round_average
                  rest
                  (dict_set year (YearError (exn_message e)) yearly_scenario_data) w.
Proof.
  intros Hnew Hget Htruthy Hiter. cbn [analyze_years].
  rewrite Hnew, Hget, Htruthy. cbn [negb].
  unfold _analyze_scenarios_for_year. rewrite Hiter. reflexivity.
Qed.

End Failures.

(** C2, evaluated on the code.  Planning: when the selection service
    fails for 2015, the planning document holds no record for 2015 and the
    next run asks the service again.  Scenario analysis: when the analysis
    of 2015 raises, the scenario document holds an error record for 2015;
    the next run, even with proper planning data, skips 2015 (no page is
    fetched, the error record stays), while on a directory without that
    record the same data is analysed. *)
Theorem C2_failed_tagging_is_not_retried :
  (option_map pd_yearly_analysis_results
     (planning_file (plan_example failing_select taxonomy_only_world)) = Some [] /\
   calls (plan_example failing_select taxonomy_only_world) = [CallSelect "2015"] /\
   calls (plan_example select_all (plan_example failing_select taxonomy_only_world))
   = [CallSelect "2015"; CallSelect "2015"]) /\
  option_map sd_yearly_detailed_results
    (scenarios_file (analyze_example broken_plan empty_world))
  = Some [("2015", YearError "'int' object is not iterable")] /\
  calls (analyze_example broken_plan empty_world) = [] /\
  calls (analyze_example repaired_plan (analyze_example broken_plan empty_world)) = [] /\
  option_map sd_yearly_detailed_results
    (scenarios_file
       (analyze_example repaired_plan (analyze_example broken_plan empty_world)))
  = Some [("2015", YearError "'int' object is not iterable")] /\
  calls (analyze_example repaired_plan empty_world)
  = [CallFetchPage (JStr shop_home_2015)].
Proof. vm_compute. repeat split. Qed.

(** * Further properties of the code *)

(** ** What the pattern compiler produces *)

Lemma plain_char_parse (c : ascii) (acc : list item) (t : string) :
  is_re_special c = false ->
  re_parse acc (String c t) = re_parse (IAtom (AChar c) :: acc) t.
Proof.
  intros H. destruct c as [[] [] [] [] [] [] [] []];
    vm_compute in H; try discriminate H; reflexivity.
Qed.

Lemma special_not_alnum (c : ascii) : is_re_special c = true -> is_alnum c = false.
Proof.
  intros H. destruct c as [[] [] [] [] [] [] [] []];
    vm_compute in H; try discriminate H; reflexivity.
Qed.

Lemma plain_not_backslash (c : ascii) :
  is_re_special c = false -> Ascii.eqb "\" c = false /\ Ascii.eqb "*" c = false.
Proof.
  intros H. destruct c as [[] [] [] [] [] [] [] []];
    vm_compute in H; try discriminate H; split; reflexivity.
Qed.

Lemma escaped_char_parse (c : ascii) (acc : list item) (t : string) :
  is_re_special c = true ->
  re_parse acc (String "\" (String c t)) = re_parse (IAtom (AChar c) :: acc) t.
Proof. intros H. cbn [re_parse]. now rewrite (special_not_alnum _ H). Qed.

Lemma pattern_items_literal (c : ascii) (s : string) :
  Ascii.eqb "\" c = false ->
  pattern_items (String c s) = IAtom (AChar c) :: pattern_items s.
Proof.
  intros H. destruct c as [[] [] [] [] [] [] [] []];
    try reflexivity. discriminate H.
Qed.

Lemma pattern_items_backslash (s : string) :
  String.prefix "*" s = false ->
  pattern_items (String "\" s) = IAtom (AChar "\") :: pattern_items s.
Proof.
  destruct s as [|d s]; [reflexivity|]. rewrite prefix_cons. intros H.
  destruct d as [[] [] [] [] [] [] [] []]; try reflexivity.
  destruct s; discriminate H.
Qed.

(** The escaped text never begins with a bare star, and it begins with an
    escaped star exactly when the pattern begins with a star. *)
Lemma escape_no_leading_star (s : string) : String.prefix "*" (re_escape s) = false.
Proof.
  destruct s as [|d s]; [reflexivity|]. cbn [re_escape].
  destruct (is_re_special d) eqn:E; rewrite prefix_cons; [reflexivity|].
  now rewrite (proj2 (plain_not_backslash _ E)).
Qed.

Lemma escape_leading_escaped_star (s : string) :
  String.prefix "\*" (re_escape s) = String.prefix "*" s.
Proof.
  destruct s as [|d s]; [reflexivity|]. cbn [re_escape].
  destruct (is_re_special d) eqn:E.
  - rewrite !prefix_cons, Ascii.eqb_refl. cbn [andb].
    destruct (re_escape s), s; now rewrite ?andb_true_r.
  - rewrite !prefix_cons. destruct (plain_not_backslash _ E) as [-> ->]. reflexivity.
Qed.

Lemma compiled_text_parses (n : nat) :
  forall (s : string) (acc : list item),
    String.length s <= n ->
    re_parse acc (replace_all "\\*" ".*" (re_escape s)) = Some (rev acc ++ pattern_items s).
Proof.
  unfold replace_all. induction n as [|n IH]; intros s acc Hlen.
  - destruct s; [|simpl in Hlen; lia]. cbn. now rewrite app_nil_r.
  - destruct s as [|c s]; [cbn; now rewrite app_nil_r|]. cbn [String.length] in Hlen.
    cbn [re_escape]. destruct (is_re_special c) eqn:Ec.
    + destruct (Ascii.eqb "\" c) eqn:Eb.
      * apply Ascii.eqb_eq in Eb. subst c.
        cbn [replace_from]. rewrite !prefix_cons, !Ascii.eqb_refl.
        rewrite escape_no_leading_star. cbn [andb].
        rewrite escape_leading_escaped_star.
        destruct (String.prefix "*" s) eqn:Es.
        -- destruct s as [|d s]; [discriminate|]. rewrite prefix_cons in Es.
           apply andb_prop in Es as [Ed _]. apply Ascii.eqb_eq in Ed. subst d.
           cbn [re_escape String.length Nat.sub replace_from].
           change (is_re_special "*") with true. cbv iota.
           cbn [replace_from String.append].
           cbn [re_parse is_alnum]. cbn [pattern_items].
           rewrite IH by (cbn [String.length] in Hlen; lia).
           cbn [rev]. now rewrite <- app_assoc.
        -- rewrite escaped_char_parse by reflexivity.
           rewrite IH by lia. rewrite pattern_items_backslash by exact Es.
           cbn [rev]. now rewrite <- app_assoc.
      * cbn [replace_from]. rewrite !prefix_cons, Ascii.eqb_refl, Eb. cbn [andb].
        rewrite escaped_char_parse by exact Ec.
        rewrite IH by lia. rewrite pattern_items_literal by exact Eb.
        cbn [rev]. now rewrite <- app_assoc.
    + destruct (plain_not_backslash _ Ec) as [Eb _].
      cbn [replace_from]. rewrite prefix_cons, Eb. cbn [andb].
      rewrite plain_char_parse by exact Ec.
      rewrite IH by lia. rewrite pattern_items_literal by exact Eb.
      cbn [rev]. now rewrite <- app_assoc.
Qed.

Lemma pattern_text_compiles (raw_pat : string) :
  re_compile (pattern_regex_text raw_pat) = Some (pattern_regex raw_pat).
Proof.
  unfold pattern_regex_text, pattern_regex, re_compile.
  destruct (String.eqb (strip raw_pat) "/"); [reflexivity|].
  now rewrite (@compiled_text_parses (String.length raw_pat) raw_pat [] (le_n _)).
Qed.

Lemma compile_type_matchers (stage : string) (t : type_obj)
  (compiled : list compiled_matcher) :
  compile_type stage compiled t
  = compiled ++ map (fun raw_pat =>
                       mk_matcher stage
                         (match type_name t with Some n => n | None => "Unknown" end)
                         (pattern_regex raw_pat) (String.length raw_pat))
                    (match typical_url_patterns t with Some ps => ps | None => [] end).
Proof.
  unfold compile_type.
  generalize (match typical_url_patterns t with Some ps => ps | None => [] end).
  intros ps. revert compiled.
  induction ps as [|raw ps IH]; intros compiled; cbn [fold_left map].
  - now rewrite app_nil_r.
  - rewrite IH. unfold compile_pattern. rewrite pattern_text_compiles.
    now rewrite <- app_assoc.
Qed.

Lemma compile_stage_matchers (entry : string * list type_obj)
  (compiled : list compiled_matcher) :
  compile_stage compiled entry = compiled ++ expected_matchers [entry].
Proof.
  unfold compile_stage, expected_matchers. cbn [flat_map]. rewrite app_nil_r.
  generalize (fst entry). intros stage.
  generalize (snd entry). intros types. revert compiled.
  induction types as [|t types IH]; intros compiled; cbn [fold_left flat_map].
  - now rewrite app_nil_r.
  - now rewrite IH, compile_type_matchers, <- app_assoc.
Qed.

Lemma compile_nested_from (nested : pydict (list type_obj))
  (compiled : list compiled_matcher) :
  fold_left compile_stage nested compiled = compiled ++ expected_matchers nested.
Proof.
  revert compiled.
  induction nested as [|entry nested IH]; intros compiled; cbn [fold_left].
  - unfold expected_matchers. cbn. now rewrite app_nil_r.
  - rewrite IH, compile_stage_matchers, <- app_assoc. f_equal.
    unfold expected_matchers. cbn [flat_map]. now rewrite app_nil_r.
Qed.

(** X1: no pattern is ever skipped.  The compiled list holds exactly one
    matcher for every pattern of the taxonomy, in taxonomy order, with the
    stage and type name of its owner, the pattern's length, and the regex
    [pattern_regex] describes: compiling the text the compiler builds never
    fails, so the handler of that failure is never entered. *)
Theorem X1_one_matcher_per_pattern (nested : pydict (list type_obj)) :
  compile_nested nested = expected_matchers nested /\
  map cm_pattern_len (compile_nested nested)
  = map String.length (taxonomy_patterns nested).
Proof.
  assert (H : compile_nested nested = expected_matchers nested).
  { unfold compile_nested. now rewrite compile_nested_from. }
  split; [exact H|]. rewrite H. clear H. unfold expected_matchers, taxonomy_patterns.
  induction nested as [|[stage types] nested IH]; [reflexivity|].
  cbn [flat_map fst snd]. rewrite !map_app, IH.
  apply (f_equal (fun l => l ++ _)).
  induction types as [|t types IHt]; [reflexivity|].
  cbn [flat_map]. rewrite !map_app, IHt.
  apply (f_equal (fun l => l ++ _)).
  rewrite map_map. cbn [cm_pattern_len]. reflexivity.
Qed.

Lemma prefix_empty (s : string) : String.prefix "" s = true.
Proof. now destruct s. Qed.

Lemma literal_items_match (s : string) :
  has_char "\" s = false ->
  forall (bos : bool) (p : string),
    match_items (pattern_items s) bos p = String.prefix (lower s) (lower p).
Proof.
  induction s as [|c s IH]; intros H bos p.
  - cbn. now rewrite prefix_empty.
  - cbn [has_char] in H. apply orb_false_iff in H. destruct H as [Hc Hs].
    rewrite (@pattern_items_literal c s Hc). cbn [match_items lower].
    destruct p as [|d p]; [reflexivity|].
    cbn [lower]. rewrite prefix_cons, (IH Hs). reflexivity.
Qed.



(** X3: a pattern that is a single slash once trimmed compiles to a regex
    that matches the path [/] and the path [/] followed by a line feed,
    and no other path. *)
Theorem X3_root_pattern_matches_root_only (raw_pat : string) :
  String.eqb (strip raw_pat) "/" = true ->
  exists rx : regex,
    re_compile (pattern_regex_text raw_pat) = Some rx /\
    forall path : string,
      regex_match rx path
      = String.eqb path "/" || String.eqb path (String "/" (String newline "")).
Proof.
  intros Hroot. exists (pattern_regex raw_pat).
  split; [apply pattern_text_compiles|].
  intros path. unfold pattern_regex, regex_match. rewrite Hroot.
  cbn [match_items andb]. destruct path as [|d p]; [reflexivity|].
  unfold atom_matches, at_eol. cbn [String.eqb].
  destruct (Ascii.eqb d "/") eqn:E.
  - apply Ascii.eqb_eq in E. subst d. rewrite !andb_true_r.
    cbn. reflexivity.
  - cbn [andb orb].
    destruct d as [[] [] [] [] [] [] [] []]; try reflexivity; discriminate E.
Qed.

Lemma X3_root_pattern_matches_root_only_witness :
  exists rx : regex,
    re_compile (pattern_regex_text " / ") = Some rx /\
    forall path : string,
      regex_match rx path
      = String.eqb path "/" || String.eqb path (String "/" (String newline "")).
Proof. apply (X3_root_pattern_matches_root_only " / "); reflexivity. Defined.

(** X4: compiling is idempotent: a second call of the compiler leaves the
    planner exactly as the first call left it, whether or not the first
    call found any pattern. *)
Theorem X4_compile_idempotent (self : planner) :
  _compile_core_type_patterns (_compile_core_type_patterns self)
  = _compile_core_type_patterns self.
Proof.
  assert (Hn : forall (flat : list flat_type) (nested : pydict (list type_obj)),
             (if list_truthy (if list_truthy nested then nested else nest_flat_types flat)
              then (if list_truthy nested then nested else nest_flat_types flat)
              else nest_flat_types flat)
             = (if list_truthy nested then nested else nest_flat_types flat)).
  { intros flat nested. destruct (list_truthy nested) eqn:E.
    - now rewrite E.
    - destruct (list_truthy (nest_flat_types flat)); reflexivity. }
  destruct self as [flat nested [[|m l]|]]; unfold _compile_core_type_patterns;
    cbn [compiled_patterns core_page_types core_page_types_nested];
    try reflexivity.
  - destruct (sort_matchers _) eqn:E; [|reflexivity].
    rewrite Hn. now rewrite E.
  - destruct (sort_matchers _) eqn:E; [|reflexivity].
    rewrite Hn. now rewrite E.
Qed.

(** ** Hosts and the domain filter *)

Lemma lower_char_idempotent (c : ascii) : lower_char (lower_char c) = lower_char c.
Proof. destruct c as [[] [] [] [] [] [] [] []]; reflexivity. Qed.

Lemma lower_idempotent (s : string) : lower (lower s) = lower s.
Proof.
  induction s as [|c s IH]; [reflexivity|]. cbn [lower].
  now rewrite lower_char_idempotent, IH.
Qed.

Lemma lower_fixed_tail (c : ascii) (s : string) :
  lower (String c s) = String c s -> lower s = s.
Proof. cbn [lower]. intros H. now injection H. Qed.

Lemma lower_fixed_drop (n : nat) (s : string) :
  lower s = s -> lower (drop n s) = drop n s.
Proof.
  revert s. induction n as [|n IH]; intros s H; [exact H|].
  destruct s as [|d s]; [reflexivity|]. apply IH. now apply lower_fixed_tail with d.
Qed.

Lemma lower_fixed_before_char (c : ascii) (s : string) :
  lower s = s -> lower (before_char c s) = before_char c s.
Proof.
  induction s as [|d s IH]; intros H; [reflexivity|]. cbn [before_char].
  destruct (Ascii.eqb c d); [reflexivity|]. cbn [lower] in *.
  injection H as Hd Hs. now rewrite Hd, (IH Hs).
Qed.

Lemma before_char_lacks (c : ascii) (s : string) : has_char c (before_char c s) = false.
Proof.
  induction s as [|d s IH]; [reflexivity|]. cbn [before_char].
  destruct (Ascii.eqb c d) eqn:E; [reflexivity|]. cbn [has_char]. now rewrite E, IH.
Qed.

Lemma strip_port_www_canonical (h : string) :
  lower h = h ->
  has_char ":" (strip_port_www h) = false /\
  lower (strip_port_www h) = strip_port_www h.
Proof.
  intros Hl. unfold strip_port_www.
  set (h' := if has_char ":" h then before_char ":" h else h).
  assert (H' : has_char ":" h' = false /\ lower h' = h').
  { subst h'. destruct (has_char ":" h) eqn:E.
    - split; [apply before_char_lacks | now apply lower_fixed_before_char].
    - now split. }
  destruct H' as [Hc Hlow].
  destruct (startswith h' "www."); [|now split].
  split; [now apply lacks_drop | now apply lower_fixed_drop].
Qed.

(** X5: the home host that [_get_home_host] (and [_extract_home_host],
    the same code) returns holds no colon and no upper-case letter: the
    port is always cut off, and lower-casing is never undone by the later
    steps. *)
Theorem X5_home_host_canonical (valid_bracketed_netloc : string -> bool)
  (homepage_url home_host : string) :
  _get_home_host valid_bracketed_netloc homepage_url = Ok home_host ->
  has_char ":" home_host = false /\ lower home_host = home_host /\
  _extract_home_host valid_bracketed_netloc homepage_url = Ok home_host.
Proof.
  intros H. split; [|split; [|exact H]].
  all: unfold _get_home_host in H.
  all: destruct (urlparse valid_bracketed_netloc homepage_url) as [parsed|e];
    [|discriminate].
  all: cbv zeta in H.
  all: destruct (contains (lower (netloc parsed)) "web.archive.org").
  all: try destruct (search_wayback_origin homepage_url) as [u0|].
  all: try destruct (urlparse valid_bracketed_netloc (repair_scheme_slashes u0)) as [p|e];
    try discriminate.
  all: injection H as <-; apply strip_port_www_canonical; apply lower_idempotent.
Qed.

Lemma X5_home_host_canonical_witness :
  has_char ":" "shop.com" = false /\ lower "shop.com" = "shop.com" /\
  _extract_home_host accept_bracketed
    "https://web.archive.org/web/20150101000000/http://WWW.Shop.com:8080/" = Ok "shop.com".
Proof.
  apply (X5_home_host_canonical accept_bracketed
           "https://web.archive.org/web/20150101000000/http://WWW.Shop.com:8080/").
  vm_compute. reflexivity.
Defined.

Lemma endswith_refl (s : string) : endswith s s = true.
Proof. destruct s; cbn [endswith]; now rewrite String.eqb_refl. Qed.

(** X6: in the planner of version 0.4.4 the first domain test is
    subsumed by the second: a link is skipped exactly when it has a host
    that is neither the home host nor the home host behind [www.].  For a
    non-empty home host this is the filter of the current planner; for an
    empty home host the current planner keeps every link, while version
    0.4.4 skips every link that has a host other than [www.]. *)
Theorem X6_filter_of_v0_4_4 (home_host candidate_host : string) :
  cross_domain_v0_4_4 home_host candidate_host
  = truthy candidate_host &&
    negb (String.eqb candidate_host home_host) &&
    negb (String.eqb candidate_host ("www." +++ home_host)) /\
  (truthy home_host = true ->
   cross_domain_v0_4_4 home_host candidate_host = cross_domain home_host candidate_host) /\
  cross_domain "" candidate_host = false /\
  cross_domain_v0_4_4 "" candidate_host
  = truthy candidate_host && negb (String.eqb candidate_host "www.").
Proof.
  assert (H1 : cross_domain_v0_4_4 home_host candidate_host
               = truthy candidate_host &&
                 negb (String.eqb candidate_host home_host) &&
                 negb (String.eqb candidate_host ("www." +++ home_host))).
  { unfold cross_domain_v0_4_4. destruct (truthy candidate_host); [|reflexivity].
    cbn [andb]. destruct (endswith candidate_host home_host) eqn:E.
    - cbn [negb]. now destruct (negb _ && negb _).
    - cbn [negb]. symmetry. apply andb_true_iff. split; apply negb_true_iff.
      + destruct (String.eqb candidate_host home_host) eqn:Q; [|reflexivity].
        apply String.eqb_eq in Q. subst. now rewrite endswith_refl in E.
      + destruct (String.eqb candidate_host ("www." +++ home_host)) eqn:Q; [|reflexivity].
        apply String.eqb_eq in Q. subst. cbn in E.
        rewrite endswith_refl, !orb_true_r in E. discriminate E. }
  split; [exact H1|]. split; [|split].
  - intros Hh. rewrite H1. unfold cross_domain. now rewrite Hh.
  - reflexivity.
  - unfold cross_domain_v0_4_4. destruct candidate_host as [|c s]; [reflexivity|].
    cbn [truthy String.eqb negb andb String.append].
    assert (E : endswith (String c s) "" = true).
    { clear. generalize (String c s). intros t.
      induction t as [|d t IH]; [reflexivity|]. cbn [endswith]. rewrite IH.
      apply orb_true_r. }
    rewrite E. cbn [negb].
    destruct (if Ascii.eqb c "w" then String.eqb s "ww." else false); reflexivity.
Qed.

(** ** The classifier on a concatenated link list *)

Lemma classify_link_from (valid_bracketed_netloc : string -> bool)
  (patterns : option (list compiled_matcher)) (home_host url : string)
  (results : list classified_url) :
  classify_link valid_bracketed_netloc patterns home_host url results
  = match classify_link valid_bracketed_netloc patterns home_host url [] with
    | Ok out => Ok (results ++ out)
    | Raise e => Raise e
    end.
Proof.
  unfold classify_link.
  destruct (link_location valid_bracketed_netloc url) as [[host rp]|e]; [|reflexivity].
  destruct (cross_domain home_host host); [now rewrite app_nil_r|].
  destruct patterns as [ps|]; [|reflexivity].
  now rewrite scan_patterns_app.
Qed.

Lemma classify_loop_from (valid_bracketed_netloc : string -> bool)
  (patterns : option (list compiled_matcher)) (home_host : string)
  (links : list string) :
  forall results,
    classify_loop valid_bracketed_netloc patterns home_host links results
    = match classify_loop valid_bracketed_netloc patterns home_host links [] with
      | Ok out => Ok (results ++ out)
      | Raise e => Raise e
      end.
Proof.
  induction links as [|url rest IH]; intros results; cbn [classify_loop].
  - now rewrite app_nil_r.
  - rewrite (classify_link_from _ _ _ _ results).
    destruct (classify_link valid_bracketed_netloc patterns home_host url [])
      as [out|e]; [|reflexivity].
    rewrite (IH (results ++ out)), (IH out).
    destruct (classify_loop valid_bracketed_netloc patterns home_host rest [])
      as [out'|e]; [|reflexivity].
    now rewrite app_assoc.
Qed.

Lemma classify_loop_concat (valid_bracketed_netloc : string -> bool)
  (patterns : option (list compiled_matcher)) (home_host : string)
  (links1 links2 : list string) :
  forall results,
    classify_loop valid_bracketed_netloc patterns home_host (links1 ++ links2) results
    = match classify_loop valid_bracketed_netloc patterns home_host links1 results with
      | Ok out => classify_loop valid_bracketed_netloc patterns home_host links2 out
      | Raise e => Raise e
      end.
Proof.
  induction links1 as [|url rest IH]; intros results; cbn [classify_loop app];
    [reflexivity|].
  destruct (classify_link valid_bracketed_netloc patterns home_host url results);
    [apply IH | reflexivity].
Qed.

(** X7: the classifier treats each link on its own.  The classification
    of a concatenated link list is the concatenation of the
    classifications of the parts, and it raises exactly when the
    classification of one part does: the first exception met, in list
    order, is the one raised. *)
Theorem X7_classification_of_concatenation (valid_bracketed_netloc : string -> bool)
  (self : planner) (year : string) (links1 links2 : list string)
  (homepage_url : string) :
  fst (_classify_candidate_urls valid_bracketed_netloc self year (links1 ++ links2)
                                homepage_url)
  = match fst (_classify_candidate_urls valid_bracketed_netloc self year links1
                                        homepage_url) with
    | Raise e => Raise e
    | Ok out1 =>
        match fst (_classify_candidate_urls valid_bracketed_netloc self year links2
                                            homepage_url) with
        | Raise e => Raise e
        | Ok out2 => Ok (out1 ++ out2)
        end
    end.
Proof.
  unfold _classify_candidate_urls.
  destruct (derived_home_host valid_bracketed_netloc homepage_url) as [h|e];
    [|reflexivity].
  cbn [fst]. rewrite classify_loop_concat.
  destruct (classify_loop valid_bracketed_netloc (compiled_patterns self) h links1 [])
    as [out1|e]; [|reflexivity].
  apply classify_loop_from.
Qed.

(** ** The final crawl list *)

Lemma key_eqb_sym (u v : json) : key_eqb u v = key_eqb v u.
Proof.
  destruct u as [|a|a|a|a|a], v as [|b|b|b|b|b]; cbn; try reflexivity.
  - now destruct a, b.
  - apply Z.eqb_sym.
  - apply String.eqb_sym.
Qed.

Lemma key_eqb_refl (u : json) : hashable u = true -> key_eqb u u = true.
Proof.
  destruct u as [|a|a|a|a|a]; cbn; intros H; try reflexivity; try discriminate H.
  - now destruct a.
  - apply Z.eqb_refl.
  - apply String.eqb_refl.
Qed.

Lemma existsb_false_In {A : Type} (f : A -> bool) (l : list A) (x : A) :
  existsb f l = false -> In x l -> f x = false.
Proof.
  intros H Hin. destruct (f x) eqn:E; [|reflexivity].
  rewrite <- H. symmetry. apply existsb_exists. now exists x.
Qed.

(** What de-duplication keeps: hashable values of the input, new with
    respect to [seen], no two of them equal as keys. *)
Lemma fromkeys_from_kept (l : list json) :
  forall seen r,
    json_fromkeys_from seen l = Ok r ->
    Forall (fun u => hashable u = true /\ existsb (key_eqb u) seen = false /\ In u l) r /\
    ForallOrdPairs (fun u v => key_eqb u v = false) r.
Proof.
  induction l as [|u l IH]; intros seen r H; cbn [json_fromkeys_from] in H.
  - injection H as <-. split; constructor.
  - destruct (hashable u) eqn:Hu; cbn [negb] in H; [|discriminate H].
    destruct (existsb (key_eqb u) seen) eqn:Hs.
    + destruct (IH _ _ H) as [Hall Hord]. split; [|exact Hord].
      eapply Forall_impl; [|exact Hall]. cbn. intros x (? & ? & ?).
      repeat split; try assumption. now right.
    + destruct (json_fromkeys_from (u :: seen) l) as [r1|e] eqn:Hr; [|discriminate H].
      injection H as <-. destruct (IH _ _ Hr) as [Hall Hord]. split.
      * constructor; [repeat split; try assumption; now left|].
        eapply Forall_impl; [|exact Hall]. cbn. intros x (Hx & Hex & Hin).
        apply orb_false_elim in Hex as [_ Hex]. repeat split; try assumption. now right.
      * constructor; [|exact Hord].
        eapply Forall_impl; [|exact Hall]. cbn. intros x (_ & Hex & _).
        apply orb_false_elim in Hex as [Hex _]. now rewrite key_eqb_sym.
Qed.

(** Every input value has a key-equal representative, already seen or kept. *)
Lemma fromkeys_from_covers (l : list json) :
  forall seen r,
    json_fromkeys_from seen l = Ok r ->
    forall u, In u l ->
      existsb (key_eqb u) seen = true \/ existsb (key_eqb u) r = true.
Proof.
  induction l as [|u0 l IH]; intros seen r H u Hin; [destruct Hin|].
  cbn [json_fromkeys_from] in H.
  destruct (hashable u0) eqn:Hu; cbn [negb] in H; [|discriminate H].
  destruct (existsb (key_eqb u0) seen) eqn:Hs.
  - destruct Hin as [<-|Hin]; [now left | now apply IH with (1 := H)].
  - destruct (json_fromkeys_from (u0 :: seen) l) as [r1|e] eqn:Hr; [|discriminate H].
    injection H as <-. destruct Hin as [<-|Hin].
    + right. cbn [existsb]. now rewrite key_eqb_refl.
    + destruct (IH _ _ Hr u Hin) as [Hex|Hex].
      * cbn [existsb] in Hex. apply orb_true_iff in Hex as [Hex|Hex].
        -- right. cbn [existsb]. now rewrite Hex.
        -- now left.
      * right. cbn [existsb]. rewrite Hex. apply orb_true_r.
Qed.

(** A list of distinct hashable keys, none of them seen, is kept whole. *)
Lemma fromkeys_from_fixed (r : list json) :
  forall seen,
    Forall (fun u => hashable u = true /\ existsb (key_eqb u) seen = false) r ->
    ForallOrdPairs (fun u v => key_eqb u v = false) r ->
    json_fromkeys_from seen r = Ok r.
Proof.
  induction r as [|u r IH]; intros seen Hall Hord; [reflexivity|].
  inversion Hall as [|? ? [Hu Hs] Hall']; subst.
  inversion Hord as [|? ? Hfirst Hord']; subst.
  cbn [json_fromkeys_from]. rewrite Hu, Hs. cbn [negb].
  rewrite IH; [reflexivity| |exact Hord'].
  rewrite Forall_forall in *. intros x Hin. destruct (Hall' x Hin) as [Hx Hxs].
  split; [exact Hx|]. cbn [existsb]. rewrite Hxs, orb_false_r.
  rewrite key_eqb_sym. now apply Hfirst.
Qed.

Lemma fromkeys_from_returns (l : list json) :
  forallb hashable l = true -> forall seen, exists r, json_fromkeys_from seen l = Ok r.
Proof.
  induction l as [|u l IH]; intros H seen; [now exists []|].
  cbn [forallb] in H. apply andb_prop in H as [Hu Hl].
  cbn [json_fromkeys_from]. rewrite Hu. cbn [negb].
  destruct (existsb (key_eqb u) seen); [now apply IH|].
  destruct (IH Hl (u :: seen)) as [r ->]. now exists (u :: r).
Qed.

Lemma fromkeys_from_raises (l : list json) :
  forall seen r, json_fromkeys_from seen l = Ok r -> forallb hashable l = true.
Proof.
  induction l as [|u l IH]; intros seen r H; [reflexivity|].
  cbn [json_fromkeys_from] in H. cbn [forallb].
  destruct (hashable u); cbn [negb] in H; [|discriminate H]. cbn [andb].
  destruct (existsb (key_eqb u) seen); [now apply IH with seen r|].
  destruct (json_fromkeys_from (u :: seen) l) as [r1|e] eqn:Hr; [|discriminate H].
  now apply IH with (u :: seen) r1.
Qed.

(** X8: the order-preserving de-duplication of the selection step
    (line 418).  It returns exactly when every value is hashable.  What it
    returns holds values of the input only, no two of them equal as
    dictionary keys (so [True] and [1] count as one), holds a key-equal
    representative of every input value, and is left unchanged by a second
    de-duplication. *)
Theorem X8_dedup_keeps_one_per_key (l : list json) :
  (forallb hashable l = true <-> exists r, json_fromkeys l = Ok r) /\
  forall r,
    json_fromkeys l = Ok r ->
    (forall u, In u r -> In u l) /\
    (forall u, In u l -> existsb (key_eqb u) r = true) /\
    ForallOrdPairs (fun u v => key_eqb u v = false) r /\
    json_fromkeys r = Ok r.
Proof.
  unfold json_fromkeys. split.
  - split; [intros H; now apply fromkeys_from_returns|].
    intros [r H]. now apply fromkeys_from_raises with [] r.
  - intros r H. destruct (fromkeys_from_kept _ _ H) as [Hall Hord].
    rewrite Forall_forall in Hall. repeat split.
    + intros u Hin. now destruct (Hall u Hin) as (_ & _ & ?).
    + intros u Hin. destruct (fromkeys_from_covers _ _ H u Hin) as [Hex|Hex];
        [discriminate Hex | exact Hex].
    + exact Hord.
    + apply fromkeys_from_fixed; [|exact Hord].
      rewrite Forall_forall. intros u Hin. destruct (Hall u Hin) as (Hu & _ & _).
      now split.
Qed.

Lemma collect_loop_enforced (valid_content_urls : list string) (infos : list json) :
  forall acc out,
    collect_loop true valid_content_urls infos acc = Ok out ->
    Forall (fun u => json_in_strs u valid_content_urls = true) acc ->
    Forall (fun u => json_in_strs u valid_content_urls = true) out.
Proof.
  induction infos as [|info rest IH]; intros acc out H Hacc; cbn [collect_loop] in H.
  - now injection H as <-.
  - destruct (url_of_info info) as [u|e]; [|discriminate H].
    apply IH in H; [exact H|].
    destruct (json_in_strs u valid_content_urls) eqn:E; [|exact Hacc].
    apply Forall_app. split; [exact Hacc|]. now constructor.
Qed.

Lemma collected_enforced (core_url_data : json) (valid_content_urls : list string)
  (out : list json) :
  collect_recommended core_url_data true valid_content_urls = Ok out ->
  Forall (fun u => json_in_strs u valid_content_urls = true) out.
Proof.
  unfold collect_recommended. intros H.
  destruct (negb (json_truthy core_url_data)); [injection H as <-; constructor|].
  destruct core_url_data as [|b|n|s|l|o]; try discriminate H.
  - injection H as <-. constructor.
  - destruct (contains s "recommended_url_list"); [discriminate H|].
    injection H as <-. constructor.
  - destruct (existsb _ l); [discriminate H|]. injection H as <-. constructor.
  - destruct (dict_get "recommended_url_list" o) as [lst|];
      [|injection H as <-; constructor].
    destruct (json_iter lst) as [infos|e]; [|discriminate H].
    apply collect_loop_enforced in H; [exact H | constructor].
Qed.

Lemma firstn_subset {A : Type} (n : nat) (l : list A) (x : A) :
  In x (firstn n l) -> In x l.
Proof.
  revert l. induction n as [|n IH]; intros l H; [destruct H|].
  destruct l as [|y l]; [destruct H|]. cbn [firstn] in H.
  destruct H as [<-|H]; [now left | right; now apply IH].
Qed.

Lemma filter_all {A : Type} (f : A -> bool) (l : list A) :
  Forall (fun x => f x = true) l -> filter f l = l.
Proof.
  induction 1 as [|x l Hx _ IH]; [reflexivity|]. cbn [filter]. now rewrite Hx, IH.
Qed.

(** X9: when membership in the valid list is enforced (the default of
    the selection step), every URL of the final crawl list is a string of
    the valid list, whether the list comes from the model's answer or from
    the fallback; and the overlap count is the length of the final list,
    unless the fallback was taken, where it is 0. *)
Theorem X9_enforced_list_is_within_valid (now : string) (llm_analysis : json)
  (valid_content_urls : list string) (year : string) (enforce_in_valid : option bool)
  (d : pydict json) :
  effective_enforce enforce_in_valid = true ->
  _optimize_crawl_strategy now llm_analysis valid_content_urls year enforce_in_valid
  = Ok d ->
  exists final overlap,
    dict_get "recommended_crawl_pages" d = Some (JArr final) /\
    dict_get "recommended_in_valid_overlap" d = Some (JNum (Z.of_nat overlap)) /\
    (forall u, In u final -> exists s, u = JStr s /\ In s valid_content_urls) /\
    (overlap = List.length final \/
     overlap = 0 /\ final = map JStr (firstn 10 valid_content_urls)).
Proof.
  intros Henf H. unfold _optimize_crawl_strategy in H.
  destruct llm_analysis as [| | | | |la]; try discriminate H.
  rewrite Henf in H. cbv zeta in H.
  destruct (deduped_recommendations la true valid_content_urls) as [deduped|e] eqn:Hd;
    [|discriminate H].
  injection H as <-. do 2 eexists. split; [reflexivity|]. split; [reflexivity|].
  unfold deduped_recommendations in Hd.
  destruct (collect_recommended (core_url_data_of la) true valid_content_urls)
    as [collected|e] eqn:Hc; [|discriminate Hd].
  apply collected_enforced in Hc.
  assert (Hall : Forall (fun u => json_in_strs u valid_content_urls = true) deduped).
  { destruct (fromkeys_from_kept _ _ Hd) as [Hk _].
    rewrite Forall_forall in *. intros u Hin. apply Hc. now destruct (Hk u Hin) as (_ & _ & ?). }
  destruct deduped as [|u0 deduped']; cbn [list_truthy negb].
  - split; [|right; now split]. intros u Hin. apply in_map_iff in Hin as (s & <- & Hin).
    exists s. split; [reflexivity|]. exact (@firstn_subset string 10 valid_content_urls s Hin).
  - split; [|left; now rewrite (filter_all _ Hall)].
    intros u Hin. rewrite Forall_forall in Hall. specialize (Hall u Hin).
    destruct u as [| | |s| |]; try discriminate Hall.
    exists s. split; [reflexivity|]. now apply str_in_In.
Qed.

Lemma X9_enforced_list_is_within_valid_witness :
  exists final overlap,
    dict_get "recommended_crawl_pages"
             [ ("analysis_time", JStr "t");
               ("using_real_llm", JBool true);
               ("llm_model", JStr medium_model);
               ("year", JStr "2015");
               ("discovered_links_count", JNum 2);
               ("valid_content_urls_count", JNum 2);
               ("recommended_crawl_pages", JArr [JStr "a"]);
               ("recommended_pages_count", JNum 1);
               ("recommended_in_valid_overlap", JNum 1);
               ("enforce_recommended_in_valid_list", JBool true);
               ("core_url_details",
                JObj [("recommended_url_list", JArr [JStr "a"; JStr "c"; JStr "a"])]) ]
    = Some (JArr final) /\
    dict_get "recommended_in_valid_overlap"
             [ ("analysis_time", JStr "t");
               ("using_real_llm", JBool true);
               ("llm_model", JStr medium_model);
               ("year", JStr "2015");
               ("discovered_links_count", JNum 2);
               ("valid_content_urls_count", JNum 2);
               ("recommended_crawl_pages", JArr [JStr "a"]);
               ("recommended_pages_count", JNum 1);
               ("recommended_in_valid_overlap", JNum 1);
               ("enforce_recommended_in_valid_list", JBool true);
               ("core_url_details",
                JObj [("recommended_url_list", JArr [JStr "a"; JStr "c"; JStr "a"])]) ]
    = Some (JNum (Z.of_nat overlap)) /\
    (forall u, In u final -> exists s, u = JStr s /\ In s ["a"; "b"]) /\
    (overlap = List.length final \/
     overlap = 0 /\ final = map JStr (firstn 10 ["a"; "b"])).
Proof.
  apply (@X9_enforced_list_is_within_valid "t"
           (JObj [("core_url_recommendations",
                   JObj [("recommended_url_list", JArr [JStr "a"; JStr "c"; JStr "a"])])])
           ["a"; "b"] "2015" None); reflexivity.
Defined.

(** X10: whatever the enforcement mode, the result of the selection
    step records the length of its final list as the page count; the final
    list is not empty unless the valid list is; and it is either free of
    repeated URLs or, when the model's answer gave nothing, the first ten
    valid URLs as they stand. *)
Theorem X10_final_list_shape (now : string) (llm_analysis : json)
  (valid_content_urls : list string) (year : string) (enforce_in_valid : option bool)
  (d : pydict json) :
  _optimize_crawl_strategy now llm_analysis valid_content_urls year enforce_in_valid
  = Ok d ->
  exists final,
    dict_get "recommended_crawl_pages" d = Some (JArr final) /\
    dict_get "recommended_pages_count" d = Some (JNum (Z.of_nat (List.length final))) /\
    dict_get "valid_content_urls_count" d
    = Some (JNum (Z.of_nat (List.length valid_content_urls))) /\
    (valid_content_urls <> [] -> final <> []) /\
    (ForallOrdPairs (fun u v => key_eqb u v = false) final /\ final <> [] \/
     final = map JStr (firstn 10 valid_content_urls)).
Proof.
  intros H. unfold _optimize_crawl_strategy in H.
  destruct llm_analysis as [| | | | |la]; try discriminate H. cbv zeta in H.
  destruct (deduped_recommendations la (effective_enforce enforce_in_valid)
                                    valid_content_urls) as [deduped|e] eqn:Hd;
    [|discriminate H].
  injection H as <-. eexists. split; [reflexivity|]. split; [reflexivity|].
  split; [reflexivity|].
  unfold deduped_recommendations in Hd.
  destruct (collect_recommended _ _ _) as [collected|e]; [|discriminate Hd].
  destruct (fromkeys_from_kept _ _ Hd) as [_ Hord].
  destruct deduped as [|u0 deduped']; cbn [list_truthy negb].
  - split; [|now right]. destruct valid_content_urls; [congruence | discriminate].
  - split; [discriminate|]. left. split; [exact Hord | discriminate].
Qed.

Lemma X10_final_list_shape_witness :
  exists d,
    _optimize_crawl_strategy "t" repeated_answer ["a"; "b"] "2015" (Some false) = Ok d /\
    exists final,
      dict_get "recommended_crawl_pages" d = Some (JArr final) /\
      dict_get "recommended_pages_count" d = Some (JNum (Z.of_nat (List.length final))) /\
      dict_get "valid_content_urls_count" d
      = Some (JNum (Z.of_nat (List.length ["a"; "b"]))) /\
      (["a"; "b"] <> [] -> final <> []) /\
      (ForallOrdPairs (fun u v => key_eqb u v = false) final /\ final <> [] \/
       final = map JStr (firstn 10 ["a"; "b"])).
Proof.
  eexists. split; [vm_compute; reflexivity|].
  apply (@X10_final_list_shape "t" repeated_answer ["a"; "b"] "2015" (Some false)).
  vm_compute. reflexivity.
Defined.

(** ** What link discovery returns *)

Lemma set_add_NoDup (x : string) (s : list string) : NoDup s -> NoDup (set_add x s).
Proof.
  intros H. unfold set_add. destruct (str_in x s) eqn:E; [exact H|].
  apply NoDup_app; [exact H | repeat constructor; intros [] | ].
  intros y Hy [<-|[]]. apply str_in_In in Hy. congruence.
Qed.

Lemma set_add_length (x : string) (s : list string) :
  List.length s <= List.length (set_add x s) <= S (List.length s).
Proof.
  unfold set_add. destruct (str_in x s); [lia|]. rewrite length_app. simpl. lia.
Qed.

Lemma set_add_In (x y : string) (s : list string) :
  In y (set_add x s) -> y = x \/ In y s.
Proof.
  unfold set_add. destruct (str_in x s); [now right|].
  intros H. apply in_app_or in H as [H|[<-|[]]]; [now right | now left].
Qed.

Section DiscoveredLinks.

Variable valid_bracketed_netloc : string -> bool.
Variable urljoin : string -> string -> result string.

(** What the loop maintains: no repetition, and every link added passed
    the inclusion test and has no fragment. *)
Lemma discover_loop_invariant (homepage_url home_host : string) (max_links : nat)
  (hrefs : list string) :
  forall discovered found,
    discover_loop valid_bracketed_netloc urljoin homepage_url home_host max_links
                  hrefs discovered = Ok found ->
    (NoDup discovered -> NoDup found) /\
    (forall x, In x found ->
       In x discovered \/
       (has_char "#" x = false /\ _should_include_url x = Ok true)) /\
    (List.length discovered < max_links -> List.length found <= max_links) /\
    (max_links <= List.length discovered ->
     List.length found <= S (List.length discovered)).
Proof.
  induction hrefs as [|href rest IH]; intros discovered found H; cbn [discover_loop] in H.
  - injection H as <-. repeat split; try tauto; lia.
  - destruct (negb (truthy href)); [now apply IH|].
    destruct (urljoin homepage_url href) as [joined|e]; [|discriminate H].
    cbv zeta in H.
    destruct (_extract_home_host valid_bracketed_netloc (repair_joined joined))
      as [candidate_host|e]; [|discriminate H].
    destruct (String.eqb candidate_host "" || String.eqb candidate_host home_host);
      [|now apply IH].
    destruct (_should_include_url (before_char "#" (repair_joined joined)))
      as [[|]|e] eqn:Hinc; [|now apply IH|discriminate H].
    set (clean_url := before_char "#" (repair_joined joined)) in *.
    pose proof (set_add_length clean_url discovered) as Hlen.
    assert (Hnew : forall x, In x (set_add clean_url discovered) ->
                     In x discovered \/
                     (has_char "#" x = false /\ _should_include_url x = Ok true)).
    { intros x Hx. apply set_add_In in Hx as [->|Hx]; [right | now left].
      split; [apply before_char_lacks | exact Hinc]. }
    destruct (max_links <=? List.length (set_add clean_url discovered)) eqn:Hmax.
    + injection H as <-. apply Nat.leb_le in Hmax.
      repeat split; [now apply set_add_NoDup | exact Hnew | lia | lia].
    + apply Nat.leb_gt in Hmax. destruct (IH _ _ H) as (Hnd & Hin & Hlt & Hge).
      repeat split.
      * intros Hd. now apply Hnd, set_add_NoDup.
      * intros x Hx. destruct (Hin x Hx) as [Hx'|Hx']; [now apply Hnew | now right].
      * intros _. now apply Hlt.
      * intros Hd. lia.
Qed.

End DiscoveredLinks.

(** X11: link discovery returns a list without repetition, of at most
    [max_links] links when [max_links] is 2 or more, and of at most 2
    links otherwise (the limit is tested only after a link was added to
    the homepage); every link other than the homepage URL has no fragment
    and passed [_should_include_url].  This relies on [list(s)] listing
    each element of the set [s] once. *)
Theorem X11_discovered_links (valid_bracketed_netloc : string -> bool)
  (urljoin : string -> string -> result string)
  (set_to_list : list string -> list string)
  (fetch_hrefs : nat -> string -> result (list string))
  (homepage_url : string) (max_links : nat) (w : world) :
  (forall s, Permutation s (set_to_list s)) ->
  let links :=
    fst (discover_internal_links valid_bracketed_netloc urljoin set_to_list
                                 fetch_hrefs homepage_url max_links w) in
  NoDup links /\
  List.length links <= Nat.max max_links 2 /\
  forall x, In x links ->
    x = homepage_url \/ (has_char "#" x = false /\ _should_include_url x = Ok true).
Proof.
  intros Hperm links.
  assert (Hone : NoDup [homepage_url]) by (repeat constructor; intros []).
  assert (Hlinks : links = match discover_try valid_bracketed_netloc urljoin set_to_list
                                   fetch_hrefs (tick w) homepage_url max_links with
                           | Ok found => found
                           | Raise _ => [homepage_url]
                           end).
  { subst links. unfold discover_internal_links, bind, next_tick, record_call, ret.
    cbn. now destruct (discover_try _ _ _ _ _ _ _). }
  rewrite Hlinks. clear Hlinks links. unfold discover_try.
  destruct (fetch_hrefs (tick w) homepage_url) as [hrefs|e].
  2: { repeat split; [exact Hone | simpl; lia | intros x [<-|[]]; now left]. }
  destruct (_extract_home_host valid_bracketed_netloc homepage_url) as [home_host|e].
  2: { repeat split; [exact Hone | simpl; lia | intros x [<-|[]]; now left]. }
  destruct (discover_loop valid_bracketed_netloc urljoin homepage_url home_host
                          max_links hrefs [homepage_url]) as [found|e] eqn:Hloop.
  2: { repeat split; [exact Hone | simpl; lia | intros x [<-|[]]; now left]. }
  destruct (discover_loop_invariant _ _ _ _ _ _ _ Hloop) as (Hnd & Hin & Hlt & Hge).
  pose proof (Hperm found) as Hp. repeat split.
  - apply (Permutation_NoDup Hp). now apply Hnd.
  - rewrite <- (Permutation_length Hp). simpl in Hlt, Hge.
    destruct (Nat.le_gt_cases max_links 1) as [Hsmall|Hbig];
      [specialize (Hge Hsmall) | specialize (Hlt Hbig)]; lia.
  - intros x Hx. apply (Permutation_in _ (Permutation_sym Hp)) in Hx.
    destruct (Hin x Hx) as [[<-|[]]|Hx']; [now left | now right].
Qed.

Lemma X11_discovered_links_witness :
  let links :=
    fst (discover_internal_links accept_bracketed simple_urljoin insertion_order
                                 shop_hrefs shop_home_2015 2 empty_world) in
  NoDup links /\
  List.length links <= Nat.max 2 2 /\
  forall x, In x links ->
    x = shop_home_2015 \/ (has_char "#" x = false /\ _should_include_url x = Ok true).
Proof.
  apply (@X11_discovered_links accept_bracketed simple_urljoin insertion_order
           shop_hrefs shop_home_2015 2 empty_world).
  intros s. apply Permutation_refl.
Defined.

(** ** The three resume loops *)

Lemma dict_get_set_other {V : Type} (k k' : string) (v : V) (d : pydict V) :
  String.eqb k k' = false -> dict_get k (dict_set k' v d) = dict_get k d.
Proof.
  intros H. induction d as [|[k0 v0] d IH]; cbn [dict_set dict_get].
  - now rewrite H.
  - destruct (String.eqb k' k0) eqn:E; cbn [dict_get].
    + apply String.eqb_eq in E. subst k0. now rewrite H.
    + now rewrite IH.
Qed.

Lemma dict_mem_set {V : Type} (k k' : string) (v : V) (d : pydict V) :
  dict_mem k (dict_set k' v d) = String.eqb k k' || dict_mem k d.
Proof.
  unfold dict_mem. destruct (String.eqb k k') eqn:E.
  - apply String.eqb_eq in E. subst k'. now rewrite dict_get_set_same.
  - now rewrite dict_get_set_other.
Qed.

Lemma dict_mem_In {V : Type} (k : string) (d : pydict V) :
  dict_mem k d = true -> In k (dict_keys d).
Proof.
  unfold dict_mem, dict_keys. induction d as [|[k0 v0] d IH]; cbn [dict_get map fst].
  - discriminate.
  - destruct (String.eqb k k0) eqn:E; [|intros H; right; now apply IH].
    intros _. left. symmetry. now apply String.eqb_eq.
Qed.

Section ResumeLoops.

Variable valid_bracketed_netloc : string -> bool.
Variable urljoin : string -> string -> result string.
Variable set_to_list : list string -> list string.
Variable clock : nat -> string.
Variable fetch_hrefs : nat -> string -> result (list string).
Variable generate_taxonomy : nat -> list string -> result (pydict (list type_obj)).
Variable select_core : nat -> string -> list classified_url -> nat -> result json.
Variable get_page_content : nat -> json -> option string.
Variable micro_scenarios : pydict (pydict (string * list string)).
Variable round_average : nat -> nat -> string.

Lemma discover_world (homepage_url : string) (max_links : nat) (w : world) :
  snd (discover_internal_links valid_bracketed_netloc urljoin set_to_list fetch_hrefs
                               homepage_url max_links w)
  = mk_world (links_file w) (types_file w) (planning_file w) (scenarios_file w)
             (S (tick w)) (CallDiscover homepage_url :: calls w).
Proof.
  unfold discover_internal_links, bind, next_tick, record_call, ret. cbn.
  now destruct (discover_try _ _ _ _ _ _ _).
Qed.

Lemma process_years_invariant (historical_urls : list (string * string)) :
  forall (year_links_map : pydict (list string)) (w : world),
    let out := process_years valid_bracketed_netloc urljoin set_to_list fetch_hrefs
                             historical_urls year_links_map w in
    (forall year, has_links year year_links_map = true ->
                  dict_get year (fst out) = dict_get year year_links_map) /\
    (forall year, dict_mem year year_links_map = true -> dict_mem year (fst out) = true) /\
    (forall year url, In (year, url) historical_urls -> dict_mem year (fst out) = true) /\
    (forall year links,
        dict_get year (fst out) = Some links ->
        dict_get year year_links_map = Some links \/
        (In year (map fst historical_urls) /\ has_links year year_links_map = false /\
         Forall (fun link => _is_meaningful_url link = true) links)) /\
    (exists new,
        calls (snd out) = new ++ calls w /\
        tick (snd out) = List.length new + tick w /\
        Forall (fun c => exists year url,
                    In (year, url) historical_urls /\
                    has_links year year_links_map = false /\
                    c = CallDiscover url) new) /\
    links_file (snd out) = links_file w /\ types_file (snd out) = types_file w /\
    planning_file (snd out) = planning_file w /\
    scenarios_file (snd out) = scenarios_file w.
Proof.
  induction historical_urls as [|[year0 url0] rest IH]; intros m w; cbn zeta.
  - cbn [process_years ret fst snd].
    refine (conj _ (conj _ (conj _ (conj _ (conj _ _))))); try tauto.
    + intros year url [].
    + exists []. repeat split. constructor.
  - destruct (has_links year0 m) eqn:Hy.
    + cbn [process_years]. rewrite Hy.
      destruct (IH m w) as (Ha & Hm & Hb & Hc & (new & Hcalls & Htick & Hnew) & Hfiles).
      refine (conj Ha (conj Hm (conj _ (conj _ (conj _ Hfiles))))).
      * intros year url [Heq|Hin]; [|now apply Hb with url].
        injection Heq as <- <-. apply Hm. unfold has_links, dict_mem in *.
        now destruct (dict_get year0 m).
      * intros year links H. destruct (Hc year links H) as [?|(? & ? & ?)];
          [now left | right]. repeat split; try assumption. now right.
      * exists new. repeat split; try assumption.
        eapply Forall_impl; [|exact Hnew]. cbn. intros c (y & u & ? & ? & ->).
        exists y, u. repeat split; try assumption. now right.
    + set (internal := fst (discover_internal_links valid_bracketed_netloc urljoin
                                set_to_list fetch_hrefs url0 10000 w)).
      set (w1 := snd (discover_internal_links valid_bracketed_netloc urljoin
                        set_to_list fetch_hrefs url0 10000 w)).
      set (m1 := dict_set year0 (_filter_valid_links internal) m).
      assert (Hstep : process_years valid_bracketed_netloc urljoin set_to_list fetch_hrefs
                                    ((year0, url0) :: rest) m w
                      = process_years valid_bracketed_netloc urljoin set_to_list
                                      fetch_hrefs rest m1 w1).
      { cbn [process_years]. rewrite Hy. unfold bind. subst m1 internal w1.
        now destruct (discover_internal_links _ _ _ _ _ _ _). }
      rewrite Hstep. clear Hstep.
      assert (Hw1 : w1 = mk_world (links_file w) (types_file w) (planning_file w)
                                  (scenarios_file w) (S (tick w))
                                  (CallDiscover url0 :: calls w)).
      { subst w1. apply discover_world. }
      clearbody w1 internal.
      assert (Hother : forall year, String.eqb year year0 = false ->
                                    dict_get year m1 = dict_get year m).
      { intros year E. subst m1. now apply dict_get_set_other. }
      assert (Hkeep : forall year, has_links year m = true -> String.eqb year year0 = false).
      { intros year H. destruct (String.eqb year year0) eqn:E; [|reflexivity].
        apply String.eqb_eq in E. subst year. congruence. }
      assert (Hmono : forall year, has_links year m1 = false -> has_links year m = false).
      { intros year Hno. destruct (has_links year m) eqn:Hh; [|reflexivity].
        unfold has_links in Hno. rewrite (Hother year (Hkeep year Hh)) in Hno.
        unfold has_links in Hh. congruence. }
      destruct (IH m1 w1) as (Ha & Hm & Hb & Hc & (new & Hcalls & Htick & Hnew) & Hfiles).
      refine (conj _ (conj _ (conj _ (conj _ (conj _ _))))).
      * intros year H. rewrite <- (Hother year (Hkeep year H)). apply Ha.
        unfold has_links. rewrite (Hother year (Hkeep year H)). exact H.
      * intros year H. apply Hm. subst m1. rewrite dict_mem_set, H. apply orb_true_r.
      * intros year url [Heq|Hin]; [|now apply Hb with url].
        injection Heq as <- <-. apply Hm. subst m1.
        now rewrite dict_mem_set, String.eqb_refl.
      * intros year links H. destruct (Hc year links H) as [Hget|(Hin & Hno & Hall)].
        -- destruct (String.eqb year year0) eqn:E.
           ++ apply String.eqb_eq in E. subst year. right.
              subst m1. rewrite dict_get_set_same in Hget. injection Hget as <-.
              repeat split; [now left | exact Hy |].
              unfold _filter_valid_links. apply Forall_forall. intros link Hl.
              now apply filter_In in Hl.
           ++ left. now rewrite <- (Hother year E).
        -- right. repeat split; [now right | now apply Hmono | exact Hall].
      * exists (new ++ [CallDiscover url0]). rewrite Hcalls, Htick, Hw1. cbn [calls tick].
        rewrite <- app_assoc, length_app. cbn [List.length app].
        split; [reflexivity|]. split; [lia|]. apply Forall_app. split.
        -- eapply Forall_impl; [|exact Hnew]. cbn. intros c (y & u & Hin & Hno & ->).
           exists y, u. repeat split; [now right | now apply Hmono].
        -- constructor; [|constructor]. exists year0, url0.
           repeat split; [now left | exact Hy].
      * destruct Hfiles as (-> & -> & -> & ->). now rewrite Hw1.
Qed.

(** The outcome of URL processing on any output directory. *)
Lemma url_processing_outcome (historical_urls : list (string * string))
  (w : world) :
  let old := match links_file w with Some d => ld_year_links_map d | None => [] end in
  let w' := snd (process_urls_for_company valid_bracketed_netloc urljoin set_to_list
                                          clock fetch_hrefs historical_urls w) in
  exists ld new,
    links_file w' = Some ld /\
    ld_total_years ld = List.length (ld_year_links_map ld) /\
    (forall year, has_links year old = true ->
                  dict_get year (ld_year_links_map ld) = dict_get year old) /\
    (forall year url, In (year, url) historical_urls ->
                      dict_mem year (ld_year_links_map ld) = true) /\
    (forall year links,
        dict_get year (ld_year_links_map ld) = Some links ->
        dict_get year old = Some links \/
        (In year (map fst historical_urls) /\ has_links year old = false /\
         Forall (fun link => _is_meaningful_url link = true) links)) /\
    calls w' = new ++ calls w /\
    Forall (fun c => exists year url,
                In (year, url) historical_urls /\ has_links year old = false /\
                c = CallDiscover url) new /\
    types_file w' = types_file w /\ planning_file w' = planning_file w /\
    scenarios_file w' = scenarios_file w.
Proof.
  intros old w'.
  destruct (process_years_invariant historical_urls old w)
    as (Ha & _ & Hb & Hc & (new & Hcalls & _ & Hnew) & Hl & Ht & Hp & Hs).
  cbv zeta in *.
  assert (Hw' : w' = let out := process_years valid_bracketed_netloc urljoin set_to_list
                                              fetch_hrefs historical_urls old w in
                     mk_world (Some (mk_links_doc (clock (tick (snd out)))
                                                  (List.length (fst out)) (fst out)))
                              (types_file (snd out)) (planning_file (snd out))
                              (scenarios_file (snd out)) (S (tick (snd out)))
                              (calls (snd out))).
  { subst w' old. unfold process_urls_for_company, bind, read_world, now, next_tick,
      write_links, ret.
    now destruct (process_years _ _ _ _ _ _ _). }
  rewrite Hw'. cbv zeta. cbn [links_file types_file planning_file scenarios_file calls].
  eexists _, new. cbn [ld_total_years ld_year_links_map].
  repeat split; try assumption.
Qed.

(** X12: URL processing resumes.  After [process_urls_for_company] the
    links document exists and counts its years; a year that had links
    before keeps its list; every historical year is a key; a list that is
    new was filtered by [_is_meaningful_url] and belongs to a historical
    year that had no links; the only collaborator calls are discovery calls
    for homepage URLs of such years; and no other document is touched. *)
Theorem X12_url_processing_resumes (historical_urls : list (string * string))
  (w : world) :
  let old := match links_file w with Some d => ld_year_links_map d | None => [] end in
  let w' := snd (process_urls_for_company valid_bracketed_netloc urljoin set_to_list
                                          clock fetch_hrefs historical_urls w) in
  exists ld new,
    links_file w' = Some ld /\
    ld_total_years ld = List.length (ld_year_links_map ld) /\
    (forall year, has_links year old = true ->
                  dict_get year (ld_year_links_map ld) = dict_get year old) /\
    (forall year url, In (year, url) historical_urls ->
                      dict_mem year (ld_year_links_map ld) = true) /\
    (forall year links,
        dict_get year (ld_year_links_map ld) = Some links ->
        dict_get year old = Some links \/
        (In year (map fst historical_urls) /\ has_links year old = false /\
         Forall (fun link => _is_meaningful_url link = true) links)) /\
    calls w' = new ++ calls w /\
    Forall (fun c => exists year url,
                In (year, url) historical_urls /\ has_links year old = false /\
                c = CallDiscover url) new /\
    types_file w' = types_file w /\ planning_file w' = planning_file w /\
    scenarios_file w' = scenarios_file w.
Proof. apply url_processing_outcome. Qed.

Lemma plan_year_world (self : planner) (crawl_num : nat) (year : string)
  (valid_links : list string) (w : world) :
  let w1 := snd (plan_year valid_bracketed_netloc clock select_core self crawl_num
                           year valid_links w) in
  links_file w1 = links_file w /\ types_file w1 = types_file w /\
  planning_file w1 = planning_file w /\ scenarios_file w1 = scenarios_file w /\
  (calls w1 = calls w \/ calls w1 = CallSelect year :: calls w).
Proof.
  unfold plan_year, bind, next_tick, record_call, now, ret.
  destruct (fst (_classify_candidate_urls _ _ _ _ _)) as [classified|e]; cbn.
  - destruct (select_core _ _ _ _) as [llm|e]; cbn; [|tauto].
    destruct (_optimize_crawl_strategy _ _ _ _ _); cbn; tauto.
  - tauto.
Qed.

Lemma plan_years_invariant (self : planner) (crawl_num : nat)
  (year_links : pydict (list string)) :
  forall (yearly_analysis : pydict (pydict json)) (w : world),
    let out := plan_years valid_bracketed_netloc clock select_core self crawl_num
                          year_links yearly_analysis w in
    (forall year v, dict_get year yearly_analysis = Some v ->
                    dict_get year (fst out) = Some v) /\
    (forall year, dict_mem year (fst out) = true ->
                  dict_mem year yearly_analysis = true \/ In year (dict_keys year_links)) /\
    (exists new,
        calls (snd out) = new ++ calls w /\
        Forall (fun c => exists year,
                    In year (dict_keys year_links) /\
                    dict_mem year yearly_analysis = false /\
                    c = CallSelect year) new) /\
    (fst out = yearly_analysis /\ planning_file (snd out) = planning_file w \/
     exists t, planning_file (snd out) = Some (mk_planning_doc t (fst out))) /\
    links_file (snd out) = links_file w /\ types_file (snd out) = types_file w /\
    scenarios_file (snd out) = scenarios_file w.
Proof.
  induction year_links as [|[year0 links0] rest IH]; intros ya w; cbv zeta.
  - cbn [plan_years ret fst snd dict_keys map].
    refine (conj _ (conj _ (conj _ (conj _ _)))); try tauto.
    exists []. split; [reflexivity | constructor].
  - destruct (dict_mem year0 ya) eqn:Hy.
    + cbn [plan_years]. rewrite Hy.
      destruct (IH ya w) as (Ha & Hb & (new & Hcalls & Hnew) & He & Hfiles).
      refine (conj Ha (conj _ (conj _ (conj He Hfiles)))).
      * intros year H. destruct (Hb year H) as [?|?]; [now left | right; now right].
      * exists new. split; [exact Hcalls|].
        eapply Forall_impl; [|exact Hnew]. cbn. intros c (y & ? & ? & ->).
        exists y. repeat split; try assumption. now right.
    + set (r := fst (plan_year valid_bracketed_netloc clock select_core self crawl_num
                               year0 links0 w)).
      set (w1 := snd (plan_year valid_bracketed_netloc clock select_core self crawl_num
                                year0 links0 w)).
      destruct (plan_year_world self crawl_num year0 links0 w)
        as (Hl1 & Ht1 & Hp1 & Hs1 & Hc1). fold w1 in Hl1, Ht1, Hp1, Hs1, Hc1.
      assert (Hnewcall : exists pre, calls w1 = pre ++ calls w /\
                           Forall (fun c => exists year,
                                       In year (dict_keys ((year0, links0) :: rest)) /\
                                       dict_mem year ya = false /\
                                       c = CallSelect year) pre).
      { destruct Hc1 as [->| ->]; [exists [] | exists [CallSelect year0]];
          (split; [reflexivity|]); repeat constructor.
        exists year0. repeat split; [now left | exact Hy]. }
      destruct Hnewcall as (pre & Hpre & Hpre_all).
      destruct r as [final|e] eqn:Hr.
      * set (ya1 := dict_set year0 final ya).
        set (w2 := mk_world (links_file w1) (types_file w1)
                            (Some (mk_planning_doc (clock (tick w1)) ya1))
                            (scenarios_file w1) (S (tick w1)) (calls w1)).
        assert (Hstep : plan_years valid_bracketed_netloc clock select_core self crawl_num
                                   ((year0, links0) :: rest) ya w
                        = plan_years valid_bracketed_netloc clock select_core self
                                     crawl_num rest ya1 w2).
        { cbn [plan_years]. rewrite Hy. unfold bind at 1. subst r w1 w2 ya1.
          destruct (plan_year _ _ _ _ _ _ _ _) as [r0 w0]. cbn [fst snd] in *.
          subst r0. reflexivity. }
        rewrite Hstep. clear Hstep.
        destruct (IH ya1 w2) as (Ha & Hb & (new & Hcalls & Hnew) & He & Hl & Ht & Hs).
        assert (Hmono : forall y, dict_mem y ya1 = false -> dict_mem y ya = false).
        { intros y H. subst ya1. rewrite dict_mem_set in H.
          now apply orb_false_elim in H. }
        refine (conj _ (conj _ (conj _ (conj _ _)))).
        -- intros year v H. apply Ha. subst ya1. rewrite dict_get_set_other; [exact H|].
           destruct (String.eqb year year0) eqn:E; [|reflexivity].
           apply String.eqb_eq in E. subst year. unfold dict_mem in Hy.
           now rewrite H in Hy.
        -- intros year H. destruct (Hb year H) as [Hm|Hin]; [|right; now right].
           subst ya1. rewrite dict_mem_set in Hm.
           apply orb_true_iff in Hm as [E|Hm]; [|now left].
           right. left. symmetry. now apply String.eqb_eq.
        -- exists (new ++ pre). rewrite Hcalls. subst w2. cbn [calls].
           rewrite Hpre, app_assoc. split; [reflexivity|].
           apply Forall_app. split; [|exact Hpre_all].
           eapply Forall_impl; [|exact Hnew]. cbn. intros c (y & ? & ? & ->).
           exists y. repeat split; [now right | now apply Hmono].
        -- right. destruct He as [[-> Hp]|[t Hp]]; [|now exists t].
           exists (clock (tick w1)). rewrite Hp. reflexivity.
        -- rewrite Hl, Ht, Hs. subst w2. cbn. now rewrite Hl1, Ht1, Hs1.
      * assert (Hstep : plan_years valid_bracketed_netloc clock select_core self crawl_num
                                   ((year0, links0) :: rest) ya w
                        = plan_years valid_bracketed_netloc clock select_core self
                                     crawl_num rest ya w1).
        { cbn [plan_years]. rewrite Hy. unfold bind at 1. subst r w1.
          destruct (plan_year _ _ _ _ _ _ _ _) as [r0 w0]. cbn [fst snd] in *.
          subst r0. reflexivity. }
        rewrite Hstep. clear Hstep.
        destruct (IH ya w1) as (Ha & Hb & (new & Hcalls & Hnew) & He & Hl & Ht & Hs).
        refine (conj Ha (conj _ (conj _ (conj _ _)))).
        -- intros year H. destruct (Hb year H) as [?|?]; [now left | right; now right].
        -- exists (new ++ pre). rewrite Hcalls, Hpre, app_assoc. split; [reflexivity|].
           apply Forall_app. split; [|exact Hpre_all].
           eapply Forall_impl; [|exact Hnew]. cbn. intros c (y & ? & ? & ->).
           exists y. repeat split; try assumption. now right.
        -- destruct He as [[Hf Hp]|[t Hp]]; [left | right; now exists t].
           split; [exact Hf | now rewrite Hp].
        -- now rewrite Hl, Ht, Hs.
Qed.

Lemma generate_llm_planning_unfold (self : planner)
  (year_links_map : pydict (list string)) (crawl_num : nat) (w : world) :
  generate_llm_planning valid_bracketed_netloc clock select_core self year_links_map
                        crawl_num w
  = let old := match planning_file w with
               | Some d => pd_yearly_analysis_results d
               | None => []
               end in
    let planned (self1 : planner) :=
      let out := plan_years valid_bracketed_netloc clock select_core
                            (_compile_core_type_patterns self1) crawl_num
                            year_links_map old w in
      (Ok (_compile_core_type_patterns self1),
       mk_world (links_file (snd out)) (types_file (snd out))
                (Some (mk_planning_doc (clock (tick (snd out))) (fst out)))
                (scenarios_file (snd out)) (S (tick (snd out))) (calls (snd out))) in
    if list_truthy (core_page_types self) then planned self
    else match types_file w with
         | Some d => planned (_load_core_page_types self d)
         | None => (Raise (RuntimeError "core page types not generated"), w)
         end.
Proof.
  unfold generate_llm_planning, bind, read_world, _write_planning_file, now, next_tick,
    write_planning, ret. cbv zeta.
  destruct (list_truthy (core_page_types self)).
  - now destruct (plan_years _ _ _ _ _ _ _ _).
  - destruct (types_file w); [|reflexivity].
    now destruct (plan_years _ _ _ _ _ _ _ _).
Qed.

(** The outcome of the planning step on any output directory. *)
Lemma planning_outcome (self : planner) (year_links_map : pydict (list string))
  (crawl_num : nat) (w : world) :
  let old := match planning_file w with
             | Some d => pd_yearly_analysis_results d
             | None => []
             end in
  let out := generate_llm_planning valid_bracketed_netloc clock select_core self
                                   year_links_map crawl_num w in
  match fst out with
  | Raise e =>
      e = RuntimeError "core page types not generated" /\ snd out = w /\
      core_page_types self = [] /\ types_file w = None
  | Ok _ =>
      exists pd new,
        planning_file (snd out) = Some pd /\
        (forall year v, dict_get year old = Some v ->
                        dict_get year (pd_yearly_analysis_results pd) = Some v) /\
        (forall year, dict_mem year (pd_yearly_analysis_results pd) = true ->
                      dict_mem year old = true \/ In year (dict_keys year_links_map)) /\
        calls (snd out) = new ++ calls w /\
        Forall (fun c => exists year,
                    In year (dict_keys year_links_map) /\ dict_mem year old = false /\
                    c = CallSelect year) new /\
        links_file (snd out) = links_file w /\ types_file (snd out) = types_file w /\
        scenarios_file (snd out) = scenarios_file w
  end.
Proof.
  intros old out. subst out. rewrite generate_llm_planning_unfold. fold old.
  destruct (list_truthy (core_page_types self)) eqn:Hc.
  - destruct (plan_years_invariant (_compile_core_type_patterns self) crawl_num
                                   year_links_map old w)
      as (Ha & Hb & (new & Hcalls & Hnew) & _ & Hlf & Htf & Hsf).
    cbv zeta in *. cbn [fst snd planning_file links_file types_file scenarios_file calls].
    eexists _, new. cbn [pd_yearly_analysis_results]. repeat split; assumption.
  - destruct (types_file w) as [d|] eqn:Ht.
    + destruct (plan_years_invariant
                  (_compile_core_type_patterns (_load_core_page_types self d)) crawl_num
                  year_links_map old w)
        as (Ha & Hb & (new & Hcalls & Hnew) & _ & Hlf & Htf & Hsf).
      cbv zeta in *.
      cbn [fst snd planning_file links_file types_file scenarios_file calls].
      eexists _, new. cbn [pd_yearly_analysis_results].
      rewrite <- Ht. repeat split; assumption.
    + cbn [fst snd]. repeat split. now destruct (core_page_types self).
Qed.


Lemma set_update_NoDup (xs s : list string) : NoDup s -> NoDup (set_update s xs).
Proof.
  unfold set_update. revert s. induction xs as [|x xs IH]; intros s H; [exact H|].
  cbn [fold_left]. now apply IH, set_add_NoDup.
Qed.

Lemma set_update_In (xs s : list string) (y : string) :
  In y (set_update s xs) -> In y s \/ In y xs.
Proof.
  unfold set_update. revert s. induction xs as [|x xs IH]; intros s H; [now left|].
  cbn [fold_left] in H. apply IH in H as [H|H]; [|right; now right].
  apply set_add_In in H as [->|H]; [right; now left | now left].
Qed.

Lemma identify_page (url : json) (w : world) :
  let out := _identify_scenarios_in_page get_page_content micro_scenarios url w in
  NoDup (fst out) /\
  (forall label, In label (fst out) -> is_scenario_label micro_scenarios label) /\
  snd out = mk_world (links_file w) (types_file w) (planning_file w) (scenarios_file w)
                     (S (tick w)) (CallFetchPage url :: calls w).
Proof.
  unfold _identify_scenarios_in_page, bind, next_tick, record_call, ret. cbn.
  destruct (get_page_content (tick w) url) as [content|]; cbn;
    [|repeat split; [constructor | intros ? []]].
  destruct (negb (truthy content)); cbn; [repeat split; [constructor | intros ? []]|].
  repeat split; [apply set_update_NoDup; constructor|].
  intros label H. apply set_update_In in H as [[]|H].
  apply in_flat_map in H as ([stage scenarios] & Hst & H).
  apply in_flat_map in H as ([sid [name kws]] & Hsc & H). cbn [snd] in Hsc.
  unfold scenario_hit in H. destruct (existsb _ kws); [|destruct H].
  destruct H as [<-|[]]. now exists stage, scenarios, sid, name, kws.
Qed.

Lemma analyze_pages_invariant (crawl_urls : list json) :
  forall (year_scenarios : list string) (successful_pages : nat) (w : world),
    let out := analyze_pages get_page_content micro_scenarios crawl_urls year_scenarios
                             successful_pages w in
    snd (fst out) = successful_pages + List.length crawl_urls /\
    (NoDup year_scenarios -> NoDup (fst (fst out))) /\
    (forall label, In label (fst (fst out)) ->
                   In label year_scenarios \/ is_scenario_label micro_scenarios label) /\
    snd out = mk_world (links_file w) (types_file w) (planning_file w) (scenarios_file w)
                       (List.length crawl_urls + tick w)
                       (rev (map CallFetchPage crawl_urls) ++ calls w).
Proof.
  induction crawl_urls as [|url rest IH]; intros ys k w; cbv zeta.
  - cbn. repeat split; try tauto; try lia. now destruct w.
  - destruct (identify_page url w) as (Hnd & Hlab & Hw).
    set (page := fst (_identify_scenarios_in_page get_page_content micro_scenarios
                                                  url w)) in *.
    set (w1 := snd (_identify_scenarios_in_page get_page_content micro_scenarios
                                                url w)) in *.
    assert (Hstep : analyze_pages get_page_content micro_scenarios (url :: rest) ys k w
                    = analyze_pages get_page_content micro_scenarios rest
                                    (set_update ys page) (S k) w1).
    { cbn [analyze_pages]. unfold bind. subst page w1.
      now destruct (_identify_scenarios_in_page _ _ _ _). }
    rewrite Hstep. clear Hstep. clearbody page w1.
    destruct (IH (set_update ys page) (S k) w1) as (Hk & Hn & Hl & Hw').
    repeat split.
    + rewrite Hk. cbn [List.length]. lia.
    + intros H. now apply Hn, set_update_NoDup.
    + intros label H. destruct (Hl label H) as [H'|H']; [|now right].
      apply set_update_In in H' as [H'|H']; [now left | right; now apply Hlab].
    + rewrite Hw', Hw. cbn [links_file types_file planning_file scenarios_file tick calls
                            map rev List.length].
      rewrite <- app_assoc. cbn [app]. f_equal. lia.
Qed.

Lemma json_iter_length (v : json) (urls : list json) :
  json_iter v = Ok urls -> List.length urls = json_len v.
Proof.
  destruct v as [| | |s|l|o]; cbn; intros H; try discriminate H; injection H as <-.
  - rewrite length_map. induction s as [|c s IH]; [reflexivity|]. cbn. now rewrite IH.
  - reflexivity.
  - apply length_map.
Qed.

(** What the analysis of one year returns and does. *)
Lemma analyze_year_outcome (crawl_urls : json) (w : world) :
  let out := _analyze_scenarios_for_year get_page_content micro_scenarios crawl_urls w in
  match fst out with
  | Raise e => json_iter crawl_urls = Raise e /\ snd out = w
  | Ok (year_scenarios, successful_pages) =>
      successful_pages = json_len crawl_urls /\
      NoDup year_scenarios /\
      (forall label, In label year_scenarios -> is_scenario_label micro_scenarios label) /\
      exists urls,
        json_iter crawl_urls = Ok urls /\
        calls (snd out) = rev (map CallFetchPage urls) ++ calls w /\
        tick (snd out) = List.length urls + tick w
  end.
Proof.
  cbv zeta. unfold _analyze_scenarios_for_year.
  destruct (json_iter crawl_urls) as [urls|e] eqn:Hiter; [|now split].
  unfold bind, ret.
  destruct (analyze_pages_invariant urls [] 0 w) as (Hk & Hn & Hl & Hw).
  destruct (analyze_pages get_page_content micro_scenarios urls [] 0 w)
    as [[ys k] w1]. cbn [fst snd] in *.
  repeat split.
  - rewrite Hk. now apply json_iter_length.
  - apply Hn. constructor.
  - intros label H. now destruct (Hl label H) as [[]|?].
  - exists urls. rewrite Hw. now repeat split.
Qed.

(** X14: the analysis of one year counts every page as a success.  When
    the recommended pages can be iterated, the number of successful pages
    is their number, whatever the page fetches returned; one fetch is made
    per page, in order; the scenarios found are scenario labels of the
    definitions, without repetition.  When they cannot be iterated, the
    exception is raised before any fetch. *)
Theorem X14_every_page_counts_as_success (crawl_urls : json) (w : world) :
  let out := _analyze_scenarios_for_year get_page_content micro_scenarios crawl_urls w in
  match fst out with
  | Raise e => json_iter crawl_urls = Raise e /\ snd out = w
  | Ok (year_scenarios, successful_pages) =>
      successful_pages = json_len crawl_urls /\
      NoDup year_scenarios /\
      (forall label, In label year_scenarios -> is_scenario_label micro_scenarios label) /\
      exists urls,
        json_iter crawl_urls = Ok urls /\
        calls (snd out) = rev (map CallFetchPage urls) ++ calls w /\
        tick (snd out) = List.length urls + tick w
  end.
Proof. apply analyze_year_outcome. Qed.

Lemma dict_set_nonempty {V : Type} (k : string) (v : V) (d : pydict V) :
  dict_set k v d <> [].
Proof. destruct d as [|[k' v'] d]; cbn; [|destruct (String.eqb k k')]; discriminate. Qed.

Lemma summary_keeps (d : pydict scenario_record) (w : world) :
  let w' := snd (_generate_analysis_summary clock round_average d w) in
  links_file w' = links_file w /\ types_file w' = types_file w /\
  planning_file w' = planning_file w /\ calls w' = calls w /\
  scenarios_file w'
  = match d with
    | [] => scenarios_file w
    | _ => Some (mk_scenarios_doc
                   (clock (tick w)) (List.length d)
                   (list_sum (map (fun kv => record_count (snd kv)) d))
                   (round_average (list_sum (map (fun kv => record_count (snd kv)) d))
                                  (List.length d))
                   d)
    end.
Proof. destruct d; cbn; repeat split. Qed.

(** A record written by this run: an error record, or a record whose
    success rate is the number of pages over itself. *)
Lemma analyze_years_invariant (llm_planning_results : pydict (pydict json)) :
  forall (yearly_scenario_data : pydict scenario_record) (w : world),
    let out := analyze_years set_to_list clock get_page_content micro_scenarios
                             round_average llm_planning_results
                             yearly_scenario_data w in
    (forall year r, dict_get year yearly_scenario_data = Some r ->
                    dict_get year (fst out) = Some r) /\
    (forall year r,
        dict_get year (fst out) = Some r ->
        dict_get year yearly_scenario_data = Some r \/
        (dict_mem year yearly_scenario_data = false /\
         (exists planning_data crawl_urls,
             In (year, planning_data) llm_planning_results /\
             dict_get "recommended_crawl_pages" planning_data = Some crawl_urls /\
             json_truthy crawl_urls = true) /\
         ((exists message, r = YearError message) \/
          (exists year_scenarios t pages,
              NoDup year_scenarios /\
              r = YearScenarios (set_to_list year_scenarios)
                                (List.length year_scenarios) t pages (pages, pages)
                                (_categorize_scenarios_by_stage year_scenarios))))) /\
    (exists new,
        calls (snd out) = new ++ calls w /\
        Forall (fun c => exists url, c = CallFetchPage url) new) /\
    (fst out = [] -> scenarios_file (snd out) = scenarios_file w) /\
    links_file (snd out) = links_file w /\ types_file (snd out) = types_file w /\
    planning_file (snd out) = planning_file w.
Proof.
  induction llm_planning_results as [|[year0 pd0] rest IH]; intros d w; cbv zeta.
  - cbn [analyze_years ret fst snd].
    refine (conj _ (conj _ (conj _ (conj _ _)))); try tauto.
    exists []. split; [reflexivity | constructor].
  - assert (Hskip : forall d' w',
               (forall year r, dict_get year d = Some r -> dict_get year d' = Some r) ->
               analyze_years set_to_list clock get_page_content micro_scenarios
                             round_average ((year0, pd0) :: rest) d w
               = analyze_years set_to_list clock get_page_content micro_scenarios
                               round_average rest d' w' ->
               (forall year r,
                   dict_get year d' = Some r ->
                   dict_get year d = Some r \/
                   (dict_mem year d = false /\
                    (exists planning_data crawl_urls,
                        In (year, planning_data) ((year0, pd0) :: rest) /\
                        dict_get "recommended_crawl_pages" planning_data
                        = Some crawl_urls /\
                        json_truthy crawl_urls = true) /\
                    ((exists message, r = YearError message) \/
                     (exists year_scenarios t pages,
                         NoDup year_scenarios /\
                         r = YearScenarios (set_to_list year_scenarios)
                                           (List.length year_scenarios) t pages
                                           (pages, pages)
                                           (_categorize_scenarios_by_stage
                                              year_scenarios))))) ->
               (exists pre, calls w' = pre ++ calls w /\
                            Forall (fun c => exists url, c = CallFetchPage url) pre) ->
               (d' = [] -> scenarios_file w' = scenarios_file w) ->
               links_file w' = links_file w -> types_file w' = types_file w ->
               planning_file w' = planning_file w ->
               let out := analyze_years set_to_list clock get_page_content
                                        micro_scenarios round_average
                                        ((year0, pd0) :: rest) d w in
               (forall year r, dict_get year d = Some r ->
                               dict_get year (fst out) = Some r) /\
               (forall year r,
                   dict_get year (fst out) = Some r ->
                   dict_get year d = Some r \/
                   (dict_mem year d = false /\
                    (exists planning_data crawl_urls,
                        In (year, planning_data) ((year0, pd0) :: rest) /\
                        dict_get "recommended_crawl_pages" planning_data
                        = Some crawl_urls /\
                        json_truthy crawl_urls = true) /\
                    ((exists message, r = YearError message) \/
                     (exists year_scenarios t pages,
                         NoDup year_scenarios /\
                         r = YearScenarios (set_to_list year_scenarios)
                                           (List.length year_scenarios) t pages
                                           (pages, pages)
                                           (_categorize_scenarios_by_stage
                                              year_scenarios))))) /\
               (exists new,
                   calls (snd out) = new ++ calls w /\
                   Forall (fun c => exists url, c = CallFetchPage url) new) /\
               (fst out = [] -> scenarios_file (snd out) = scenarios_file w) /\
               links_file (snd out) = links_file w /\
               types_file (snd out) = types_file w /\
               planning_file (snd out) = planning_file w).
    { intros d' w' Hkeep Hstep Hrec (pre & Hpre & Hpre_all) Hsf Hlf Htf Hpf. cbv zeta.
      rewrite Hstep.
      destruct (IH d' w') as (Ha & Hc & (new & Hcalls & Hnew) & He & Hl & Ht & Hp).
      refine (conj _ (conj _ (conj _ (conj _ _)))).
      - intros year r H. now apply Ha, Hkeep.
      - intros year r H. destruct (Hc year r H) as [H'|(Hm & (pd & cr & Hin & Hg & Ht') & Hr)].
        + now apply Hrec.
        + destruct (dict_get year d) as [r0|] eqn:Hd.
          * left. apply Hkeep in Hd. unfold dict_mem in Hm. now rewrite Hd in Hm.
          * right. split; [unfold dict_mem; now rewrite Hd|]. split; [|exact Hr].
            exists pd, cr. repeat split; try assumption. now right.
      - exists (new ++ pre). rewrite Hcalls, Hpre, app_assoc. split; [reflexivity|].
        apply Forall_app. now split.
      - intros Hnil. rewrite (He Hnil). apply Hsf.
        destruct d' as [|[k v] d']; [reflexivity|].
        specialize (Ha k v). cbn [dict_get] in Ha. rewrite String.eqb_refl in Ha.
        specialize (Ha eq_refl). rewrite Hnil in Ha. discriminate Ha.
      - now rewrite Hl, Ht, Hp. }
    destruct (dict_mem year0 d) eqn:Hy.
    { apply (Hskip d w); try tauto.
      - cbn [analyze_years]. now rewrite Hy.
      - exists []. split; [reflexivity | constructor]. }
    set (crawl := match dict_get "recommended_crawl_pages" pd0 with
                  | Some v => v
                  | None => JArr []
                  end).
    destruct (negb (json_truthy crawl)) eqn:Htruthy.
    { apply (Hskip d w); try tauto.
      - cbn [analyze_years]. rewrite Hy. fold crawl. now rewrite Htruthy.
      - exists []. split; [reflexivity | constructor]. }
    assert (Hcrawl : dict_get "recommended_crawl_pages" pd0 = Some crawl /\
                     json_truthy crawl = true).
    { apply negb_false_iff in Htruthy. split; [|exact Htruthy]. subst crawl.
      destruct (dict_get "recommended_crawl_pages" pd0); [reflexivity|discriminate]. }
    destruct Hcrawl as [Hget Htrue].
    assert (Hfresh : forall year r rec, dict_get year d = Some r ->
                                        dict_get year (dict_set year0 rec d) = Some r).
    { intros year r rec H. rewrite dict_get_set_other; [exact H|].
      destruct (String.eqb year year0) eqn:E; [|reflexivity].
      apply String.eqb_eq in E. subst year. unfold dict_mem in Hy. now rewrite H in Hy. }
    assert (Hnewrec : forall rec,
               ((exists message, rec = YearError message) \/
                (exists year_scenarios t pages,
                    NoDup year_scenarios /\
                    rec = YearScenarios (set_to_list year_scenarios)
                                        (List.length year_scenarios) t pages
                                        (pages, pages)
                                        (_categorize_scenarios_by_stage
                                           year_scenarios))) ->
               forall year r,
                 dict_get year (dict_set year0 rec d) = Some r ->
                 dict_get year d = Some r \/
                 (dict_mem year d = false /\
                  (exists planning_data crawl_urls,
                      In (year, planning_data) ((year0, pd0) :: rest) /\
                      dict_get "recommended_crawl_pages" planning_data
                      = Some crawl_urls /\
                      json_truthy crawl_urls = true) /\
                  ((exists message, r = YearError message) \/
                   (exists year_scenarios t pages,
                       NoDup year_scenarios /\
                       r = YearScenarios (set_to_list year_scenarios)
                                         (List.length year_scenarios) t pages
                                         (pages, pages)
                                         (_categorize_scenarios_by_stage
                                            year_scenarios))))).
    { intros rec Hrec year r H. destruct (String.eqb year year0) eqn:E.
      - apply String.eqb_eq in E. subst year. rewrite dict_get_set_same in H.
        injection H as <-. right. split; [exact Hy|]. split; [|exact Hrec].
        exists pd0, crawl. repeat split; [now left | exact Hget | exact Htrue].
      - left. now rewrite dict_get_set_other in H. }
    pose proof (analyze_year_outcome crawl w) as Hyear. cbv zeta in Hyear.
    set (res := _analyze_scenarios_for_year get_page_content micro_scenarios crawl w) in *.
    destruct (fst res) as [[ys k]|e] eqn:Hres.
    + destruct Hyear as (Hk & Hnd & _ & urls & _ & Hcalls1 & _).
      pose proof (analyze_pages_invariant urls [] 0 w) as Hpages.
      set (t := clock (tick (snd res))).
      set (w2 := mk_world (links_file (snd res)) (types_file (snd res))
                          (planning_file (snd res)) (scenarios_file (snd res))
                          (S (tick (snd res))) (calls (snd res))).
      set (data := dict_set year0
                     (YearScenarios (set_to_list ys) (List.length ys) t (json_len crawl)
                                    (k, json_len crawl)
                                    (_categorize_scenarios_by_stage ys)) d).
      destruct (summary_keeps data w2) as (Hl3 & Ht3 & Hp3 & Hc3 & Hs3).
      cbv zeta in Hl3, Ht3, Hp3, Hc3, Hs3.
      assert (Hfiles1 : links_file (snd res) = links_file w /\
                        types_file (snd res) = types_file w /\
                        planning_file (snd res) = planning_file w).
      { subst res. unfold _analyze_scenarios_for_year in *.
        destruct (json_iter crawl) as [urls'|e']; [|now repeat split].
        unfold bind, ret in *.
        destruct (analyze_pages_invariant urls' [] 0 w) as (_ & _ & _ & Hw).
        destruct (analyze_pages _ _ urls' [] 0 w) as [[ys' k'] w']. cbn [fst snd] in *.
        now rewrite Hw. }
      destruct Hfiles1 as (Hl1 & Ht1 & Hp1).
      apply (Hskip data (snd (_generate_analysis_summary clock round_average data w2))).
      * intros year r H. subst data. now apply Hfresh.
      * cbn [analyze_years]. rewrite Hy. fold crawl. rewrite Htruthy.
        unfold bind at 1. fold res. destruct res as [r0 w1]. cbn [fst snd] in *.
        subst r0. unfold bind at 1, now, bind at 1, next_tick, ret.
        unfold bind at 1. subst data t w2.
        now destruct (_generate_analysis_summary _ _ _ _).
      * subst data. apply Hnewrec. right. exists ys, t, (json_len crawl).
        split; [exact Hnd|]. now rewrite Hk.
      * exists (rev (map CallFetchPage urls)). rewrite Hc3. subst w2. cbn [calls].
        split; [exact Hcalls1|]. apply Forall_rev, Forall_forall.
        intros c Hc. apply in_map_iff in Hc as (u & <- & _). now exists u.
      * intros Hnil. subst data. now apply dict_set_nonempty in Hnil.
      * rewrite Hl3. subst w2. cbn. exact Hl1.
      * rewrite Ht3. subst w2. cbn. exact Ht1.
      * rewrite Hp3. subst w2. cbn. exact Hp1.
    + destruct Hyear as (_ & Hw1).
      apply (Hskip (dict_set year0 (YearError (exn_message e)) d) w).
      * intros year r H. now apply Hfresh.
      * cbn [analyze_years]. rewrite Hy. fold crawl. rewrite Htruthy.
        unfold bind at 1. fold res. destruct res as [r0 w1]. cbn [fst snd] in *.
        subst r0 w1. reflexivity.
      * apply Hnewrec. left. now exists (exn_message e).
      * exists []. split; [reflexivity | constructor].
      * intros Hnil. now apply dict_set_nonempty in Hnil.
      * reflexivity.
      * reflexivity.
      * reflexivity.
Qed.

(** The outcome of the scenario analysis on any output directory. *)
Lemma scenario_analysis_outcome (llm_planning_results : pydict (pydict json))
  (w : world) :
  let old := match scenarios_file w with
             | Some d => sd_yearly_detailed_results d
             | None => []
             end in
  let w' := snd (analyze_scenarios_for_company set_to_list clock get_page_content
                   micro_scenarios round_average llm_planning_results w) in
  exists final new,
    (forall year r, dict_get year old = Some r -> dict_get year final = Some r) /\
    (forall year r,
        dict_get year final = Some r ->
        dict_get year old = Some r \/
        (dict_mem year old = false /\
         (exists planning_data crawl_urls,
             In (year, planning_data) llm_planning_results /\
             dict_get "recommended_crawl_pages" planning_data = Some crawl_urls /\
             json_truthy crawl_urls = true) /\
         ((exists message, r = YearError message) \/
          (exists year_scenarios t pages,
              NoDup year_scenarios /\
              r = YearScenarios (set_to_list year_scenarios)
                                (List.length year_scenarios) t pages (pages, pages)
                                (_categorize_scenarios_by_stage year_scenarios))))) /\
    match final with
    | [] => scenarios_file w' = scenarios_file w
    | _ => exists sd,
             scenarios_file w' = Some sd /\
             sd_yearly_detailed_results sd = final /\
             sd_analyzed_years_count sd = List.length final /\
             sd_total_identified_scenarios sd
             = list_sum (map (fun kv => record_count (snd kv)) final)
    end /\
    calls w' = new ++ calls w /\
    Forall (fun c => exists url, c = CallFetchPage url) new /\
    links_file w' = links_file w /\ types_file w' = types_file w /\
    planning_file w' = planning_file w.
Proof.
  intros old w'.
  destruct (analyze_years_invariant llm_planning_results old w)
    as (Ha & Hc & (new & Hcalls & Hnew) & He & Hl & Ht & Hp).
  cbv zeta in *.
  set (out := analyze_years set_to_list clock get_page_content micro_scenarios
                            round_average llm_planning_results old w) in *.
  assert (Hw' : w' = snd (_generate_analysis_summary clock round_average (fst out)
                                                     (snd out))).
  { subst w' out old. unfold analyze_scenarios_for_company, bind, read_world.
    now destruct (analyze_years _ _ _ _ _ _ _ _). }
  destruct (summary_keeps (fst out) (snd out)) as (Hl2 & Ht2 & Hp2 & Hc2 & Hs2).
  cbv zeta in Hl2, Ht2, Hp2, Hc2, Hs2. rewrite <- Hw' in Hl2, Ht2, Hp2, Hc2, Hs2.
  exists (fst out), new.
  refine (conj Ha (conj Hc (conj _ (conj _ (conj Hnew _))))).
  - destruct (fst out) as [|kv final] eqn:Hfinal.
    + rewrite Hs2. now apply He.
    + eexists. split; [exact Hs2|]. repeat split.
  - now rewrite Hc2.
  - now rewrite Hl2, Ht2, Hp2.
Qed.

(** X15: scenario analysis resumes.  After
    [analyze_scenarios_for_company] every record the scenario document
    held before is kept as it was; a record that is new belongs to a year
    of the planning results with a non-empty recommendation, and is either
    an error record or a record whose scenario count is the size of the
    set found and whose success rate is the number of pages over itself;
    the document is written exactly when the mapping is not empty, with
    counts derived from the mapping; the only collaborator calls are page
    fetches; and no other document is touched. *)
Theorem X15_scenario_analysis_resumes (llm_planning_results : pydict (pydict json))
  (w : world) :
  let old := match scenarios_file w with
             | Some d => sd_yearly_detailed_results d
             | None => []
             end in
  let w' := snd (analyze_scenarios_for_company set_to_list clock get_page_content
                   micro_scenarios round_average llm_planning_results w) in
  exists final new,
    (forall year r, dict_get year old = Some r -> dict_get year final = Some r) /\
    (forall year r,
        dict_get year final = Some r ->
        dict_get year old = Some r \/
        (dict_mem year old = false /\
         (exists planning_data crawl_urls,
             In (year, planning_data) llm_planning_results /\
             dict_get "recommended_crawl_pages" planning_data = Some crawl_urls /\
             json_truthy crawl_urls = true) /\
         ((exists message, r = YearError message) \/
          (exists year_scenarios t pages,
              NoDup year_scenarios /\
              r = YearScenarios (set_to_list year_scenarios)
                                (List.length year_scenarios) t pages (pages, pages)
                                (_categorize_scenarios_by_stage year_scenarios))))) /\
    match final with
    | [] => scenarios_file w' = scenarios_file w
    | _ => exists sd,
             scenarios_file w' = Some sd /\
             sd_yearly_detailed_results sd = final /\
             sd_analyzed_years_count sd = List.length final /\
             sd_total_identified_scenarios sd
             = list_sum (map (fun kv => record_count (snd kv)) final)
    end /\
    calls w' = new ++ calls w /\
    Forall (fun c => exists url, c = CallFetchPage url) new /\
    links_file w' = links_file w /\ types_file w' = types_file w /\
    planning_file w' = planning_file w.
Proof. apply scenario_analysis_outcome. Qed.

(** ** The taxonomy document and the whole run *)

Lemma generate_core_page_types_unfold (self : planner)
  (year_links_map : pydict (list string)) (w : world) :
  generate_core_page_types clock generate_taxonomy self year_links_map w
  = match types_file w with
    | Some d => (Ok (_load_core_page_types self d), w)
    | None =>
        match generate_taxonomy (tick w)
                                (dedup_keep_order (flat_map snd year_links_map)) with
        | Raise e =>
            (Raise e,
             mk_world (links_file w) None (planning_file w) (scenarios_file w)
                      (S (tick w)) (CallTaxonomy :: calls w))
        | Ok nested =>
            (Ok (mk_planner (flatten_nested nested) nested (compiled_patterns self)),
             mk_world (links_file w)
                      (Some (mk_types_doc (clock (S (tick w))) nested
                                          (List.length (flatten_nested nested))))
                      (planning_file w) (scenarios_file w) (S (S (tick w)))
                      (CallTaxonomy :: calls w))
        end
    end.
Proof.
  unfold generate_core_page_types, bind, read_world, next_tick, record_call, now,
    write_types, ret. cbv zeta.
  destruct (types_file w) eqn:Ht; [reflexivity|]. cbn. rewrite Ht.
  now destruct (generate_taxonomy _ _).
Qed.


Lemma main_unfold (historical_urls : list (string * string)) (w : world) :
  main valid_bracketed_netloc urljoin set_to_list clock fetch_hrefs generate_taxonomy
       select_core get_page_content micro_scenarios round_average historical_urls w
  = match historical_urls with
    | [] => (ExitedEarly "no historical URLs", w)
    | _ =>
        let w1 := snd (process_urls_for_company valid_bracketed_netloc urljoin
                         set_to_list clock fetch_hrefs historical_urls w) in
        let year_links_map := match links_file w1 with
                              | Some d => ld_year_links_map d
                              | None => []
                              end in
        if negb (list_truthy year_links_map)
        then (ExitedEarly "URL processing failed", w1)
        else
          let g := generate_core_page_types clock generate_taxonomy fresh_planner
                                            year_links_map w1 in
          match fst g with
          | Raise e => (Crashed e, snd g)
          | Ok planner1 =>
              let p := generate_llm_planning valid_bracketed_netloc clock select_core
                                             planner1 year_links_map 15 (snd g) in
              match fst p with
              | Raise e => (Crashed e, snd p)
              | Ok _ =>
                  let results := match planning_file (snd p) with
                                 | Some d => pd_yearly_analysis_results d
                                 | None => []
                                 end in
                  if negb (list_truthy results)
                  then (ExitedEarly "LLM planning failed", snd p)
                  else (Completed,
                        snd (analyze_scenarios_for_company set_to_list clock
                               get_page_content micro_scenarios round_average
                               results (snd p)))
              end
          end
    end.
Proof.
  destruct historical_urls as [|yu rest]; [reflexivity|].
  cbv [main bind load_filtered_links load_llm_planning read_world ret]. cbv beta zeta.
  destruct (process_urls_for_company _ _ _ _ _ _ _) as [[] w1]. cbn [snd].
  destruct (negb (list_truthy _)); [reflexivity|].
  destruct (generate_core_page_types _ _ _ _ _) as [[planner1|e] w2]; [|reflexivity].
  cbn [fst snd].
  destruct (generate_llm_planning _ _ _ _ _ _ _) as [[planner2|e] w3]; [|reflexivity].
  cbn [fst snd]. destruct (negb (list_truthy _)); [reflexivity|].
  now destruct (analyze_scenarios_for_company _ _ _ _ _ _ _).
Qed.


End ResumeLoops.


(** ** The stage distribution *)

Lemma stage_prefix_exclusive (scenario_id : string) :
  Nat.b2n (startswith scenario_id "1.") + Nat.b2n (startswith scenario_id "2.") +
  Nat.b2n (startswith scenario_id "3.") + Nat.b2n (startswith scenario_id "4.") +
  Nat.b2n (startswith scenario_id "5.") + Nat.b2n (startswith scenario_id "6.")
  = Nat.b2n (startswith scenario_id "1." || startswith scenario_id "2." ||
             startswith scenario_id "3." || startswith scenario_id "4." ||
             startswith scenario_id "5." || startswith scenario_id "6.").
Proof.
  unfold startswith. destruct scenario_id as [|c s]; [reflexivity|].
  rewrite !prefix_cons.
  destruct c as [[] [] [] [] [] [] [] []]; cbn [Ascii.eqb Bool.eqb andb orb];
    destruct (String.prefix "." s); reflexivity.
Qed.

Lemma length_filter_cons {A : Type} (p : A -> bool) (x : A) (l : list A) :
  List.length (filter p (x :: l)) = Nat.b2n (p x) + List.length (filter p l).
Proof. cbn [filter]. now destruct (p x). Qed.

(** X18: the stage distribution always has the six stages as its keys,
    in the order of the customer journey, and its counts add up to the
    number of scenarios whose id starts with one of the six stage prefixes:
    no scenario is counted twice, and a scenario with another id is counted
    nowhere. *)
Theorem X18_stage_distribution (scenarios : list string) :
  dict_keys (_categorize_scenarios_by_stage scenarios)
  = [ "Awareness Stage"; "Interest Stage"; "Consideration Stage";
      "Decision Stage"; "Fulfillment Stage"; "Retention Stage" ] /\
  list_sum (map snd (_categorize_scenarios_by_stage scenarios))
  = List.length (filter in_some_stage scenarios) /\
  list_sum (map snd (_categorize_scenarios_by_stage scenarios)) <= List.length scenarios.
Proof.
  split; [reflexivity|].
  assert (H : list_sum (map snd (_categorize_scenarios_by_stage scenarios))
              = List.length (filter in_some_stage scenarios)).
  { unfold _categorize_scenarios_by_stage, stage_prefixes.
    cbn [map snd fst list_sum].
    induction scenarios as [|sc l IH]; [reflexivity|].
    rewrite !length_filter_cons.
    assert (E : Nat.b2n (in_some_stage sc)
                = Nat.b2n (startswith (before_char "_" sc) "1.") +
                  Nat.b2n (startswith (before_char "_" sc) "2.") +
                  Nat.b2n (startswith (before_char "_" sc) "3.") +
                  Nat.b2n (startswith (before_char "_" sc) "4.") +
                  Nat.b2n (startswith (before_char "_" sc) "5.") +
                  Nat.b2n (startswith (before_char "_" sc) "6.")).
    { rewrite stage_prefix_exclusive. unfold in_some_stage, stage_prefixes.
      cbn [existsb snd]. now rewrite orb_false_r, !orb_assoc. }
    rewrite E, <- IH. unfold list_sum. cbn [fold_right]. lia. }
  split; [exact H|]. rewrite H. apply filter_length_le.
Qed.

(** ** Loading the historical URLs *)

Lemma ltb_false_leb (a b : string) : String.ltb a b = false <-> String.leb b a = true.
Proof.
  unfold String.ltb, String.leb. rewrite (String.compare_antisym a b).
  destruct (String.compare b a); cbn; split; congruence.
Qed.

Lemma ltb_true_leb (a b : string) : String.ltb a b = true -> String.leb a b = true.
Proof. unfold String.ltb, String.leb. now destruct (String.compare a b). Qed.

Lemma leb_trans (a b c : string) :
  String.leb a b = true -> String.leb b c = true -> String.leb a c = true.
Proof.
  unfold String.leb. intros Hab Hbc.
  destruct (String.compare a b) eqn:Eab; try discriminate Hab.
  - apply String.compare_eq_iff in Eab. now subst b.
  - destruct (String.compare b c) eqn:Ebc; try discriminate Hbc.
    + apply String.compare_eq_iff in Ebc. subst c. now rewrite Eab.
    + assert (H : String.compare a c = Lt).
      { apply OrderedTypeEx.String_as_OT.cmp_lt.
        apply OrderedTypeEx.String_as_OT.lt_trans with b;
          now apply OrderedTypeEx.String_as_OT.cmp_lt. }
      now rewrite H.
Qed.

Lemma insert_by_year_perm (x : string * string) (l : list (string * string)) :
  Permutation (x :: l) (insert_by_year x l).
Proof.
  induction l as [|y l IH]; cbn [insert_by_year]; [reflexivity|].
  destruct (String.ltb (fst y) (fst x)); [|reflexivity].
  rewrite perm_swap. now apply perm_skip.
Qed.

Lemma sort_by_year_perm (l : list (string * string)) : Permutation l (sort_by_year l).
Proof.
  induction l as [|x l IH]; [reflexivity|]. cbn [sort_by_year fold_right].
  rewrite <- insert_by_year_perm. now apply perm_skip.
Qed.

Lemma insert_by_year_sorted (x : string * string) (l : list (string * string)) :
  StronglySorted year_ordered l -> StronglySorted year_ordered (insert_by_year x l).
Proof.
  induction l as [|y l IH]; intros H; cbn [insert_by_year].
  - repeat constructor.
  - inversion H as [|? ? Hl Hall]; subst.
    destruct (String.ltb (fst y) (fst x)) eqn:E.
    + constructor; [now apply IH|].
      apply (Permutation_Forall (insert_by_year_perm x l)).
      constructor; [now apply ltb_true_leb | exact Hall].
    + apply ltb_false_leb in E. constructor; [exact H|].
      constructor; [exact E|]. eapply Forall_impl; [|exact Hall].
      intros z Hz. unfold year_ordered in *. now apply leb_trans with (fst y).
Qed.

Lemma sort_by_year_sorted (l : list (string * string)) :
  StronglySorted year_ordered (sort_by_year l).
Proof.
  induction l as [|x l IH]; [constructor|]. now apply insert_by_year_sorted.
Qed.

Lemma dedup_urls_In (l : list (string * string)) :
  forall seen e, In e (dedup_urls seen l) -> In e l /\ str_in (snd e) seen = false.
Proof.
  induction l as [|[y u] l IH]; intros seen e H; [destruct H|].
  cbn [dedup_urls] in H. destruct (str_in u seen) eqn:E.
  - apply IH in H as [H1 H2]. split; [now right | exact H2].
  - destruct H as [<-|H]; [split; [now left | exact E]|].
    apply IH in H as [H1 H2]. split; [now right|].
    unfold str_in in *. cbn [existsb] in H2. now apply orb_false_elim in H2.
Qed.

Lemma dedup_urls_NoDup (l : list (string * string)) :
  forall seen, NoDup (map snd (dedup_urls seen l)).
Proof.
  induction l as [|[y u] l IH]; intros seen; [constructor|].
  cbn [dedup_urls]. destruct (str_in u seen); [apply IH|].
  cbn [map snd]. constructor; [|apply IH].
  intros H. apply in_map_iff in H as (e & He & Hin).
  apply dedup_urls_In in Hin as [_ Hin]. rewrite He in Hin.
  unfold str_in in Hin. cbn [existsb] in Hin. now rewrite String.eqb_refl in Hin.
Qed.

Lemma dedup_urls_sorted (l : list (string * string)) :
  forall seen, StronglySorted year_ordered l ->
               StronglySorted year_ordered (dedup_urls seen l).
Proof.
  induction l as [|[y u] l IH]; intros seen H; [constructor|].
  inversion H as [|? ? Hl Hall]; subst. cbn [dedup_urls].
  destruct (str_in u seen); [now apply IH|].
  constructor; [now apply IH|]. apply Forall_forall. intros e He.
  apply dedup_urls_In in He as [He _]. rewrite Forall_forall in Hall. now apply Hall.
Qed.

Lemma dedup_urls_covers (l : list (string * string)) :
  forall seen y u, In (y, u) l -> str_in u seen = false ->
                   exists y', In (y', u) (dedup_urls seen l).
Proof.
  induction l as [|[y0 u0] l IH]; intros seen y u H Hs; [destruct H|].
  cbn [dedup_urls]. destruct H as [H|H].
  - injection H as -> ->. rewrite Hs. exists y. now left.
  - destruct (str_in u0 seen) eqn:E; [now apply IH with y|].
    destruct (String.eqb u u0) eqn:Eu.
    + apply String.eqb_eq in Eu. subst u0. exists y0. now left.
    + destruct (IH (u0 :: seen) y u H) as [y' Hy'].
      * unfold str_in in *. cbn [existsb]. now rewrite Eu, Hs.
      * exists y'. now right.
Qed.

Lemma collect_historical_In (lines : list string) (year url : string) :
  In (year, url) (collect_historical lines) <->
  exists raw, In raw lines /\ url = strip raw /\ archive_line year url.
Proof.
  unfold collect_historical, archive_line. rewrite in_flat_map. split.
  - intros (raw & Hin & H). exists raw. split; [exact Hin|]. cbv zeta in H.
    destruct (truthy (strip raw)) eqn:Ht; [|destruct H].
    destruct (startswith (strip raw) "https://web.archive.org/") eqn:Hp; [|destruct H].
    cbn [negb orb] in H.
    destruct (search_capture_year (strip raw)) as [y|] eqn:Hy; [|destruct H].
    destruct H as [H|[]]. injection H as <- <-. now repeat split.
  - intros (raw & Hin & -> & Ht & Hp & Hy). exists raw. split; [exact Hin|].
    cbv zeta. rewrite Ht, Hp, Hy. now left.
Qed.

Lemma take_length (n : nat) (s : string) :
  String.length (take n s) = n -> String.length (take 4 (take n s)) = Nat.min 4 n.
Proof.
  revert s. do 4 (destruct n as [|n]; [intros s _; now destruct s|];
                  intros [|? s] H; [discriminate H|]; cbn in H; injection H as H;
                  revert s H).
  intros s _. reflexivity.
Qed.

Lemma all_chars_take (p : ascii -> bool) (n : nat) (s : string) :
  all_chars p s = true -> all_chars p (take n s) = true.
Proof.
  unfold all_chars. revert s. induction n as [|n IH]; intros s H; [reflexivity|].
  destruct s as [|c s]; [reflexivity|]. cbn in *.
  apply andb_prop in H as [-> H]. now apply IH.
Qed.

Lemma capture_year_at_shape (s year : string) :
  capture_year_at s = Some year ->
  String.length year = 4 /\ all_chars is_digit year = true.
Proof.
  unfold capture_year_at. destruct (startswith s "/web/"); [|discriminate].
  cbv zeta. destruct (_ && _ && _) eqn:E; [|discriminate].
  apply andb_prop in E as [E _]. apply andb_prop in E as [Hl Hd].
  apply Nat.eqb_eq in Hl. intros H. injection H as <-.
  split; [exact (take_length _ Hl) | exact (all_chars_take is_digit 4 _ Hd)].
Qed.

Lemma capture_year_shape (s year : string) :
  search_capture_year s = Some year ->
  String.length year = 4 /\ all_chars is_digit year = true.
Proof.
  induction s as [|c s IH]; cbn [search_capture_year].
  - destruct (capture_year_at "") eqn:E; [|discriminate].
    intros H. injection H as ->. now apply capture_year_at_shape with "".
  - destruct (capture_year_at (String c s)) eqn:E; [|exact IH].
    intros H. injection H as ->. now apply capture_year_at_shape with (String c s).
Qed.


(** ** The inclusion test in closed form *)

Lemma lower_char_newline (d : ascii) :
  Ascii.eqb (lower_char d) newline = Ascii.eqb d newline.
Proof. destruct d as [[] [] [] [] [] [] [] []]; reflexivity. Qed.

Lemma literal_search (lit : string) :
  has_char "\" lit = false ->
  forall (bos : bool) (s : string),
    search_from (pattern_items lit) bos s = contains (lower s) (lower lit).
Proof.
  intros H bos s. revert bos. induction s as [|c s IH]; intros bos.
  - cbn [search_from lower contains]. now rewrite literal_items_match.
  - cbn [search_from lower contains]. rewrite literal_items_match by exact H.
    cbn [lower]. now rewrite IH.
Qed.

Lemma literal_eol_match (lit : string) :
  has_char "\" lit = false ->
  forall (bos : bool) (s : string),
    match_items (pattern_items lit ++ [IEol]) bos s
    = String.eqb (lower s) (lower lit) ||
      String.eqb (lower s) (lower lit +++ String newline "").
Proof.
  induction lit as [|c lit IH]; intros H bos s.
  - cbn [pattern_items app match_items lower String.append]. unfold at_eol.
    rewrite andb_true_r. destruct s as [|d [|e s]]; cbn [lower String.eqb];
      try reflexivity.
    + now rewrite lower_char_newline.
    + now rewrite lower_char_newline.
  - cbn [has_char] in H. apply orb_false_iff in H. destruct H as [Hc Hl].
    rewrite (@pattern_items_literal c lit Hc).
    cbn [app match_items lower String.append].
    destruct s as [|d s]; [reflexivity|]. cbn [lower String.eqb].
    rewrite (IH Hl). unfold atom_matches. rewrite (Ascii.eqb_sym (lower_char c)).
    now destruct (Ascii.eqb (lower_char d) (lower_char c)).
Qed.

Lemma literal_eol_search (lit : string) :
  has_char "\" lit = false ->
  forall (bos : bool) (s : string),
    search_from (pattern_items lit ++ [IEol]) bos s
    = endswith (lower s) (lower lit) ||
      endswith (lower s) (lower lit +++ String newline "").
Proof.
  intros H bos s. revert bos. induction s as [|c s IH]; intros bos.
  - cbn [search_from lower endswith]. rewrite literal_eol_match by exact H.
    cbn [lower]. now rewrite !orb_false_r.
  - cbn [search_from lower endswith]. rewrite literal_eol_match by exact H.
    cbn [lower]. rewrite IH.
    destruct (String.eqb _ (lower lit)), (String.eqb _ (lower lit +++ _)),
      (endswith (lower s) (lower lit)), (endswith (lower s) (lower lit +++ _));
      reflexivity.
Qed.

(** X20: [_should_include_url] in closed form.  It never raises, and it
    rejects a URL exactly when the lower-cased URL ends with one of the six
    listed extensions (a final line feed apart) or holds one of the eleven
    listed texts; the order of the patterns plays no role. *)
Theorem X20_inclusion_test_closed_form (url : string) :
  _should_include_url url
  = Ok (negb (excluded_by_extension (lower url) || excluded_by_text (lower url))).
Proof.
  unfold _should_include_url, exclude_patterns, excluded_by_extension, excluded_by_text.
  assert (Hext : forall lit, has_char "\" lit = false -> lower lit = lit ->
                   regex_search (pattern_items lit ++ [IEol]) (lower url)
                   = endswith (lower url) lit ||
                     endswith (lower url) (lit +++ String newline "")).
  { intros lit H Hl. unfold regex_search. rewrite (literal_eol_search lit H).
    now rewrite lower_idempotent, Hl. }
  assert (Htxt : forall lit, has_char "\" lit = false -> lower lit = lit ->
                   regex_search (pattern_items lit) (lower url)
                   = contains (lower url) lit).
  { intros lit H Hl. unfold regex_search. rewrite (literal_search lit H).
    now rewrite lower_idempotent, Hl. }
  cbn [should_include_loop existsb].
  change (re_compile "\.pdf$") with (Some (pattern_items ".pdf" ++ [IEol])).
  change (re_compile "\.jpg$") with (Some (pattern_items ".jpg" ++ [IEol])).
  change (re_compile "\.png$") with (Some (pattern_items ".png" ++ [IEol])).
  change (re_compile "\.gif$") with (Some (pattern_items ".gif" ++ [IEol])).
  change (re_compile "\.css$") with (Some (pattern_items ".css" ++ [IEol])).
  change (re_compile "\.js$") with (Some (pattern_items ".js" ++ [IEol])).
  change (re_compile "/legal/") with (Some (pattern_items "/legal/")).
  change (re_compile "/privacy/") with (Some (pattern_items "/privacy/")).
  change (re_compile "/terms/") with (Some (pattern_items "/terms/")).
  change (re_compile "/cookie") with (Some (pattern_items "/cookie")).
  change (re_compile "/sitemap") with (Some (pattern_items "/sitemap")).
  change (re_compile "/robots") with (Some (pattern_items "/robots")).
  change (re_compile "/favicon") with (Some (pattern_items "/favicon")).
  change (re_compile "mailto:") with (Some (pattern_items "mailto:")).
  change (re_compile "tel:") with (Some (pattern_items "tel:")).
  change (re_compile "#") with (Some (pattern_items "#")).
  change (re_compile "javascript:") with (Some (pattern_items "javascript:")).
  cbv beta iota. rewrite !Hext, !Htxt by reflexivity.
  cbn [String.append].
  repeat match goal with
         | |- context [if ?b then _ else _] => destruct b; cbn [orb negb]; try reflexivity
         end.
Qed.

(** ** Reading the model's answer *)

Lemma length_append (a b : string) :
  String.length (a +++ b) = String.length a + String.length b.
Proof. induction a as [|c a IH]; cbn; [reflexivity | now rewrite IH]. Qed.

Lemma append_assoc (a b c : string) : (a +++ b) +++ c = a +++ (b +++ c).
Proof. induction a as [|d a IH]; cbn; [reflexivity | now rewrite IH]. Qed.

Lemma drop_append (a s : string) (n : nat) :
  drop (String.length a + n) (a +++ s) = drop n s.
Proof. induction a as [|c a IH]; cbn; [reflexivity | exact IH]. Qed.

Lemma take_append (a s : string) : take (String.length a) (a +++ s) = a.
Proof. induction a as [|c a IH]; cbn; [now destruct s | now rewrite IH]. Qed.

Lemma take_all (s : string) : take (String.length s) s = s.
Proof. induction s as [|c s IH]; cbn; [reflexivity | now rewrite IH]. Qed.

Lemma take_take_shorter (n : nat) (a s : string) :
  n <= String.length a -> take n (a +++ s) = take n a.
Proof.
  revert a. induction n as [|n IH]; intros a H; [reflexivity|].
  destruct a as [|c a]; [cbn in H; lia|]. cbn in *. rewrite IH; [reflexivity | lia].
Qed.

Lemma prefix_append_self (sub rest : string) : String.prefix sub (sub +++ rest) = true.
Proof.
  induction sub as [|c sub IH]; cbn [String.append]; [apply prefix_empty|].
  now rewrite prefix_cons, Ascii.eqb_refl, IH.
Qed.

Section Find.

Variable c : ascii.
Variable sub' : string.

Lemma find_skips (pre rest : string) :
  has_char c pre = false ->
  find (pre +++ String c sub' +++ rest) (String c sub') = Some (String.length pre).
Proof.
  remember (String c sub' +++ rest) as X eqn:HX.
  induction pre as [|d pre IH]; intros H.
  - cbn [String.append String.length]. subst X. cbn [String.append find].
    now rewrite prefix_cons, Ascii.eqb_refl, prefix_append_self.
  - cbn [has_char] in H. apply orb_false_elim in H as [Hd Hp].
    cbn [String.append find String.length]. rewrite prefix_cons, Hd. cbn [andb].
    now rewrite (IH Hp).
Qed.

Lemma find_nothing (s : string) :
  has_char c s = false -> find s (String c sub') = None.
Proof.
  induction s as [|d s IH]; intros H; [reflexivity|].
  cbn [has_char] in H. apply orb_false_elim in H as [Hd Hs].
  cbn [find]. rewrite prefix_cons, Hd. cbn [andb]. now rewrite (IH Hs).
Qed.

Lemma contains_skips (pre rest : string) :
  contains (pre +++ String c sub' +++ rest) (String c sub') = true.
Proof.
  remember (String c sub' +++ rest) as X eqn:HX.
  induction pre as [|d pre IH].
  - cbn [String.append]. subst X. cbn [String.append contains].
    now rewrite prefix_cons, Ascii.eqb_refl, prefix_append_self.
  - cbn [String.append contains]. rewrite IH. apply orb_true_r.
Qed.

End Find.

Lemma find_late (c d : ascii) (pre rest : string) :
  has_char c pre = false -> Ascii.eqb c d = false ->
  match find (pre +++ String d rest) (String c "") with
  | Some i => String.length pre < i
  | None => True
  end.
Proof.
  intros Hp Hd. induction pre as [|e pre IH].
  - cbn [String.append find String.length]. rewrite prefix_cons, Hd. cbn [andb].
    destruct (find rest (String c "")); cbn; [lia | exact I].
  - cbn [has_char] in Hp. apply orb_false_elim in Hp as [He Hp].
    cbn [String.append find String.length]. rewrite prefix_cons, He. cbn [andb].
    specialize (IH Hp). destruct (find _ _); cbn; [lia | exact I].
Qed.

Lemma rfind_last (c : ascii) (s post : string) :
  has_char c post = false ->
  rfind_char c (s +++ String c post) = Some (String.length s).
Proof.
  intros H.
  assert (Hpost : rfind_char c post = None).
  { induction post as [|d post IH]; [reflexivity|].
    cbn [has_char] in H. apply orb_false_elim in H as [Hd Hp].
    cbn [rfind_char]. now rewrite (IH Hp), Hd. }
  induction s as [|d s IH]; cbn [String.append rfind_char String.length].
  - now rewrite Hpost, Ascii.eqb_refl.
  - now rewrite IH.
Qed.

Lemma slice_bound_inside (len i : Z) : (0 <= i <= len)%Z -> slice_bound len i = i.
Proof.
  intros H. unfold slice_bound. destruct (i <? 0)%Z eqn:E; [apply Z.ltb_lt in E|]; lia.
Qed.

Lemma slice_inside (s : string) (a n : nat) :
  a + n <= String.length s ->
  slice s (Z.of_nat a) (Z.of_nat (a + n)) = take n (drop a s).
Proof.
  intros H. unfold slice. rewrite !slice_bound_inside by lia.
  rewrite Nat2Z.id. f_equal. lia.
Qed.

Lemma find_from_start (s sub : string) :
  find_from s sub 0
  = match find s sub with Some i => Z.of_nat i | None => (-1)%Z end.
Proof.
  unfold find_from. rewrite slice_bound_inside by lia. cbn [Z.to_nat drop].
  now destruct (find s sub).
Qed.

(** X21: a fenced answer.  When the answer holds a fenced JSON block and
    neither the text before it nor the block itself holds a backtick, the
    text handed to the JSON parser is the trimmed block, whatever follows
    the closing fence; so the call returns what the parser makes of the
    block.  When the closing fence is missing, the last character of the
    answer is cut off before parsing. *)
Theorem X21_fenced_answer (json_loads : string -> option json)
  (pre body post : string) :
  has_char "`" pre = false ->
  has_char "`" body = false ->
  extract_json_text (pre +++ "```json" +++ body +++ "```" +++ post) = Ok (strip body) /\
  _parse_llm_response json_loads (pre +++ "```json" +++ body +++ "```" +++ post)
  = match json_loads (strip body) with
    | Some parsed => Ok parsed
    | None => Raise (OtherError "LLM response format error: JSONDecodeError")
    end /\
  extract_json_text (pre +++ "```json" +++ body)
  = Ok (strip (take (String.length body - 1) body)).
Proof.
  intros Hpre Hbody.
  assert (H1 : extract_json_text (pre +++ "```json" +++ body +++ "```" +++ post)
               = Ok (strip body)).
  { unfold extract_json_text.
    rewrite (contains_skips "`" "``json" pre (body +++ "```" +++ post)).
    rewrite find_from_start, (find_skips "`" "``json" pre (body +++ "```" +++ post) Hpre).
    cbv zeta. set (R := pre +++ "```json" +++ body +++ "```" +++ post).
    assert (Hlen : String.length R
                   = String.length pre + 7 + (String.length body + 3 + String.length post)).
    { subst R. rewrite !length_append. cbn [String.length]. lia. }
    assert (Hdrop : drop (String.length pre + 7) R = body +++ "```" +++ post).
    { subst R. rewrite drop_append.
      exact (drop_append "```json" (body +++ "```" +++ post) 0). }
    assert (Hend : find_from R "```" (Z.of_nat (String.length pre) + 7)
                   = Z.of_nat (String.length pre + 7 + String.length body)).
    { unfold find_from. rewrite slice_bound_inside by lia.
      replace (Z.to_nat (Z.of_nat (String.length pre) + 7))
        with (String.length pre + 7) by lia.
      rewrite Hdrop, (find_skips "`" "``" body post Hbody). lia. }
    rewrite Hend.
    replace (Z.of_nat (String.length pre) + 7)%Z
      with (Z.of_nat (String.length pre + 7)) by lia.
    rewrite slice_inside by lia. rewrite Hdrop. now rewrite take_append. }
  split; [exact H1|]. split; [unfold _parse_llm_response; now rewrite H1|].
  unfold extract_json_text.
  rewrite (contains_skips "`" "``json" pre body).
  rewrite find_from_start, (find_skips "`" "``json" pre body Hpre).
  cbv zeta. set (R := pre +++ "```json" +++ body).
  assert (Hlen : String.length R = String.length pre + 7 + String.length body).
  { subst R. rewrite !length_append. cbn [String.length]. lia. }
  assert (Hdrop : drop (String.length pre + 7) R = body).
  { subst R. rewrite drop_append. exact (drop_append "```json" body 0). }
  assert (Hend : find_from R "```" (Z.of_nat (String.length pre) + 7) = (-1)%Z).
  { unfold find_from. rewrite slice_bound_inside by lia.
    replace (Z.to_nat (Z.of_nat (String.length pre) + 7))
      with (String.length pre + 7) by lia.
    now rewrite Hdrop, (find_nothing "`" "``" body Hbody). }
  rewrite Hend. unfold slice.
  rewrite (@slice_bound_inside (Z.of_nat (String.length R))
                               (Z.of_nat (String.length pre) + 7)) by lia.
  replace (Z.to_nat (Z.of_nat (String.length pre) + 7))
    with (String.length pre + 7) by lia.
  rewrite Hdrop. do 3 f_equal.
  unfold slice_bound. change (-1 <? 0)%Z with true. cbv iota. lia.
Qed.

Lemma X21_fenced_answer_witness :
  extract_json_text ("Here it is: " +++ "```json" +++ " {} " +++ "```" +++ " Done.")
  = Ok (strip " {} ") /\
  _parse_llm_response (fun _ => Some (JObj []))
                      ("Here it is: " +++ "```json" +++ " {} " +++ "```" +++ " Done.")
  = match (fun _ : string => Some (JObj [])) (strip " {} ") with
    | Some parsed => Ok parsed
    | None => Raise (OtherError "LLM response format error: JSONDecodeError")
    end /\
  extract_json_text ("Here it is: " +++ "```json" +++ " {} ")
  = Ok (strip (take (String.length " {} " - 1) " {} ")).
Proof.
  apply (X21_fenced_answer (fun _ => Some (JObj [])) "Here it is: " " {} " " Done.");
    reflexivity.
Defined.

(** X22: a bare answer.  Without a fenced block, an object is cut out
    from the first opening brace to the last closing brace, provided no
    square bracket comes before that brace: surrounding prose without such
    characters is dropped.  When the answer holds neither a brace nor a
    square bracket, the call raises. *)
Theorem X22_bare_answer (json_loads : string -> option json)
  (pre mid post : string) :
  contains (pre +++ "{" +++ mid +++ "}" +++ post) "```json" = false ->
  has_char "{" pre = false -> has_char "[" pre = false ->
  has_char "}" post = false ->
  extract_json_text (pre +++ "{" +++ mid +++ "}" +++ post) = Ok ("{" +++ mid +++ "}") /\
  (contains pre "```json" = false ->
   exists e, _parse_llm_response json_loads pre = Raise e).
Proof.
  intros Hfence Hobj Harr Hpost. split.
  - unfold extract_json_text. rewrite Hfence, !find_from_start.
    rewrite (find_skips "{" "" pre (mid +++ "}" +++ post) Hobj).
    pose proof (@find_late "[" "{" pre (mid +++ "}" +++ post) Harr eq_refl) as Hlate.
    change (pre +++ String "{" (mid +++ "}" +++ post))
      with (pre +++ "{" +++ mid +++ "}" +++ post) in Hlate.
    set (R := pre +++ "{" +++ mid +++ "}" +++ post) in *.
    assert (Hr : rfind_from_end "}" R = Z.of_nat (String.length pre + 1 + String.length mid)).
    { unfold rfind_from_end. subst R.
      replace (pre +++ "{" +++ mid +++ "}" +++ post)
        with ((pre +++ "{" +++ mid) +++ String "}" post)
        by (now rewrite !append_assoc).
      rewrite (@rfind_last "}" (pre +++ "{" +++ mid) post Hpost), !length_append. cbn [String.length]. f_equal. lia. }
    assert (Hlen : String.length R
                   = String.length pre + (1 + (String.length mid + (1 + String.length post)))).
    { subst R. rewrite !length_append. cbn [String.length]. lia. }
    assert (Hcut : slice R (Z.of_nat (String.length pre))
                         (rfind_from_end "}" R + 1) = "{" +++ mid +++ "}").
    { rewrite Hr.
      replace (Z.of_nat (String.length pre + 1 + String.length mid) + 1)%Z
        with (Z.of_nat (String.length pre + (String.length mid + 2))) by lia.
      rewrite slice_inside by lia. subst R.
      rewrite <- (Nat.add_0_r (String.length pre)) at 1. rewrite drop_append.
      cbn [drop].
      replace ("{" +++ mid +++ "}" +++ post) with (("{" +++ mid +++ "}") +++ post)
        by (now rewrite !append_assoc).
      replace (String.length mid + 2) with (String.length ("{" +++ mid +++ "}"))
        by (rewrite !length_append; cbn [String.length]; lia).
      apply take_append. }
    destruct (find R "[") as [j|].
    + replace (Z.of_nat (String.length pre) =? -1)%Z with false
        by (symmetry; apply Z.eqb_neq; lia).
      replace (Z.of_nat (String.length pre) <? Z.of_nat j)%Z with true
        by (symmetry; apply Z.ltb_lt; lia).
      rewrite orb_true_r. cbn [andb negb]. now rewrite Hcut.
    + replace (Z.of_nat (String.length pre) =? -1)%Z with false
        by (symmetry; apply Z.eqb_neq; lia).
      cbn [andb negb Z.eqb orb]. now rewrite Hcut.
  - intros Hnofence. unfold _parse_llm_response, extract_json_text.
    rewrite Hnofence, !find_from_start.
    rewrite (find_nothing "{" "" pre Hobj), (find_nothing "[" "" pre Harr).
    cbn. now eexists.
Qed.

Lemma X22_bare_answer_witness :
  extract_json_text ("Sure. " +++ "{" +++ "[1]" +++ "}" +++ " Bye")
  = Ok ("{" +++ "[1]" +++ "}") /\
  (contains "Sure. " "```json" = false ->
   exists e, _parse_llm_response (fun _ => None) "Sure. " = Raise e).
Proof.
  apply (X22_bare_answer (fun _ => None) "Sure. " "[1]" " Bye"); reflexivity.
Defined.

